(** * trainer_downloader: artifact resolution and idempotent fetch

    A shallow embedding of [dockerfiles/trainer_downloader.py].  The Python
    functions become functions of a state-and-exception monad over an explicit
    file system, a log of the calls made to the outside (HTTP, repository
    listing, hub downloads) and the lines printed.  What the outside answers
    is a value of type [world]. *)

From Stdlib Require Import ZArith Ascii Strings.Byte.
From Stdlib Require String.
From stdpp Require Import base option list gmap strings.

Local Open Scope Z_scope.

(** ** Python strings and [os.path] *)

Module Py.

(** [if s:] on a string. *)
Definition truthy (s : string) : bool := negb (String.eqb s "").

(** [s.startswith(p)]. *)
Definition startswith (s p : string) : bool := String.prefix p s.

(** [s.endswith(suffix)]: some tail of [s] is [suffix]. *)
Fixpoint endswith (s suffix : string) : bool :=
  String.eqb s suffix ||
  match s with
  | EmptyString => false
  | String _ s' => endswith s' suffix
  end.

(** [s.replace(old, new)] for a one-character [old]. *)
Fixpoint replace (old : ascii) (new s : string) : string :=
  match s with
  | EmptyString => EmptyString
  | String c s' =>
      (if Ascii.eqb c old then new else String c EmptyString) +:+ replace old new s'
  end.

(** [posixpath.join(a, b)]. *)
Definition join (a b : string) : string :=
  if startswith b "/" then b
  else if negb (truthy a) || endswith a "/" then a +:+ b
  else a +:+ "/" +:+ b.

(** [posixpath.basename(p)]: what follows the last slash. *)
Fixpoint basename_from (cur p : string) : string :=
  match p with
  | EmptyString => cur
  | String c p' =>
      if Ascii.eqb c "/" then basename_from "" p'
      else basename_from (cur +:+ String c EmptyString) p'
  end.
Definition basename (p : string) : string := basename_from "" p.

(** The directories [os.makedirs(p)] walks through before [p] itself,
    outermost first: the prefixes of [p] that stop in front of a slash. *)
Fixpoint dirnames_from (pre p : string) : list string :=
  match p with
  | EmptyString => []
  | String c p' =>
      (if Ascii.eqb c "/" && truthy pre && negb (endswith pre "/")
       then [pre] else [])
      ++ dirnames_from (pre +:+ String c EmptyString) p'
  end.
Definition dirnames (p : string) : list string := dirnames_from "" p.

(** [s.rstrip("/")]. *)
Fixpoint rstrip_slash (s : string) : string :=
  match s with
  | EmptyString => EmptyString
  | String c s' =>
      let r := rstrip_slash s' in
      if Ascii.eqb c "/" && negb (truthy r) then EmptyString else String c r
  end.

(** [p[:p.rfind("/") + 1]]: [p] up to its last slash, which is kept. *)
Fixpoint head_slash (p : string) : string :=
  match p with
  | EmptyString => EmptyString
  | String c p' =>
      if Ascii.eqb c "/" || truthy (head_slash p')
      then String c (head_slash p') else EmptyString
  end.

(** [posixpath.dirname(p)]: the head without its trailing slashes, unless
    it is made of slashes only. *)
Definition dirname (p : string) : string :=
  let head := head_slash p in
  if truthy (rstrip_slash head) then rstrip_slash head else head.

End Py.

(** ** Data model *)

Definition bytes := list byte.

(** The string-valued enumerations of the source. *)
Inductive FileFormat := CSV | JSON | HF | S3.

Definition FileFormat_value (f : FileFormat) : string :=
  match f with CSV => "csv" | JSON => "json" | HF => "hf" | S3 => "s3" end.

Inductive TaskType := INSTRUCTTEXTTASK | IMAGETASK | DPOTASK | GRPOTASK | CHATTASK.

Definition TaskType_value (t : TaskType) : string :=
  match t with
  | INSTRUCTTEXTTASK => "InstructTextTask"
  | IMAGETASK => "ImageTask"
  | DPOTASK => "DpoTask"
  | GRPOTASK => "GrpoTask"
  | CHATTASK => "ChatTask"
  end.

(** An entry of [list_repo_tree]: a file carries a size (possibly [None]),
    a folder has no [size] attribute at all. *)
Inductive RepoEntry :=
  | RepoFile (path : string) (size : option Z)
  | RepoFolder (path : string).

Definition entry_path (e : RepoEntry) : string :=
  match e with RepoFile p _ => p | RepoFolder p => p end.

(** [Some s] exactly when [hasattr(file, "size") and file.size is not None]. *)
Definition entry_size (e : RepoEntry) : option Z :=
  match e with RepoFile _ s => s | RepoFolder _ => None end.

(** ** The outside world *)

(** Errors raised by the libraries the program calls (aiohttp,
    huggingface_hub, transformers). *)
Definition ext_error := string.

Record world := World {
  (** [urlparse(url).path] *)
  urlparse_path : string -> string;
  (** what [os.path.expanduser] makes of a path that starts with a tilde *)
  user_home : string -> string;
  (** status and body of the response to a GET *)
  http_get : string -> ext_error + (Z * bytes);
  (** [HfApi.list_repo_tree(repo_id, repo_type)] *)
  repo_tree : string -> string -> ext_error + list RepoEntry;
  (** the content [hf_hub_download(repo_id, filename)] retrieves *)
  hub_file : string -> string -> ext_error + bytes;
  (** the files, by relative path, of
      [snapshot_download(repo_id, repo_type, allow_patterns)] *)
  snapshot : string -> string -> option (list string) ->
             ext_error + list (string * bytes);
  (** the files [CLIPTokenizer.from_pretrained(name)] leaves in its cache *)
  clip_files : string -> ext_error + list (string * bytes)
}.

(** ** File system, log and exceptions *)

Inductive node := Dir | File (data : bytes).

(** The calls to the outside, as the log records them.  [HfHubDownload] is
    the download of one file into the temporary directory of the block that
    makes it; [SnapshotDownload] with no [allow_patterns] is the snapshot of
    a whole repository. *)
Inductive call :=
  | HttpGet (url : string)
  | ListRepoTree (repo_id repo_type : string)
  | HfHubDownload (repo_id filename : string)
  | SnapshotDownload (repo_id repo_type local_dir : string)
                     (allow_patterns : option (list string))
  | ClipFromPretrained (name cache_dir : string).

Record state := State {
  fs : gmap string node;
  net : list call;
  stdout : list string
}.

Inductive os_error := EEXIST | ENOTDIR | EISDIR | ENOENT | ESAMEFILE.

Inductive exn :=
  (** [Exception(f"Failed to download file: {response.status}")] *)
  | FailedToDownload (status : Z)
  (** [FileNotFoundError(f"No valid file found in root of repo '{repo_id}'.")] *)
  | FileNotFoundError (repo_id : string)
  | UnboundLocalError (name : string)
  | OSError (e : os_error) (path : string)
  | External (e : ext_error)
  | SystemExit (code : Z).

Inductive result (A : Type) :=
  | Ok (a : A)
  | Raise (e : exn).
Arguments Ok {A} a.
Arguments Raise {A} e.

Definition M (A : Type) : Type := state -> result A * state.

Definition ret {A} (a : A) : M A := fun st => (Ok a, st).

Definition raise {A} (e : exn) : M A := fun st => (Raise e, st).

Definition bind {A B} (m : M A) (k : A -> M B) : M B :=
  fun st =>
    match m st with
    | (Ok a, st') => k a st'
    | (Raise e, st') => (Raise e, st')
    end.

Declare Scope py_scope.
Delimit Scope py_scope with py.
Notation "x <- m ;; k" := (bind m (fun x => k))
  (at level 100, m at next level, right associativity) : py_scope.
Notation "m ;;; k" := (bind m (fun _ => k))
  (at level 100, right associativity) : py_scope.
Local Open Scope py_scope.

Definition set_fs (m : gmap string node) (st : state) : state :=
  State m (net st) (stdout st).

Definition log (c : call) : M unit :=
  fun st => (Ok tt, State (fs st) (net st ++ [c]) (stdout st)).

Definition print (line : string) : M unit :=
  fun st => (Ok tt, State (fs st) (net st) (stdout st ++ [line])).

(** *** File-system primitives

    The file system is a finite map from path strings to nodes.  There are
    no symbolic links, and [.], [..] and repeated separators inside a path
    are not resolved.  [os.path.exists] looks a path up as it is spelled:
    the program asks it about paths it has joined itself.
    [os.path.isdir], which the program asks about a path it is given, and
    [open] see through trailing slashes and take a path of slashes only for
    the root; [open] for writing needs the parent directory of its path,
    and [os.makedirs] walks through all of them. *)

Definition path_exists (m : gmap string node) (p : string) : bool :=
  match m !! p with Some _ => true | None => false end.

Definition path_isdir (m : gmap string node) (p : string) : bool :=
  if Py.truthy p then
    if Py.truthy (Py.rstrip_slash p) then
      match m !! Py.rstrip_slash p with Some Dir => true | _ => false end
    else true
  else false.

(** [os.path.exists(p)] and [os.path.isdir(p)]. *)
Definition os_path_exists (p : string) : M bool :=
  fun st => (Ok (path_exists (fs st) p), st).

Definition os_path_isdir (p : string) : M bool :=
  fun st => (Ok (path_isdir (fs st) p), st).

(** Create the directories of [ds] in turn; a file in the way stops the walk
    and what was created before it stays.  The error names the path whose
    [mkdir] failed: the one after the file, or the file itself when it is
    the last. *)
Fixpoint mkdir_chain (ds : list string) (m : gmap string node)
  : gmap string node * option exn :=
  match ds with
  | [] => (m, None)
  | d :: ds' =>
      match m !! d with
      | Some Dir => mkdir_chain ds' m
      | Some (File _) =>
          (m, Some (match ds' with
                    | [] => OSError EEXIST d
                    | d' :: _ => OSError ENOTDIR d'
                    end))
      | None => mkdir_chain ds' (<[d := Dir]> m)
      end
  end.

(** [os.makedirs(name, exist_ok=True)]: [name] is made as it is spelled,
    after the prefixes in front of its slashes; the empty name is no
    directory. *)
Definition makedirs (name : string) : M unit :=
  fun st =>
    match fs st !! name with
    | Some Dir => (Ok tt, st)
    | Some (File _) => (Raise (OSError EEXIST name), st)
    | None =>
        if Py.truthy name then
          match mkdir_chain (Py.dirnames name ++ [name]) (fs st) with
          | (m, None) => (Ok tt, set_fs m st)
          | (m, Some e) => (Raise e, set_fs m st)
          end
        else (Raise (OSError ENOENT name), st)
    end.

(** The last component of a path is [.] or [..]: the path names a
    directory. *)
Definition dot_name (p : string) : bool :=
  (Py.basename p =? ".")%string || (Py.basename p =? "..")%string.

(** The error of [open(p, "wb")], if any: an empty path, a directory or a
    path written as one (a trailing slash, a last component [.] or [..]),
    a parent that is missing or is a file.  A path without a slash is in
    the working directory, which is there. *)
Definition open_wb_error (m : gmap string node) (p : string) : option os_error :=
  if negb (Py.truthy p) then Some ENOENT
  else if Py.endswith p "/" || dot_name p || path_isdir m p then Some EISDIR
  else
    let parent := Py.dirname p in
    if negb (Py.truthy parent) || path_isdir m parent then None
    else
      match m !! Py.rstrip_slash parent with
      | Some (File _) => Some ENOTDIR
      | _ => Some ENOENT
      end.

(** [with open(p, "wb") as f: f.write(data)]. *)
Definition open_wb_write (p : string) (data : bytes) : M unit :=
  fun st =>
    match open_wb_error (fs st) p with
    | Some e => (Raise (OSError e p), st)
    | None => (Ok tt, set_fs (<[p := File data]> (fs st)) st)
    end.

(** [shutil.copy(src, dst)]: into [dst] when it is a directory, refused when
    source and destination are the same file. *)
Definition shutil_copy (src dst : string) : M string :=
  fun st =>
    let dst := if path_isdir (fs st) dst then Py.join dst (Py.basename src) else dst in
    match fs st !! src with
    | None => (Raise (OSError ENOENT src), st)
    | Some Dir => (Raise (OSError EISDIR src), st)
    | Some (File data) =>
        if bool_decide (src = dst) then (Raise (OSError ESAMEFILE src), st)
        else (_ <- open_wb_write dst data ;; ret dst) st
    end.

(** What a snapshot or a tokenizer download leaves on disk: [local_dir] as a
    directory holding the files retrieved. *)
Definition place_files (local_dir : string) (files : list (string * bytes))
    (m : gmap string node) : gmap string node :=
  foldr (fun f acc => <[Py.join local_dir f.1 := File f.2]> acc)
        (<[local_dir := Dir]> m) files.

Section Program.

Variable w : world.

(** [os.path.expanduser(p)]. *)
Definition expanduser (p : string) : string :=
  if Py.startswith p "~" then user_home w p else p.

(** [session.get(url)] followed by [response.status] and
    [response.read()]. *)
Definition session_get (url : string) : M (Z * bytes) :=
  _ <- log (HttpGet url) ;;
  match http_get w url with
  | inl e => raise (External e)
  | inr r => ret r
  end.

(** [hf_api.list_repo_tree(repo_id=repo_id, repo_type=repo_type)]. *)
Definition list_repo_tree (repo_id repo_type : string) : M (list RepoEntry) :=
  _ <- log (ListRepoTree repo_id repo_type) ;;
  match repo_tree w repo_id repo_type with
  | inl e => raise (External e)
  | inr files => ret files
  end.

(** [snapshot_download(repo_id, repo_type, local_dir, allow_patterns)]. *)
Definition snapshot_download (repo_id repo_type local_dir : string)
    (allow_patterns : option (list string)) : M unit :=
  _ <- log (SnapshotDownload repo_id repo_type local_dir allow_patterns) ;;
  match snapshot w repo_id repo_type allow_patterns with
  | inl e => raise (External e)
  | inr files => fun st => (Ok tt, set_fs (place_files local_dir files (fs st)) st)
  end.

(** [CLIPTokenizer.from_pretrained(name, cache_dir=cache_dir)]. *)
Definition CLIPTokenizer_from_pretrained (name cache_dir : string) : M unit :=
  _ <- log (ClipFromPretrained name cache_dir) ;;
  match clip_files w name with
  | inl e => raise (External e)
  | inr files => fun st => (Ok tt, set_fs (place_files cache_dir files (fs st)) st)
  end.

(** The block
    [with tempfile.TemporaryDirectory() as temp_dir:
         temp_file_path = hf_hub_download(repo_id, filename, local_dir=temp_dir)
         shutil.move(temp_file_path, final_path)].
    The temporary directory is new when the block starts and is removed,
    with what is left in it, when the block ends, by a return or by an
    exception: it is kept out of [fs], and the downloaded content goes
    from the hub to [final_path] in the move.  The move is only reached
    after [os.makedirs] has made the directory of [final_path] and
    [os.path.exists] has found nothing at [final_path]. *)
Definition hf_hub_download_tmp (repo_id filename : string) : M bytes :=
  _ <- log (HfHubDownload repo_id filename) ;;
  match hub_file w repo_id filename with
  | inl e => raise (External e)
  | inr data => ret data
  end.

Definition shutil_move_tmp (data : bytes) (final_path : string) : M unit :=
  fun st => (Ok tt, set_fs (<[final_path := File data]> (fs st)) st).

(** *** [download_s3_file] *)
Definition download_s3_file (file_url : string) (save_path : option string)
    (tmp_dir : string) : M string :=
  let parsed_url_path := urlparse_path w file_url in
  let file_name := Py.basename parsed_url_path in
  local_file_path <-
    (match save_path with
     | Some sp =>
         if Py.truthy sp then
           d <- os_path_isdir sp ;;
           ret (if d then Py.join sp file_name else sp)
         else ret (Py.join tmp_dir file_name)
     | None => ret (Py.join tmp_dir file_name)
     end) ;;
  response <- session_get file_url ;;
  _ <- (if response.1 =? 200 then open_wb_write local_file_path response.2
        else raise (FailedToDownload response.1)) ;;
  ret local_file_path.

(** *** [download_text_dataset]

    [input_data_path] is a local of the function that only the [s3] and
    the [hf] branch assign: [None] stands for the unassigned local. *)
Definition download_text_dataset (task_id dataset_url : string)
    (file_format : option string) (dataset_dir : string)
  : M (string * option string) :=
  _ <- makedirs dataset_dir ;;
  input_data_path <-
    (if bool_decide (file_format = Some (FileFormat_value S3)) then
       let dataset_filename := task_id +:+ "_train_data.json" in
       let input_data_path := Py.join dataset_dir dataset_filename in
       e <- os_path_exists input_data_path ;;
       _ <- (if negb e then
               local_path <- download_s3_file dataset_url None "/tmp" ;;
               _ <- shutil_copy local_path input_data_path ;;
               ret tt
             else ret tt) ;;
       ret (Some input_data_path)
     else if bool_decide (file_format = Some (FileFormat_value HF)) then
       let repo_name := Py.replace "/" "--" dataset_url in
       let input_data_path := Py.join dataset_dir repo_name in
       e <- os_path_exists input_data_path ;;
       _ <- (if negb e then
               snapshot_download dataset_url "dataset" input_data_path None
             else ret tt) ;;
       ret (Some input_data_path)
     else ret None) ;;
  match input_data_path with
  | Some p => ret (p, file_format)
  | None => raise (UnboundLocalError "input_data_path")
  end.

(** *** [download_image_dataset] *)
Definition download_image_dataset (dataset_zip_url task_id dataset_dir : string)
  : M string :=
  _ <- makedirs dataset_dir ;;
  let local_zip_path := dataset_dir +:+ "/" +:+ task_id +:+ ".zip" in
  _ <- print ("Downloading dataset from: " +:+ dataset_zip_url) ;;
  local_path <- download_s3_file dataset_zip_url (Some local_zip_path) "/tmp" ;;
  _ <- print ("Downloaded dataset to: " +:+ local_path) ;;
  ret local_path.

(** *** [is_safetensors_available]

    One turn of the loop over the listing; [largest_file] is the
    accumulator.  The comparison with [largest_file.size] only runs on an
    entry that went through the size guard. *)
Definition size_above (size : Z) (largest_file : RepoEntry) : bool :=
  match entry_size largest_file with
  | Some largest_size => largest_size <? size
  | None => false
  end.

Definition largest_file_step (total_check_size : Z)
    (largest_file : option RepoEntry) (file : RepoEntry) : option RepoEntry :=
  match entry_size file with
  | Some size =>
      if Py.endswith (entry_path file) ".safetensors" && (total_check_size <? size)
      then
        match largest_file with
        | None => Some file
        | Some l => if size_above size l then Some file else largest_file
        end
      else largest_file
  | None => largest_file
  end.

Definition largest_file_loop (total_check_size : Z) (files : list RepoEntry)
  : option RepoEntry :=
  fold_left (largest_file_step total_check_size) files None.

Definition check_size_in_gb : Z := 6.

Definition total_check_size : Z := check_size_in_gb * 1024 * 1024 * 1024.

Definition is_safetensors_available (repo_id : string) : M (bool * option string) :=
  files_metadata <- list_repo_tree repo_id "model" ;;
  match largest_file_loop total_check_size files_metadata with
  | Some largest_file => ret (true, Some (entry_path largest_file))
  | None => ret (false, None)
  end.

(** *** [download_from_huggingface]

    The [try]/[except] of the source raises again what it caught. *)
Definition local_filename (repo_id : string) : string :=
  Py.replace "/" "_" repo_id +:+ ".safetensors".

Definition download_from_huggingface (repo_id filename local_dir : string)
  : M string :=
  let local_dir := expanduser local_dir in
  let final_path := Py.join local_dir (local_filename repo_id) in
  _ <- makedirs local_dir ;;
  e <- os_path_exists final_path ;;
  _ <- (if e then
          print ("File " +:+ filename +:+ " already exists. Skipping download.")
        else
          temp_file <- hf_hub_download_tmp repo_id filename ;;
          _ <- shutil_move_tmp temp_file final_path ;;
          print ("File " +:+ filename +:+ " downloaded successfully")) ;;
  ret final_path.

(** *** [download_flux_unet]

    [file_path] and [local_path] are the two locals the loop assigns. *)
Definition flux_check_size : Z := 10 * 1024 * 1024 * 1024.

Fixpoint flux_loop (repo_id output_dir : string) (files : list RepoEntry)
    (file_path local_path : option string) : M (option string * option string) :=
  match files with
  | [] => ret (file_path, local_path)
  | file :: rest =>
      match entry_size file with
      | Some size =>
          if Py.endswith (entry_path file) ".safetensors" && (flux_check_size <? size)
          then
            lp <- download_from_huggingface repo_id (entry_path file) output_dir ;;
            flux_loop repo_id output_dir rest (Some (entry_path file)) (Some lp)
          else flux_loop repo_id output_dir rest file_path local_path
      | None => flux_loop repo_id output_dir rest file_path local_path
      end
  end.

Definition download_flux_unet (repo_id output_dir : string) : M string :=
  files_metadata <- list_repo_tree repo_id "model" ;;
  r <- flux_loop repo_id output_dir files_metadata None None ;;
  match r.1 with
  | Some p =>
      if Py.truthy p then
        match r.2 with
        | Some local_path => ret local_path
        | None => raise (UnboundLocalError "local_path")
        end
      else raise (FileNotFoundError repo_id)
  | None => raise (FileNotFoundError repo_id)
  end.

(** *** [download_base_model] *)
Definition download_base_model (repo_id save_root : string) : M string :=
  let model_name := Py.replace "/" "--" repo_id in
  let save_path := Py.join save_root model_name in
  e <- os_path_exists save_path ;;
  if e then
    _ <- print ("Model " +:+ repo_id +:+ " already exists at " +:+ save_path
                +:+ ". Skipping download.") ;;
    ret save_path
  else
    r <- is_safetensors_available repo_id ;;
    match r with
    | (true, Some safetensors_path) =>
        if Py.truthy safetensors_path then
          download_from_huggingface repo_id safetensors_path save_path
        else
          _ <- snapshot_download repo_id "model" save_path None ;;
          ret save_path
    | _ =>
        _ <- snapshot_download repo_id "model" save_path None ;;
        ret save_path
    end.

(** *** [download_axolotl_base_model] *)
Definition download_axolotl_base_model (repo_id save_dir : string) : M string :=
  let model_dir := Py.join save_dir (Py.replace "/" "--" repo_id) in
  e <- os_path_exists model_dir ;;
  if e then
    _ <- print ("Model " +:+ repo_id +:+ " already exists at " +:+ model_dir
                +:+ ". Skipping download.") ;;
    ret model_dir
  else
    _ <- snapshot_download repo_id "model" model_dir None ;;
    ret model_dir.

(** *** [main]

    [args] is what [parser.parse_args()] returns; a [--task-type] outside
    the parser's [choices] ends the process with exit status 2. *)
Record Args := {
  arg_task_id : string;
  arg_model : string;
  arg_task_type : string;
  arg_dataset : string;
  arg_file_format : option string
}.

Definition task_type_choices : list string :=
  [TaskType_value IMAGETASK; TaskType_value INSTRUCTTEXTTASK;
   TaskType_value DPOTASK; TaskType_value GRPOTASK].

Definition t5_allow_patterns : list string :=
  ["tokenizer_config.json"; "spiece.model"; "special_tokens_map.json";
   "tokenizer.json"].

Definition main (args : Args) : M unit :=
  if negb (bool_decide (arg_task_type args ∈ task_type_choices))
  then raise (SystemExit 2)
  else
    let dataset_dir := "/cache/datasets" in
    let model_dir := "/cache/models" in
    _ <- makedirs dataset_dir ;;
    _ <- makedirs model_dir ;;
    _ <- print ("Downloading datasets to: " +:+ dataset_dir) ;;
    _ <- print ("Downloading models to: " +:+ model_dir) ;;
    model_path <-
      (if bool_decide (arg_task_type args = TaskType_value IMAGETASK) then
         dataset_zip_path <-
           download_image_dataset (arg_dataset args) (arg_task_id args) dataset_dir ;;
         model_path <- download_base_model (arg_model args) model_dir ;;
         _ <- print "Downloading clip models" ;;
         _ <- CLIPTokenizer_from_pretrained
                "openai/clip-vit-large-patch14" "/cache/hf_cache" ;;
         _ <- CLIPTokenizer_from_pretrained
                "laion/CLIP-ViT-bigG-14-laion2B-39B-b160k" "/cache/hf_cache" ;;
         _ <- snapshot_download "google/t5-v1_1-xxl" "model"
                "/cache/hf_cache/google--t5-v1_1-xxl" (Some t5_allow_patterns) ;;
         ret model_path
       else
         r <- download_text_dataset (arg_task_id args) (arg_dataset args)
                (arg_file_format args) dataset_dir ;;
         download_axolotl_base_model (arg_model args) model_dir) ;;
    _ <- print ("Model path: " +:+ model_path) ;;
    print ("Dataset path: " +:+ dataset_dir).

End Program.

(** ** The File Selector as the specification words it

    [select_largest_over_threshold(entries, suffix_filter, threshold_bytes)]:
    keep the entries whose path ends with the suffix and whose size exceeds
    the threshold; among them return the path of the largest, the first seen
    when sizes are equal; none when nothing is kept. *)

Definition spec_qualifies (suffix_filter : string) (threshold_bytes : Z)
    (e : RepoEntry) : bool :=
  Py.endswith (entry_path e) suffix_filter &&
  match entry_size e with
  | Some s => threshold_bytes <? s
  | None => false
  end.

Definition spec_size (e : RepoEntry) : Z := default 0 (entry_size e).

Definition spec_larger (best e : RepoEntry) : RepoEntry :=
  if spec_size best <? spec_size e then e else best.

Definition spec_select_largest_over_threshold (entries : list RepoEntry)
    (suffix_filter : string) (threshold_bytes : Z) : option string :=
  match List.filter (spec_qualifies suffix_filter threshold_bytes) entries with
  | [] => None
  | e :: es => Some (entry_path (fold_left spec_larger es e))
  end.

(** ** A concrete world and concrete states *)

Module Demo.

Definition GiB : Z := 1024 * 1024 * 1024.

Definition model_listing : list RepoEntry :=
  [RepoFolder "onnx";
   RepoFile "config.json" (Some 700);
   RepoFile "model.safetensors" (Some (12 * GiB))].

Definition small_listing : list RepoEntry :=
  [RepoFile "config.json" (Some 700);
   RepoFile "model-00001-of-00002.safetensors" (Some (5 * GiB));
   RepoFile "model-00002-of-00002.safetensors" (Some (4 * GiB))].

Definition flux_listing : list RepoEntry :=
  [RepoFile "ae.safetensors" (Some (1 * GiB));
   RepoFile "flux1-a.safetensors" (Some (11 * GiB));
   RepoFile "flux1-b.safetensors" (Some (12 * GiB))].

Definition data_json : bytes := [x7b; x7d].
Definition weights : bytes := [x01; x02; x03].
Definition weights_b : bytes := [x0b; x0b].

Definition world0 : world := {|
  urlparse_path url :=
    if String.eqb url "https://ex.com/data.json" then "/data.json" else "";
  user_home p :=
    match p with
    | String _ rest => "/root" +:+ rest
    | EmptyString => p
    end;
  http_get url :=
    if String.eqb url "https://ex.com/data.json" then inr (200, data_json)
    else inr (404, []);
  repo_tree repo_id repo_type :=
    if String.eqb repo_id "org/model" then inr model_listing
    else if String.eqb repo_id "org/small" then inr small_listing
    else if String.eqb repo_id "org/flux" then inr flux_listing
    else inl "RepositoryNotFoundError";
  hub_file repo_id filename :=
    if String.eqb filename "flux1-b.safetensors" then inr weights_b
    else inr weights;
  snapshot repo_id repo_type allow_patterns := inr [("config.json", data_json)];
  clip_files name := inr [("vocab.json", data_json)]
|}.

(** The cache roots exist and nothing is cached. *)
Definition fs0 : gmap string node :=
  <["/tmp" := Dir]> (<["/cache" := Dir]> (<["/cache/datasets" := Dir]>
    (<["/cache/models" := Dir]> ∅))).

Definition st0 : state := State fs0 [] [].

(** The dataset of task [t1] and the model [org/model] are cached. *)
Definition fs_cached : gmap string node :=
  <["/cache/datasets/t1_train_data.json" := File data_json]>
    (<["/cache/datasets/org--data" := Dir]>
      (<["/cache/models/org--model" := Dir]> fs0)).

Definition st_cached : state := State fs_cached [] [].

Definition text_args : Args := {|
  arg_task_id := "t1";
  arg_model := "org/model";
  arg_task_type := "InstructTextTask";
  arg_dataset := "https://ex.com/data.json";
  arg_file_format := Some "s3"
|}.

End Demo.

(** ** Predicates used in the statements *)

(** [e] passes the filters of the selection loop with threshold [T], and its
    size is [s]. *)
Definition qualifies (T : Z) (e : RepoEntry) (s : Z) : Prop :=
  entry_size e = Some s ∧
  Py.endswith (entry_path e) ".safetensors" = true ∧
  T < s.

(** [r] is what a selection over [files] has to return: nothing when no
    entry qualifies, otherwise a qualifying entry of maximal size, the first
    one of that size in listing order. *)
Definition selected (T : Z) (files : list RepoEntry) (r : option RepoEntry) : Prop :=
  match r with
  | None => ∀ e s, e ∈ files → ¬ qualifies T e s
  | Some b =>
      ∃ i sb, files !! i = Some b ∧ qualifies T b sb ∧
        ∀ j e s, files !! j = Some e → qualifies T e s →
                 s ≤ sb ∧ (s = sb → (i ≤ j)%nat)
  end.

(** What [is_safetensors_available] has to answer on the listing [files]:
    [(True, path)] for the path of the selected entry, [(False, None)] when
    no entry qualifies, and nothing else. *)
Definition selection_outcome (T : Z) (files : list RepoEntry)
    (r : result (bool * option string)) : Prop :=
  match r with
  | Ok (true, Some p) =>
      ∃ b, entry_path b = p ∧ selected T files (Some b)
  | Ok (false, None) => selected T files None
  | _ => False
  end.

(** The [local_file_path] that [download_s3_file] computes on the file
    system [m]. *)
Definition s3_local_file_path (w : world) (m : gmap string node)
    (file_url : string) (save_path : option string) (tmp_dir : string) : string :=
  let file_name := Py.basename (urlparse_path w file_url) in
  match save_path with
  | Some sp =>
      if Py.truthy sp then
        if path_isdir m sp then Py.join sp file_name else sp
      else Py.join tmp_dir file_name
  | None => Py.join tmp_dir file_name
  end.

(** The cache path of a dataset request: derived from the task id for an
    S3 origin, from the sanitized repository id for a Hugging Face origin;
    the other formats have none. *)
Definition dataset_cache_path (task_id dataset_url : string) (f : FileFormat)
    (dataset_dir : string) : option string :=
  match f with
  | S3 => Some (Py.join dataset_dir (task_id +:+ "_train_data.json"))
  | HF => Some (Py.join dataset_dir (Py.replace "/" "--" dataset_url))
  | CSV | JSON => None
  end.

(** The cache path of a model request. *)
Definition model_cache_path (repo_id save_root : string) : string :=
  Py.join save_root (Py.replace "/" "--" repo_id).

(** The destination of the single-file fetch. *)
Definition single_file_path (w : world) (repo_id local_dir : string) : string :=
  Py.join (expanduser w local_dir) (local_filename repo_id).

(** The exceptions that come from the file system or from the libraries
    called, as opposed to the ones the program raises itself. *)
Definition from_outside (e : exn) : Prop :=
  match e with
  | OSError _ _ | External _ => True
  | _ => False
  end.

(** The calls of the snapshot-only strategy and of the transport: no
    repository listing and no single-file download among them. *)
Definition get_or_snapshot (c : call) : Prop :=
  match c with
  | HttpGet _ | SnapshotDownload _ _ _ _ => True
  | _ => False
  end.

(** Every call that [m] adds to the log satisfies [P]. *)
Definition only_calls {A} (P : call → Prop) (m : M A) : Prop :=
  ∀ st, ∃ l, net (m st).2 = net st ++ l ∧ Forall P l.

(** [c] occurs in [s]. *)
Fixpoint has_char (c : ascii) (s : string) : bool :=
  match s with
  | EmptyString => false
  | String c' s' => Ascii.eqb c' c || has_char c s'
  end.

(** [m] removes no path from the file system. *)
Definition keeps_paths {A} (m : M A) : Prop :=
  ∀ st p, path_exists (fs st) p = true → path_exists (fs (m st).2) p = true.

(** ** Further concrete states *)

Module Scenario.

Definition zip_url : string := "https://ex.com/images.zip".

Definition old_zip : bytes := [x50; x4b].
Definition new_zip : bytes := [x50; x4b; x03; x04].

(** The world of [Demo], where the archive of the image task is served. *)
Definition world1 : world := {|
  urlparse_path url :=
    if String.eqb url zip_url then "/images.zip" else urlparse_path Demo.world0 url;
  user_home := user_home Demo.world0;
  http_get url :=
    if String.eqb url zip_url then inr (200, new_zip) else http_get Demo.world0 url;
  repo_tree := repo_tree Demo.world0;
  hub_file := hub_file Demo.world0;
  snapshot := snapshot Demo.world0;
  clip_files := clip_files Demo.world0
|}.

(** The world of [Demo], where the hub lists every repository in the
    opposite order. *)
Definition world_reversed : world := {|
  urlparse_path := urlparse_path Demo.world0;
  user_home := user_home Demo.world0;
  http_get := http_get Demo.world0;
  repo_tree repo_id repo_type :=
    match repo_tree Demo.world0 repo_id repo_type with
    | inl e => inl e
    | inr files => inr (reverse files)
    end;
  hub_file := hub_file Demo.world0;
  snapshot := snapshot Demo.world0;
  clip_files := clip_files Demo.world0
|}.

(** The archive of task [t1] is already in the dataset directory. *)
Definition st_zip : state :=
  State (<["/cache/datasets/t1.zip" := File old_zip]> Demo.fs0) [] [].

Definition image_args : Args := {|
  arg_task_id := "t1";
  arg_model := "org/model";
  arg_task_type := "ImageTask";
  arg_dataset := zip_url;
  arg_file_format := None
|}.

Definition text_args_no_format : Args := {|
  arg_task_id := "t1";
  arg_model := "org/model";
  arg_task_type := "DpoTask";
  arg_dataset := "org/data";
  arg_file_format := None
|}.

Definition hf_args : Args := {|
  arg_task_id := "t1";
  arg_model := "org/model";
  arg_task_type := "GrpoTask";
  arg_dataset := "org/data";
  arg_file_format := Some "hf"
|}.

End Scenario.

(** The calls of the generic base-model fetch of [repo_id] on a miss: the
    listing, and then, when the selection loop finds an entry, the download
    of that entry, unless the single-file destination is already there;
    when it finds none, the snapshot of the whole repository into
    [save_path]. *)
Definition base_model_calls (w : world) (repo_id save_path : string)
    (l : list call) : Prop :=
  ∃ files, repo_tree w repo_id "model" = inr files ∧
    match largest_file_loop total_check_size files with
    | Some b =>
        l = [ListRepoTree repo_id "model"] ∨
        l = [ListRepoTree repo_id "model"; HfHubDownload repo_id (entry_path b)]
    | None =>
        l = [ListRepoTree repo_id "model";
             SnapshotDownload repo_id "model" save_path None]
    end.

(** The three fetches of tokenizer and text-encoder assets that end the
    image branch of [main], in the order of the source. *)
Definition auxiliary_calls : list call :=
  [ClipFromPretrained "openai/clip-vit-large-patch14" "/cache/hf_cache";
   ClipFromPretrained "laion/CLIP-ViT-bigG-14-laion2B-39B-b160k" "/cache/hf_cache";
   SnapshotDownload "google/t5-v1_1-xxl" "model"
     "/cache/hf_cache/google--t5-v1_1-xxl"
     (Some ["tokenizer_config.json"; "spiece.model"; "special_tokens_map.json";
            "tokenizer.json"])].

(** Unfolding of the monad's operations. *)
Ltac unfold_monad :=
  unfold bind, ret, raise, log, print, os_path_exists, os_path_isdir,
    shutil_move_tmp, set_fs.

(** * Properties *)

(** ** The selection loop *)

Lemma qualifies_guard T e s :
  qualifies T e s ↔
  entry_size e = Some s ∧
  Py.endswith (entry_path e) ".safetensors" && (T <? s) = true.
Proof.
  unfold qualifies. rewrite andb_true_iff, Z.ltb_lt. tauto.
Qed.

Lemma selected_snoc_skip T pre acc f :
  (∀ s, ¬ qualifies T f s) →
  selected T pre acc → selected T (pre ++ [f]) acc.
Proof.
  intros Hf. destruct acc as [b|]; simpl.
  - intros (i & sb & Hi & Hb & Hmax). exists i, sb. split; [|split; [done|]].
    + rewrite lookup_app_l; [done | by eapply lookup_lt_Some].
    + intros j e s [[_ Hj]|[_ <-]]%lookup_snoc_Some Hq.
      * by eapply Hmax.
      * by destruct (Hf s).
  - intros Hnone e s [He| ->%list_elem_of_singleton]%elem_of_app.
    + by apply Hnone.
    + apply Hf.
Qed.

Lemma selected_snoc_step T pre acc f :
  selected T pre acc → selected T (pre ++ [f]) (largest_file_step T acc f).
Proof.
  intros Hacc. unfold largest_file_step.
  destruct (entry_size f) as [size|] eqn:Hsize; cycle 1.
  { apply selected_snoc_skip; [|done]. intros s (? & _). congruence. }
  destruct (Py.endswith (entry_path f) ".safetensors" && (T <? size)) eqn:Hguard;
    cycle 1.
  { apply selected_snoc_skip; [|done]. intros s [Hs Hg]%qualifies_guard.
    congruence. }
  assert (Hqf : qualifies T f size) by (by apply qualifies_guard).
  assert (Hlast : (pre ++ [f]) !! length pre = Some f).
  { apply lookup_snoc_Some. by right. }
  destruct acc as [b|]; simpl in *.
  - destruct Hacc as (i & sb & Hi & Hb & Hmax).
    unfold size_above. destruct Hb as (Hsb & Hbsuf & Hbthr). rewrite Hsb.
    destruct (sb <? size) eqn:Hlt.
    + apply Z.ltb_lt in Hlt. exists (length pre), size.
      split; [done|]. split; [done|].
      intros j e s [[_ Hj]|[-> <-]]%lookup_snoc_Some Hq.
      * destruct (Hmax j e s Hj Hq) as [Hle _]. split; lia.
      * destruct Hq as (Hs & _). split; [|lia].
        assert (s = size) by congruence. lia.
    + apply Z.ltb_ge in Hlt. exists i, sb.
      split; [rewrite lookup_app_l; [done | by eapply lookup_lt_Some]|].
      split; [done|].
      intros j e s [[_ Hj]|[-> <-]]%lookup_snoc_Some Hq.
      * by eapply Hmax.
      * destruct Hq as (Hs & _). assert (s = size) by congruence. subst s.
        split; [lia|]. intros _. apply lookup_lt_Some in Hi. lia.
  - exists (length pre), size. split; [done|]. split; [done|].
    intros j e s [[_ Hj]|[-> <-]]%lookup_snoc_Some Hq.
    + destruct (Hacc e s); [|done]. apply list_elem_of_lookup. eauto.
    + destruct Hq as (Hs & _). assert (s = size) by congruence. split; lia.
Qed.

Lemma selected_fold T files :
  ∀ pre acc, selected T pre acc →
             selected T (pre ++ files) (fold_left (largest_file_step T) files acc).
Proof.
  induction files as [|f files IH]; intros pre acc Hacc; simpl.
  - by rewrite app_nil_r.
  - replace (pre ++ f :: files) with ((pre ++ [f]) ++ files)
      by (by rewrite <- app_assoc).
    apply IH. by apply selected_snoc_step.
Qed.

Lemma largest_file_loop_selected T files :
  selected T files (largest_file_loop T files).
Proof.
  unfold largest_file_loop. apply (selected_fold T files []).
  intros e s He. by apply not_elem_of_nil in He.
Qed.

(** The loop computes the File Selector of the specification. *)
Lemma spec_qualifies_guard (T : Z) (f : RepoEntry) :
  spec_qualifies ".safetensors" T f =
  match entry_size f with
  | Some size => Py.endswith (entry_path f) ".safetensors" && (T <? size)
  | None => false
  end.
Proof.
  unfold spec_qualifies. destruct (entry_size f); [done|]. apply andb_false_r.
Qed.

Lemma largest_file_fold_spec (T : Z) (files : list RepoEntry) :
  ∀ b, is_Some (entry_size b) →
       fold_left (largest_file_step T) files (Some b) =
       Some (fold_left spec_larger
               (List.filter (spec_qualifies ".safetensors" T) files) b).
Proof.
  induction files as [|f files IH]; intros b [sb Hsb]; [done|].
  cbn [fold_left List.filter]. rewrite spec_qualifies_guard.
  unfold largest_file_step at 2.
  destruct (entry_size f) as [size|] eqn:Hsize; [|by apply IH].
  destruct (Py.endswith _ _ && _); [|by apply IH].
  cbn [fold_left]. unfold size_above, spec_larger at 2, spec_size.
  rewrite Hsb, Hsize. simpl. destruct (sb <? size); by apply IH.
Qed.

Lemma largest_file_loop_refines_spec (T : Z) (files : list RepoEntry) :
  entry_path <$> largest_file_loop T files =
  spec_select_largest_over_threshold files ".safetensors" T.
Proof.
  unfold largest_file_loop, spec_select_largest_over_threshold.
  induction files as [|f files IH]; [done|].
  cbn [fold_left List.filter]. rewrite spec_qualifies_guard.
  unfold largest_file_step at 2.
  destruct (entry_size f) as [size|] eqn:Hsize; [|done].
  destruct (Py.endswith _ _ && _); [|done].
  by rewrite largest_file_fold_spec by (by rewrite Hsize).
Qed.

(** C3. On every repository listing the selector returns the path of an entry
    that ends with [.safetensors], is strictly larger than the threshold and
    has the largest size among such entries, the first one in listing order
    when several have that size; it returns [(False, None)] when no entry
    passes the filters.  Its answer is the one of the File Selector of the
    specification, and its only effect is the listing call. *)
Theorem is_safetensors_available_largest (w : world) (repo_id : string)
    (st : state) (files : list RepoEntry) :
  repo_tree w repo_id "model" = inr files →
  selection_outcome total_check_size files (is_safetensors_available w repo_id st).1 ∧
  (is_safetensors_available w repo_id st).1 =
    Ok (match spec_select_largest_over_threshold files ".safetensors"
                total_check_size with
        | Some p => (true, Some p)
        | None => (false, None)
        end) ∧
  (is_safetensors_available w repo_id st).2 =
    State (fs st) (net st ++ [ListRepoTree repo_id "model"]) (stdout st).
Proof.
  intros Hls.
  pose proof (largest_file_loop_selected total_check_size files) as Hsel.
  pose proof (largest_file_loop_refines_spec total_check_size files) as Hspec.
  unfold is_safetensors_available, list_repo_tree, bind, log. simpl.
  rewrite Hls. simpl. rewrite <- Hspec.
  destruct (largest_file_loop total_check_size files) as [b|]; simpl.
  - split; [|done]. by exists b.
  - done.
Qed.

Lemma is_safetensors_available_largest_witness :
  repo_tree Demo.world0 "org/model" "model" = inr Demo.model_listing ∧
  selection_outcome total_check_size Demo.model_listing
    (is_safetensors_available Demo.world0 "org/model" Demo.st0).1 ∧
  (is_safetensors_available Demo.world0 "org/model" Demo.st0).1 =
    Ok (true, Some "model.safetensors") ∧
  (is_safetensors_available Demo.world0 "org/model" Demo.st0).2 =
    State (fs Demo.st0) (net Demo.st0 ++ [ListRepoTree "org/model" "model"])
          (stdout Demo.st0).
Proof.
  split; [reflexivity|].
  destruct (is_safetensors_available_largest Demo.world0 "org/model" Demo.st0
              Demo.model_listing) as (Hsel & Hspec & Hst); [reflexivity|].
  split; [exact Hsel|]. split; [|exact Hst].
  rewrite Hspec. by vm_compute.
Defined.

(** ** Strings and paths *)

Lemma str_length_app (s t : string) :
  String.length (s +:+ t) = (String.length s + String.length t)%nat.
Proof. induction s as [|c s IH]; simpl; [done | by rewrite IH]. Qed.

Lemma truthy_length (s : string) :
  Py.truthy s = true ↔ (0 < String.length s)%nat.
Proof. destruct s; simpl; split; intros; first [done | lia]. Qed.

Lemma endswith_truthy (p suffix : string) :
  Py.truthy suffix = true → Py.endswith p suffix = true → Py.truthy p = true.
Proof.
  intros Hsuf. destruct p as [|c p]; [|done]. simpl.
  destruct suffix; [done|]. simpl. done.
Qed.

Lemma join_longer (a b : string) :
  Py.truthy b = true → Py.startswith b "/" = false →
  (String.length a < String.length (Py.join a b))%nat.
Proof.
  intros Hb%truthy_length Hrel. unfold Py.join. rewrite Hrel.
  destruct (negb (Py.truthy a) || Py.endswith a "/");
    rewrite !str_length_app; simpl; lia.
Qed.

Lemma startswith_slash_cons (c : ascii) (s : string) :
  Py.startswith (String c s) "/" = Ascii.eqb c "/".
Proof.
  unfold Py.startswith. cbn [String.prefix].
  destruct (ascii_dec "/" c) as [<-|Hne].
  - by destruct s.
  - symmetry. apply Ascii.eqb_neq. congruence.
Qed.

Lemma local_filename_relative (repo_id : string) :
  Py.truthy (local_filename repo_id) = true ∧
  Py.startswith (local_filename repo_id) "/" = false.
Proof.
  unfold local_filename. destruct repo_id as [|c r]; [done|].
  cbn [Py.replace]. destruct (Ascii.eqb c "/") eqn:Hc.
  - split; [done|]. exact (startswith_slash_cons "_" _).
  - split; [done|]. etrans; [exact (startswith_slash_cons c _) | done].
Qed.

Lemma final_path_longer (local_dir repo_id : string) :
  (String.length local_dir <
   String.length (Py.join local_dir (local_filename repo_id)))%nat.
Proof.
  destruct (local_filename_relative repo_id). by apply join_longer.
Qed.

Lemma dirnames_from_shorter (p : string) :
  ∀ pre d, d ∈ Py.dirnames_from pre p →
           (String.length d < String.length pre + String.length p)%nat.
Proof.
  induction p as [|c p IH]; intros pre d; simpl.
  - by intros ?%not_elem_of_nil.
  - intros [Hd|Hd]%elem_of_app.
    + destruct (_ && _); [|by apply not_elem_of_nil in Hd].
      apply list_elem_of_singleton in Hd as ->. lia.
    + apply IH in Hd. rewrite str_length_app in Hd. simpl in Hd. lia.
Qed.

Lemma makedirs_walk_not_longer (name d : string) :
  d ∈ Py.dirnames name ++ [name] → (String.length d ≤ String.length name)%nat.
Proof.
  intros [Hd%dirnames_from_shorter| ->%list_elem_of_singleton]%elem_of_app.
  - simpl in Hd. lia.
  - done.
Qed.

Lemma str_app_cons (c : ascii) (s t : string) :
  String c s +:+ t = String c (s +:+ t).
Proof. reflexivity. Qed.

Lemma str_app_assoc (s t u : string) : (s +:+ t) +:+ u = s +:+ t +:+ u.
Proof.
  induction s as [|c s IH]; [done|]. rewrite !str_app_cons. by f_equal.
Qed.

Lemma endswith_app (s t : string) : Py.endswith (s +:+ t) t = true.
Proof.
  induction s as [|c s IH].
  - change ("" +:+ t) with t. destruct t; simpl; [done|].
    by rewrite Ascii.eqb_refl, String.eqb_refl.
  - rewrite str_app_cons. cbn [Py.endswith]. rewrite IH. apply orb_true_r.
Qed.

Lemma join_suffix (a b : string) : ∃ pre, Py.join a b = pre +:+ b.
Proof.
  unfold Py.join. destruct (Py.startswith b "/"); [by exists ""|].
  destruct (negb (Py.truthy a) || Py.endswith a "/"); [by exists a|].
  exists (a +:+ "/"). symmetry. apply str_app_assoc.
Qed.

Lemma final_path_safetensors (local_dir repo_id : string) :
  Py.endswith (Py.join local_dir (local_filename repo_id)) ".safetensors" = true.
Proof.
  destruct (join_suffix local_dir (local_filename repo_id)) as [pre ->].
  unfold local_filename. rewrite <- str_app_assoc. apply endswith_app.
Qed.

(** ** The file system *)

Lemma path_exists_true (m : gmap string node) (p : string) :
  path_exists m p = true ↔ is_Some (m !! p).
Proof.
  unfold path_exists. destruct (m !! p) as [x|]; split; intros H;
    first [done | by eexists | by destruct H].
Qed.

Lemma mkdir_chain_other (ds : list string) :
  ∀ m q, q ∉ ds → (mkdir_chain ds m).1 !! q = m !! q.
Proof.
  induction ds as [|d ds IH]; intros m q Hq; simpl; [done|].
  apply not_elem_of_cons in Hq as [Hne Hq].
  destruct (m !! d) as [[|data]|] eqn:Hd; simpl.
  - by apply IH.
  - done.
  - rewrite IH; [|done]. by rewrite lookup_insert_ne.
Qed.

Lemma mkdir_chain_keeps (ds : list string) :
  ∀ m q x, m !! q = Some x → (mkdir_chain ds m).1 !! q = Some x.
Proof.
  induction ds as [|d ds IH]; intros m q x Hq; simpl; [done|].
  destruct (m !! d) as [[|data]|] eqn:Hd; simpl.
  - by apply IH.
  - done.
  - apply IH. rewrite lookup_insert_ne; [done|]. intros ->. congruence.
Qed.

Lemma mkdir_chain_made (ds : list string) :
  ∀ m d, (mkdir_chain ds m).2 = None → d ∈ ds →
         (mkdir_chain ds m).1 !! d = Some Dir.
Proof.
  induction ds as [|d0 ds IH]; intros m d Hok Hd; simpl in *.
  - by apply not_elem_of_nil in Hd.
  - destruct (m !! d0) as [[|data]|] eqn:Hd0; simpl in *; [| done |].
    + apply elem_of_cons in Hd as [->|Hd]; [|by apply IH].
      by apply mkdir_chain_keeps.
    + apply elem_of_cons in Hd as [->|Hd]; [|by apply IH].
      apply mkdir_chain_keeps. by rewrite lookup_insert_eq.
Qed.

(** [makedirs] leaves an existing directory alone. *)
Lemma makedirs_isdir (name : string) (st : state) :
  fs st !! name = Some Dir → makedirs name st = (Ok tt, st).
Proof. intros H. unfold makedirs. by rewrite H. Qed.

(** [makedirs] touches neither the log nor the output. *)
Lemma makedirs_frame (name : string) (st : state) :
  net (makedirs name st).2 = net st ∧ stdout (makedirs name st).2 = stdout st.
Proof.
  unfold makedirs. destruct (fs st !! name) as [[|data]|]; [done..|].
  destruct (Py.truthy name); [|done].
  by destruct (mkdir_chain _ _) as [m [e|]].
Qed.

(** When [makedirs] returns, the directory is there. *)
Lemma makedirs_ok (name : string) (st : state) :
  (makedirs name st).1 = Ok tt → fs (makedirs name st).2 !! name = Some Dir.
Proof.
  unfold makedirs. destruct (fs st !! name) as [[|data]|] eqn:Hn; [done..|].
  destruct (Py.truthy name); [|done].
  pose proof (mkdir_chain_made (Py.dirnames name ++ [name]) (fs st) name) as H.
  destruct (mkdir_chain _ _) as [m [e|]]; simpl in *; [done|].
  intros _. apply H; [done|]. apply elem_of_app. right. by apply list_elem_of_singleton.
Qed.

(** [makedirs] removes nothing and overwrites nothing. *)
Lemma makedirs_keeps (name : string) (st : state) (q : string) (x : node) :
  fs st !! q = Some x → fs (makedirs name st).2 !! q = Some x.
Proof.
  intros Hq. unfold makedirs. destruct (fs st !! name) as [[|data]|]; [done..|].
  destruct (Py.truthy name); [|done].
  pose proof (mkdir_chain_keeps (Py.dirnames name ++ [name]) (fs st) q x Hq) as H.
  by destruct (mkdir_chain _ _) as [m [e|]].
Qed.

(** [makedirs name] changes nothing at a path longer than [name]. *)
Lemma makedirs_longer (name : string) (st : state) (q : string) :
  (String.length name < String.length q)%nat →
  fs (makedirs name st).2 !! q = fs st !! q.
Proof.
  intros Hlen. unfold makedirs. destruct (fs st !! name) as [[|data]|]; [done..|].
  destruct (Py.truthy name); [|done].
  pose proof (mkdir_chain_other (Py.dirnames name ++ [name]) (fs st) q) as H.
  destruct (mkdir_chain _ _) as [m [e|]]; simpl in *; apply H;
    intros Hin%makedirs_walk_not_longer; lia.
Qed.

(** [makedirs] reads and writes the file system only. *)
Lemma makedirs_fs_only (name : string) (st st' : state) :
  fs st' = fs st →
  makedirs name st' =
  ((makedirs name st).1,
   State (fs (makedirs name st).2) (net st') (stdout st')).
Proof.
  intros Hfs. unfold makedirs. rewrite Hfs.
  destruct (fs st !! name) as [[|d]|]; simpl.
  - destruct st'; simpl in *. by subst.
  - destruct st'; simpl in *. by subst.
  - destruct (Py.truthy name); [by destruct (mkdir_chain _ _) as [m [e|]]|].
    destruct st'; simpl in *. by subst.
Qed.

(** A path that does not end with a slash is its own [rstrip]. *)
Lemma rstrip_slash_id (s : string) :
  Py.endswith s "/" = false → Py.rstrip_slash s = s.
Proof.
  induction s as [|c s IH]; [done|]. cbn [Py.endswith Py.rstrip_slash].
  intros [Hone Hend]%orb_false_iff. rewrite (IH Hend).
  destruct (Ascii.eqb_spec c "/") as [->|Hc]; [|done].
  destruct s; [done|]. done.
Qed.

(** At a path that is written as a name, [isdir] is a lookup. *)
Lemma path_isdir_lookup (m : gmap string node) (p : string) :
  Py.truthy p = true → Py.endswith p "/" = false →
  path_isdir m p = match m !! p with Some Dir => true | _ => false end.
Proof.
  intros Ht Hend. unfold path_isdir. by rewrite Ht, (rstrip_slash_id _ Hend), Ht.
Qed.

(** Writing a file where no directory is changes no answer of [isdir]. *)
Lemma path_isdir_insert_file (m : gmap string node) (q x : string) (data : bytes) :
  m !! q ≠ Some Dir →
  path_isdir (<[q := File data]> m) x = path_isdir m x.
Proof.
  intros Hq. unfold path_isdir. destruct (Py.truthy x); [|done].
  destruct (Py.truthy (Py.rstrip_slash x)); [|done].
  destruct (decide (Py.rstrip_slash x = q)) as [->|Hne].
  - rewrite lookup_insert_eq. by destruct (m !! q) as [[|d]|].
  - by rewrite lookup_insert_ne.
Qed.

(** What [open] asks of a path it accepts for writing. *)
Lemma open_wb_ok (m : gmap string node) (p : string) :
  open_wb_error m p = None →
  Py.truthy p = true ∧ Py.endswith p "/" = false ∧ m !! p ≠ Some Dir ∧
  (Py.truthy (Py.dirname p) = false ∨ path_isdir m (Py.dirname p) = true).
Proof.
  unfold open_wb_error. destruct (Py.truthy p) eqn:Ht; [|done]. cbn [negb].
  destruct (Py.endswith p "/") eqn:Hend; [done|]. cbn [orb].
  destruct (dot_name p); [done|]. cbn [orb].
  destruct (path_isdir m p) eqn:Hd; [done|].
  rewrite (path_isdir_lookup _ _ Ht Hend) in Hd.
  intros H. split; [done|]. split; [done|]. split.
  - intros Hp. by rewrite Hp in Hd.
  - destruct (Py.truthy (Py.dirname p)); [right|by left].
    cbn [negb orb] in H. destruct (path_isdir m (Py.dirname p)); [done|].
    revert H. by destruct (m !! Py.rstrip_slash _) as [[|d]|].
Qed.


(** ** The transport *)

Lemma download_s3_file_unfold (w : world) (file_url : string)
    (save_path : option string) (tmp_dir : string) (st : state) :
  download_s3_file w file_url save_path tmp_dir st =
  let local_file_path := s3_local_file_path w (fs st) file_url save_path tmp_dir in
  let st1 := State (fs st) (net st ++ [HttpGet file_url]) (stdout st) in
  match http_get w file_url with
  | inl e => (Raise (External e), st1)
  | inr (status, body) =>
      if status =? 200 then
        match open_wb_error (fs st) local_file_path with
        | Some e => (Raise (OSError e local_file_path), st1)
        | None => (Ok local_file_path,
                   State (<[local_file_path := File body]> (fs st))
                         (net st ++ [HttpGet file_url]) (stdout st))
        end
      else (Raise (FailedToDownload status), st1)
  end.
Proof.
  unfold download_s3_file, s3_local_file_path, session_get, open_wb_write.
  unfold_monad.
  destruct save_path as [sp|]; [destruct (Py.truthy sp)|]; simpl;
    destruct (http_get w file_url) as [e|[status body]]; simpl; try done;
    destruct (status =? 200); simpl; try done;
    match goal with
    | |- context [open_wb_error (fs st) ?p] =>
        destruct (open_wb_error (fs st) p) as [e|]
    end;
    done.
Qed.

(** C8. Given the response to the GET, the transport raises the error that
    carries the HTTP status exactly when the status is not 200, and then it
    has written nothing; on status 200, where [open] accepts the computed
    local file path (it is no directory and its parent directory is there),
    it writes the body at that path and returns the path. *)
Theorem download_s3_file_status (w : world) (file_url : string)
    (save_path : option string) (tmp_dir : string) (st : state)
    (status : Z) (body : bytes) :
  http_get w file_url = inr (status, body) →
  let local_file_path := s3_local_file_path w (fs st) file_url save_path tmp_dir in
  let r := download_s3_file w file_url save_path tmp_dir st in
  (∀ s, r.1 = Raise (FailedToDownload s) ↔ status ≠ 200 ∧ s = status) ∧
  (status ≠ 200 →
     r.2 = State (fs st) (net st ++ [HttpGet file_url]) (stdout st)) ∧
  (status = 200 → open_wb_error (fs st) local_file_path = None →
     r = (Ok local_file_path,
          State (<[local_file_path := File body]> (fs st))
                (net st ++ [HttpGet file_url]) (stdout st))).
Proof.
  intros Hget. cbv zeta. rewrite download_s3_file_unfold. cbv zeta.
  rewrite Hget. destruct (Z.eqb_spec status 200) as [->|Hne].
  - split; [|split]; [| done |].
    + intros s. split; [|by intros [? _]].
      by destruct (open_wb_error _ _) as [e|].
    + intros _ Hw. by rewrite Hw.
  - split; [|split]; [| done | done].
    intros s. simpl. split; [|by intros [_ ->]].
    intros [= ->]. done.
Qed.

Lemma download_s3_file_status_witness :
  http_get Demo.world0 "https://ex.com/data.json" = inr (200, Demo.data_json) ∧
  200 = 200 ∧
  open_wb_error (fs Demo.st0) "/tmp/data.json" = None ∧
  download_s3_file Demo.world0 "https://ex.com/data.json" None "/tmp" Demo.st0 =
    (Ok "/tmp/data.json",
     State (<["/tmp/data.json" := File Demo.data_json]> (fs Demo.st0))
           [HttpGet "https://ex.com/data.json"] []).
Proof.
  split; [reflexivity|]. split; [reflexivity|]. split; [by vm_compute|].
  apply (download_s3_file_status Demo.world0 "https://ex.com/data.json" None
           "/tmp" Demo.st0 200 Demo.data_json); [reflexivity | reflexivity |].
  by vm_compute.
Defined.

(** ** Local datasets *)

(** C2. With [csv] or [json] as the format the dataset fetch assigns no
    [input_data_path]: after [os.makedirs] it makes no call to the outside
    and stops at its [return] with [UnboundLocalError], where the claim has
    it return the source identifier as a local path.  The third part
    evaluates the fetch of a local CSV file on the cache roots. *)
Theorem download_text_dataset_csv_json_unbound (w : world)
    (task_id dataset_url dataset_dir : string) (st : state) :
  download_text_dataset w task_id dataset_url (Some (FileFormat_value CSV))
    dataset_dir st =
    (_ <- makedirs dataset_dir ;; raise (UnboundLocalError "input_data_path")) st ∧
  download_text_dataset w task_id dataset_url (Some (FileFormat_value JSON))
    dataset_dir st =
    (_ <- makedirs dataset_dir ;; raise (UnboundLocalError "input_data_path")) st ∧
  download_text_dataset Demo.world0 "t1" "/data/train.csv" (Some "csv")
    "/cache/datasets" Demo.st0 =
    (Raise (UnboundLocalError "input_data_path"), Demo.st0).
Proof.
  split; [|split].
  - unfold download_text_dataset, bind.
    destruct (makedirs dataset_dir st) as [[[]|e] st1]; [|done].
    repeat case_bool_decide; done.
  - unfold download_text_dataset, bind.
    destruct (makedirs dataset_dir st) as [[[]|e] st1]; [|done].
    repeat case_bool_decide; done.
  - by vm_compute.
Qed.

(** ** Cache hits *)

Lemma download_text_dataset_hit (w : world) (task_id dataset_url : string)
    (f : FileFormat) (dataset_dir p : string) (st : state) :
  dataset_cache_path task_id dataset_url f dataset_dir = Some p →
  fs st !! dataset_dir = Some Dir →
  path_exists (fs st) p = true →
  download_text_dataset w task_id dataset_url (Some (FileFormat_value f))
    dataset_dir st = (Ok (p, Some (FileFormat_value f)), st).
Proof.
  intros Hp Hdir Hex. unfold download_text_dataset, bind at 1.
  rewrite (makedirs_isdir _ _ Hdir).
  destruct f; simplify_eq/=; repeat case_bool_decide; simplify_eq;
    unfold_monad; by rewrite Hex.
Qed.

Lemma download_base_model_hit (w : world) (repo_id save_root : string) (st : state) :
  path_exists (fs st) (model_cache_path repo_id save_root) = true →
  ∃ line, download_base_model w repo_id save_root st =
          (Ok (model_cache_path repo_id save_root),
           State (fs st) (net st) (stdout st ++ [line])).
Proof.
  intros Hex. unfold download_base_model, model_cache_path in *. unfold_monad.
  rewrite Hex. by eexists.
Qed.

Lemma download_axolotl_base_model_hit (w : world) (repo_id save_dir : string)
    (st : state) :
  path_exists (fs st) (model_cache_path repo_id save_dir) = true →
  ∃ line, download_axolotl_base_model w repo_id save_dir st =
          (Ok (model_cache_path repo_id save_dir),
           State (fs st) (net st) (stdout st ++ [line])).
Proof.
  intros Hex. unfold download_axolotl_base_model, model_cache_path in *.
  unfold_monad. rewrite Hex. by eexists.
Qed.

(** C6. When the cache path of a request exists, the dataset fetch (in the
    dataset directory that holds it) and both model fetches return that path
    and leave the file system and the log of outside calls as they were: no
    listing, no download.  The model fetches print one line. *)
Theorem cache_hit_is_no_op (w : world) :
  (∀ task_id dataset_url f dataset_dir p st,
     dataset_cache_path task_id dataset_url f dataset_dir = Some p →
     fs st !! dataset_dir = Some Dir →
     path_exists (fs st) p = true →
     download_text_dataset w task_id dataset_url (Some (FileFormat_value f))
       dataset_dir st = (Ok (p, Some (FileFormat_value f)), st)) ∧
  (∀ repo_id save_root st,
     path_exists (fs st) (model_cache_path repo_id save_root) = true →
     ∃ line, download_base_model w repo_id save_root st =
             (Ok (model_cache_path repo_id save_root),
              State (fs st) (net st) (stdout st ++ [line]))) ∧
  (∀ repo_id save_dir st,
     path_exists (fs st) (model_cache_path repo_id save_dir) = true →
     ∃ line, download_axolotl_base_model w repo_id save_dir st =
             (Ok (model_cache_path repo_id save_dir),
              State (fs st) (net st) (stdout st ++ [line]))).
Proof.
  split; [|split].
  - intros. by apply download_text_dataset_hit.
  - intros. by apply download_base_model_hit.
  - intros. by apply download_axolotl_base_model_hit.
Qed.

Lemma cache_hit_is_no_op_witness :
  (dataset_cache_path "t1" "https://ex.com/data.json" S3 "/cache/datasets" =
     Some "/cache/datasets/t1_train_data.json" ∧
   fs Demo.st_cached !! "/cache/datasets" = Some Dir ∧
   path_exists (fs Demo.st_cached) "/cache/datasets/t1_train_data.json" = true ∧
   download_text_dataset Demo.world0 "t1" "https://ex.com/data.json" (Some "s3")
     "/cache/datasets" Demo.st_cached =
     (Ok ("/cache/datasets/t1_train_data.json", Some "s3"), Demo.st_cached)) ∧
  (dataset_cache_path "t1" "org/data" HF "/cache/datasets" =
     Some "/cache/datasets/org--data" ∧
   download_text_dataset Demo.world0 "t1" "org/data" (Some "hf")
     "/cache/datasets" Demo.st_cached =
     (Ok ("/cache/datasets/org--data", Some "hf"), Demo.st_cached)) ∧
  (path_exists (fs Demo.st_cached) (model_cache_path "org/model" "/cache/models") = true ∧
   ∃ line, download_base_model Demo.world0 "org/model" "/cache/models" Demo.st_cached =
           (Ok "/cache/models/org--model",
            State (fs Demo.st_cached) (net Demo.st_cached)
                  (stdout Demo.st_cached ++ [line]))) ∧
  (∃ line, download_axolotl_base_model Demo.world0 "org/model" "/cache/models"
             Demo.st_cached =
           (Ok "/cache/models/org--model",
            State (fs Demo.st_cached) (net Demo.st_cached)
                  (stdout Demo.st_cached ++ [line]))).
Proof.
  pose proof (cache_hit_is_no_op Demo.world0) as (Hds & Hbase & Haxolotl).
  split; [|split; [|split]].
  - split; [reflexivity|]. split; [by vm_compute|]. split; [by vm_compute|].
    apply (Hds "t1" "https://ex.com/data.json" S3); by vm_compute.
  - split; [reflexivity|].
    apply (Hds "t1" "org/data" HF); by vm_compute.
  - split; [by vm_compute|].
    apply (Hbase "org/model" "/cache/models"). by vm_compute.
  - apply (Haxolotl "org/model" "/cache/models"). by vm_compute.
Defined.

(** ** The single-file fetch *)

Lemma download_from_huggingface_unfold (w : world)
    (repo_id filename local_dir : string) (st : state) :
  download_from_huggingface w repo_id filename local_dir st =
  let final_path := single_file_path w repo_id local_dir in
  match makedirs (expanduser w local_dir) st with
  | (Raise e, st1) => (Raise e, st1)
  | (Ok _, st1) =>
      if path_exists (fs st1) final_path then
        (Ok final_path,
         State (fs st1) (net st1)
               (stdout st1 ++
                ["File " +:+ filename +:+ " already exists. Skipping download."]))
      else
        match hub_file w repo_id filename with
        | inl e =>
            (Raise (External e),
             State (fs st1) (net st1 ++ [HfHubDownload repo_id filename]) (stdout st1))
        | inr data =>
            (Ok final_path,
             State (<[final_path := File data]> (fs st1))
                   (net st1 ++ [HfHubDownload repo_id filename])
                   (stdout st1 ++
                    ["File " +:+ filename +:+ " downloaded successfully"]))
        end
  end.
Proof.
  unfold download_from_huggingface, single_file_path, hf_hub_download_tmp.
  cbv zeta. unfold bind at 1.
  destruct (makedirs (expanduser w local_dir) st) as [[[]|e] st1]; [|done].
  unfold_monad.
  destruct (path_exists (fs st1) _); [done|]. simpl.
  by destruct (hub_file w repo_id filename).
Qed.

(** A second run of the single-file fetch, right after a first one. *)
Lemma download_from_huggingface_again (w : world)
    (repo_id filename local_dir : string) (st : state) :
  let once := download_from_huggingface w repo_id filename local_dir in
  let twice := (_ <- once ;; once) in
  (twice st).1 = (once st).1 ∧
  fs (twice st).2 = fs (once st).2 ∧
  net (twice st).2 = net (once st).2.
Proof.
  cbv zeta. unfold bind. rewrite (download_from_huggingface_unfold w _ _ _ st).
  cbv zeta.
  pose proof (makedirs_ok (expanduser w local_dir) st) as Hdir.
  destruct (makedirs (expanduser w local_dir) st) as [[[]|e] st1]; [|done].
  simpl in Hdir. specialize (Hdir eq_refl).
  destruct (path_exists (fs st1) (single_file_path w repo_id local_dir)) eqn:Hex.
  - rewrite download_from_huggingface_unfold. cbv zeta.
    rewrite makedirs_isdir by done. simpl. by rewrite Hex.
  - destruct (hub_file w repo_id filename) as [e|data]; [done|].
    rewrite download_from_huggingface_unfold. cbv zeta.
    assert (Hne : single_file_path w repo_id local_dir ≠ expanduser w local_dir).
    { intros Heq. pose proof (final_path_longer (expanduser w local_dir) repo_id) as Hl.
      unfold single_file_path in Heq. rewrite Heq in Hl. lia. }
    rewrite makedirs_isdir by (simpl; by rewrite lookup_insert_ne).
    simpl. unfold path_exists. by rewrite lookup_insert_eq.
Qed.

(** C7. The single-file fetch at destination-file granularity.  When the
    destination file exists, no download is made and, the destination
    directory being there, the destination path is returned with the file
    system as it was.  Run twice in a row, the fetch gives the result, the
    file system and the log of outside calls of a single run.  When the
    destination is absent and the hub delivers, the one outside call is the
    hub download into the temporary directory, which leaves the file system
    under the cache as it was, and the content is then moved to the
    destination, which is returned. *)
Theorem download_from_huggingface_idempotent (w : world)
    (repo_id filename local_dir : string) :
  let once := download_from_huggingface w repo_id filename local_dir in
  let final_path := single_file_path w repo_id local_dir in
  (∀ st, path_exists (fs st) final_path = true →
         net (once st).2 = net st ∧
         (fs st !! expanduser w local_dir = Some Dir →
          (once st).1 = Ok final_path ∧ fs (once st).2 = fs st)) ∧
  (∀ st, ((_ <- once ;; once) st).1 = (once st).1 ∧
         fs ((_ <- once ;; once) st).2 = fs (once st).2 ∧
         net ((_ <- once ;; once) st).2 = net (once st).2) ∧
  (∀ st data,
     (makedirs (expanduser w local_dir) st).1 = Ok tt →
     path_exists (fs st) final_path = false →
     hub_file w repo_id filename = inr data →
     (once st).1 = Ok final_path ∧
     fs (hf_hub_download_tmp w repo_id filename st).2 = fs st ∧
     fs (once st).2 =
       <[final_path := File data]> (fs (makedirs (expanduser w local_dir) st).2) ∧
     net (once st).2 = net st ++ [HfHubDownload repo_id filename]).
Proof.
  cbv zeta. split; [|split].
  - intros st Hex. apply path_exists_true in Hex as [x Hx].
    rewrite download_from_huggingface_unfold. cbv zeta.
    pose proof (makedirs_keeps (expanduser w local_dir) st _ _ Hx) as Hkeep.
    pose proof (makedirs_frame (expanduser w local_dir) st) as [Hnet _].
    split.
    + destruct (makedirs (expanduser w local_dir) st) as [[[]|e] st1]; [|done].
      simpl in *. unfold path_exists. by rewrite Hkeep.
    + intros Hdir. rewrite makedirs_isdir by done.
      unfold path_exists. by rewrite Hx.
  - intros st. apply (download_from_huggingface_again w repo_id filename local_dir st).
  - intros st data Hmk Hex Hhub.
    rewrite download_from_huggingface_unfold. cbv zeta.
    pose proof (makedirs_frame (expanduser w local_dir) st) as [Hnet _].
    pose proof (makedirs_longer (expanduser w local_dir) st
                  (single_file_path w repo_id local_dir)
                  (final_path_longer _ _)) as Hsame.
    destruct (makedirs (expanduser w local_dir) st) as [[[]|e] st1]; [|done].
    simpl in *. unfold path_exists in *. rewrite Hsame.
    destruct (fs st !! single_file_path w repo_id local_dir); [done|].
    unfold hf_hub_download_tmp. unfold_monad. rewrite Hhub. simpl.
    by rewrite Hnet.
Qed.

Lemma download_from_huggingface_idempotent_witness :
  let once := download_from_huggingface Demo.world0 "org/model" "model.safetensors"
                "/cache/models/org--model" in
  let final_path := "/cache/models/org--model/org_model.safetensors" in
  ((makedirs "/cache/models/org--model" Demo.st0).1 = Ok tt ∧
   path_exists (fs Demo.st0) final_path = false ∧
   hub_file Demo.world0 "org/model" "model.safetensors" = inr Demo.weights ∧
   (once Demo.st0).1 = Ok final_path ∧
   net (once Demo.st0).2 = [HfHubDownload "org/model" "model.safetensors"]) ∧
  (path_exists (fs (once Demo.st0).2) final_path = true ∧
   fs (once Demo.st0).2 !! "/cache/models/org--model" = Some Dir ∧
   (once (once Demo.st0).2).1 = Ok final_path ∧
   fs (once (once Demo.st0).2).2 = fs (once Demo.st0).2 ∧
   net (once (once Demo.st0).2).2 = net (once Demo.st0).2) ∧
  ((_ <- once ;; once) Demo.st0).1 = (once Demo.st0).1.
Proof.
  cbv zeta.
  pose proof (download_from_huggingface_idempotent Demo.world0 "org/model"
                "model.safetensors" "/cache/models/org--model")
    as (Hskip & Htwice & Hfetch).
  split; [|split].
  - split; [by vm_compute|]. split; [by vm_compute|]. split; [reflexivity|].
    destruct (Hfetch Demo.st0 Demo.weights) as (Hr & _ & _ & Hn);
      [by vm_compute | by vm_compute | reflexivity |].
    split; [exact Hr | exact Hn].
  - split; [by vm_compute|]. split; [by vm_compute|].
    destruct (Hskip (download_from_huggingface Demo.world0 "org/model"
                       "model.safetensors" "/cache/models/org--model" Demo.st0).2)
      as [Hn Hrest]; [by vm_compute|].
    destruct Hrest as [Hr Hf]; [by vm_compute|].
    split; [exact Hr|]. split; [exact Hf | exact Hn].
  - apply (Htwice Demo.st0).
Defined.

(** ** The generic base-model fetch *)

Lemma largest_file_loop_some (T : Z) (files : list RepoEntry) :
  (∃ e s, e ∈ files ∧ qualifies T e s) →
  ∃ b, largest_file_loop T files = Some b ∧ selected T files (Some b).
Proof.
  intros (e & s & He & Hq).
  pose proof (largest_file_loop_selected T files) as Hsel.
  destruct (largest_file_loop T files) as [b|]; [by exists b|].
  by destruct (Hsel e s He).
Qed.

Lemma largest_file_loop_none (T : Z) (files : list RepoEntry) :
  (∀ e s, e ∈ files → ¬ qualifies T e s) → largest_file_loop T files = None.
Proof.
  intros Hnone. pose proof (largest_file_loop_selected T files) as Hsel.
  destruct (largest_file_loop T files) as [b|]; [|done].
  destruct Hsel as (i & sb & Hi & Hq & _).
  destruct (Hnone b sb); [|done]. apply list_elem_of_lookup. eauto.
Qed.

Lemma selected_path_truthy (T : Z) (files : list RepoEntry) (b : RepoEntry) :
  selected T files (Some b) → Py.truthy (entry_path b) = true.
Proof.
  intros (i & sb & _ & (_ & Hsuf & _) & _).
  by apply (endswith_truthy _ ".safetensors").
Qed.

Lemma download_base_model_miss_unfold (w : world) (repo_id save_root : string)
    (st : state) (files : list RepoEntry) :
  path_exists (fs st) (model_cache_path repo_id save_root) = false →
  repo_tree w repo_id "model" = inr files →
  download_base_model w repo_id save_root st =
  let save_path := model_cache_path repo_id save_root in
  let st1 := State (fs st) (net st ++ [ListRepoTree repo_id "model"]) (stdout st) in
  match largest_file_loop total_check_size files with
  | Some b => download_from_huggingface w repo_id (entry_path b) save_path st1
  | None => (_ <- snapshot_download w repo_id "model" save_path None ;; ret save_path) st1
  end.
Proof.
  intros Hex Hls. unfold download_base_model, model_cache_path in *.
  unfold is_safetensors_available, list_repo_tree. unfold_monad.
  cbn beta iota zeta. rewrite Hex, Hls. cbn beta iota.
  pose proof (largest_file_loop_selected total_check_size files) as Hsel.
  destruct (largest_file_loop total_check_size files) as [b|]; simpl; [|done].
  by rewrite (selected_path_truthy _ _ _ Hsel).
Qed.

(** C4. With the model cache path absent, the generic base-model fetch lists
    the repository and then: when an entry of the listing ends with
    [.safetensors] and is strictly larger than the threshold, its one
    further outside call is the download of the selected entry, whose
    content ends at the single-file destination; when no entry does, its one
    further outside call is the snapshot of the whole repository (no
    [allow_patterns]) into the cache path, which is returned.  The
    single-file case is stated for a cache directory that can be created
    and, as the directory is absent, holds no destination file yet. *)
Theorem download_base_model_miss (w : world) (repo_id save_root : string)
    (st : state) (files : list RepoEntry) :
  let save_path := model_cache_path repo_id save_root in
  let final_path := single_file_path w repo_id save_path in
  let r := download_base_model w repo_id save_root st in
  path_exists (fs st) save_path = false →
  repo_tree w repo_id "model" = inr files →
  ((∃ e s, e ∈ files ∧ qualifies total_check_size e s) →
   (makedirs (expanduser w save_path) st).1 = Ok tt →
   path_exists (fs st) final_path = false →
   ∃ b, selected total_check_size files (Some b) ∧
        net r.2 = net st ++ [ListRepoTree repo_id "model";
                             HfHubDownload repo_id (entry_path b)] ∧
        ∀ data, hub_file w repo_id (entry_path b) = inr data →
                r.1 = Ok final_path ∧
                fs r.2 = <[final_path := File data]>
                           (fs (makedirs (expanduser w save_path) st).2)) ∧
  ((∀ e s, e ∈ files → ¬ qualifies total_check_size e s) →
   net r.2 = net st ++ [ListRepoTree repo_id "model";
                        SnapshotDownload repo_id "model" save_path None] ∧
   ∀ content, snapshot w repo_id "model" None = inr content →
              r.1 = Ok save_path ∧
              fs r.2 = place_files save_path content (fs st)).
Proof.
  cbv zeta. intros Hex Hls.
  rewrite (download_base_model_miss_unfold w _ _ _ files Hex Hls). cbv zeta.
  set (st1 := State (fs st) (net st ++ [ListRepoTree repo_id "model"]) (stdout st)).
  split.
  - intros Hsome Hmk Habs.
    apply largest_file_loop_some in Hsome as (b & -> & Hsel).
    exists b. split; [done|].
    assert (Hmk1 : makedirs (expanduser w (model_cache_path repo_id save_root)) st1
                   = ((makedirs (expanduser w (model_cache_path repo_id save_root)) st).1,
                      State (fs (makedirs (expanduser w (model_cache_path repo_id save_root)) st).2)
                            (net st1) (stdout st1))).
    { by apply makedirs_fs_only. }
    rewrite download_from_huggingface_unfold. cbv zeta. rewrite Hmk1, Hmk. simpl.
    unfold single_file_path, path_exists in *.
    rewrite <- (makedirs_longer (expanduser w (model_cache_path repo_id save_root)) st
                  _ (final_path_longer _ repo_id)) in Habs.
    destruct (fs (makedirs _ st).2 !! _); [done|].
    destruct (hub_file w repo_id (entry_path b)) as [e|data]; simpl.
    + split; [by rewrite <- app_assoc|]. intros data [=].
    + split; [by rewrite <- app_assoc|]. by intros ? [= <-].
  - intros Hnone. rewrite (largest_file_loop_none _ _ Hnone).
    unfold snapshot_download. unfold_monad. simpl.
    destruct (snapshot w repo_id "model" None) as [e|content]; simpl.
    + split; [by rewrite <- app_assoc|]. intros content [=].
    + split; [by rewrite <- app_assoc|]. by intros ? [= <-].
Qed.

Lemma model_listing_qualifies :
  ∃ e s, e ∈ Demo.model_listing ∧ qualifies total_check_size e s.
Proof.
  exists (RepoFile "model.safetensors" (Some (12 * Demo.GiB))), (12 * Demo.GiB).
  split; [|by vm_compute]. unfold Demo.model_listing. set_solver.
Qed.

Lemma small_listing_none e s :
  e ∈ Demo.small_listing → ¬ qualifies total_check_size e s.
Proof.
  unfold Demo.small_listing. intros Hin (Hs & Hsuf & Hlt).
  repeat (apply elem_of_cons in Hin as [->|Hin]);
    [..|by apply not_elem_of_nil in Hin];
    simpl in Hs; injection Hs as <-; by vm_compute in Hlt.
Qed.

Lemma download_base_model_miss_witness :
  (path_exists (fs Demo.st0) "/cache/models/org--model" = false ∧
   repo_tree Demo.world0 "org/model" "model" = inr Demo.model_listing ∧
   (makedirs "/cache/models/org--model" Demo.st0).1 = Ok tt ∧
   path_exists (fs Demo.st0) "/cache/models/org--model/org_model.safetensors" = false ∧
   ∃ b, selected total_check_size Demo.model_listing (Some b) ∧
        net (download_base_model Demo.world0 "org/model" "/cache/models" Demo.st0).2 =
          net Demo.st0 ++ [ListRepoTree "org/model" "model";
                           HfHubDownload "org/model" (entry_path b)]) ∧
  (path_exists (fs Demo.st0) "/cache/models/org--small" = false ∧
   repo_tree Demo.world0 "org/small" "model" = inr Demo.small_listing ∧
   net (download_base_model Demo.world0 "org/small" "/cache/models" Demo.st0).2 =
     net Demo.st0 ++ [ListRepoTree "org/small" "model";
                      SnapshotDownload "org/small" "model" "/cache/models/org--small" None]).
Proof.
  split.
  - split; [by vm_compute|]. split; [reflexivity|]. split; [by vm_compute|].
    split; [by vm_compute|].
    destruct (download_base_model_miss Demo.world0 "org/model" "/cache/models"
                Demo.st0 Demo.model_listing) as [Hsel _];
      [by vm_compute | reflexivity |].
    destruct Hsel as (b & Hb & Hnet & _);
      [exact model_listing_qualifies | by vm_compute | by vm_compute |].
    exists b. split; [exact Hb | exact Hnet].
  - split; [by vm_compute|]. split; [reflexivity|].
    destruct (download_base_model_miss Demo.world0 "org/small" "/cache/models"
                Demo.st0 Demo.small_listing) as [_ Hsnap];
      [by vm_compute | reflexivity |].
    destruct Hsnap as [Hnet _]; [exact small_listing_none|].
    exact Hnet.
Defined.

(** C10. Whenever the model cache directory exists the generic base-model
    fetch returns the directory path.  In particular, when a first run finds
    the directory absent, selects an entry and fetches it, that run returns
    the path of the [.safetensors] file it put inside the directory, and a
    second run then returns the directory itself: two different paths.  The
    cache directory is taken not to be a tilde path that [expanduser]
    rewrites. *)
Theorem download_base_model_rerun_returns_directory (w : world)
    (repo_id save_root : string) :
  let save_path := model_cache_path repo_id save_root in
  let file_path := Py.join save_path (local_filename repo_id) in
  let fetch := download_base_model w repo_id save_root in
  (∀ st, path_exists (fs st) save_path = true → (fetch st).1 = Ok save_path) ∧
  (∀ st files b data,
     path_exists (fs st) save_path = false →
     repo_tree w repo_id "model" = inr files →
     largest_file_loop total_check_size files = Some b →
     expanduser w save_path = save_path →
     (makedirs save_path st).1 = Ok tt →
     path_exists (fs st) file_path = false →
     hub_file w repo_id (entry_path b) = inr data →
     (fetch st).1 = Ok file_path ∧
     Py.endswith file_path ".safetensors" = true ∧
     (fetch (fetch st).2).1 = Ok save_path ∧
     file_path ≠ save_path).
Proof.
  cbv zeta. split.
  - intros st Hex. by destruct (download_base_model_hit w _ _ _ Hex) as [line ->].
  - intros st files b data Hex Hls Hb Hhome Hmk Habs Hhub.
    assert (Hne : Py.join (model_cache_path repo_id save_root) (local_filename repo_id)
                  ≠ model_cache_path repo_id save_root).
    { intros Heq.
      pose proof (final_path_longer (model_cache_path repo_id save_root) repo_id) as Hl.
      rewrite Heq in Hl. lia. }
    rewrite (download_base_model_miss_unfold w _ _ _ files Hex Hls). cbv zeta.
    rewrite Hb, download_from_huggingface_unfold. cbv zeta.
    unfold single_file_path. rewrite Hhome.
    set (st1 := State (fs st) (net st ++ [ListRepoTree repo_id "model"]) (stdout st)).
    pose proof (makedirs_ok (model_cache_path repo_id save_root) st1) as Hdir.
    pose proof (makedirs_longer (model_cache_path repo_id save_root) st1 _
                  (final_path_longer _ repo_id)) as Hsame.
    assert (Hmk1 : (makedirs (model_cache_path repo_id save_root) st1).1 = Ok tt).
    { by rewrite (makedirs_fs_only _ st st1). }
    specialize (Hdir Hmk1).
    destruct (makedirs (model_cache_path repo_id save_root) st1) as [[[]|e] st2];
      [|done].
    simpl in Hdir, Hsame. unfold path_exists in *. rewrite Hsame. simpl.
    destruct (fs st !! Py.join _ _) as [x|] eqn:Hfile; [done|].
    rewrite Hhub. simpl.
    split; [done|]. split; [apply final_path_safetensors|]. split; [|done].
    edestruct (download_base_model_hit w repo_id save_root) as [line ->]; [|done].
    unfold path_exists. simpl. rewrite lookup_insert_ne by done. by rewrite Hdir.
Qed.

Lemma download_base_model_rerun_returns_directory_witness :
  let fetch := download_base_model Demo.world0 "org/model" "/cache/models" in
  path_exists (fs Demo.st0) "/cache/models/org--model" = false ∧
  repo_tree Demo.world0 "org/model" "model" = inr Demo.model_listing ∧
  largest_file_loop total_check_size Demo.model_listing =
    Some (RepoFile "model.safetensors" (Some (12 * Demo.GiB))) ∧
  expanduser Demo.world0 "/cache/models/org--model" = "/cache/models/org--model" ∧
  (makedirs "/cache/models/org--model" Demo.st0).1 = Ok tt ∧
  hub_file Demo.world0 "org/model" "model.safetensors" = inr Demo.weights ∧
  (fetch Demo.st0).1 = Ok "/cache/models/org--model/org_model.safetensors" ∧
  (fetch (fetch Demo.st0).2).1 = Ok "/cache/models/org--model".
Proof.
  cbv zeta.
  split; [by vm_compute|]. split; [reflexivity|]. split; [by vm_compute|].
  split; [reflexivity|]. split; [by vm_compute|]. split; [reflexivity|].
  destruct (download_base_model_rerun_returns_directory Demo.world0 "org/model"
              "/cache/models") as [_ Hrerun].
  destruct (Hrerun Demo.st0 Demo.model_listing
              (RepoFile "model.safetensors" (Some (12 * Demo.GiB))) Demo.weights)
    as (Hfirst & _ & Hsecond & _);
    [by vm_compute | reflexivity | by vm_compute | reflexivity | by vm_compute
    | by vm_compute | reflexivity |].
  split; [exact Hfirst | exact Hsecond].
Defined.

(** ** Datasets from S3 *)



(** ** The large single-file variant *)

Lemma flux_loop_skip (w : world) (repo_id output_dir : string) (file : RepoEntry)
    (rest : list RepoEntry) (file_path local_path : option string) :
  (∀ s, ¬ qualifies flux_check_size file s) →
  flux_loop w repo_id output_dir (file :: rest) file_path local_path =
  flux_loop w repo_id output_dir rest file_path local_path.
Proof.
  intros Hno. cbn [flux_loop].
  destruct (entry_size file) as [size|] eqn:Hsize; [|done].
  destruct (Py.endswith _ _ && _) eqn:Hguard; [|done].
  destruct (Hno size). by apply qualifies_guard.
Qed.

Lemma flux_loop_take (w : world) (repo_id output_dir : string) (file : RepoEntry)
    (s : Z) (rest : list RepoEntry) (file_path local_path : option string) :
  qualifies flux_check_size file s →
  flux_loop w repo_id output_dir (file :: rest) file_path local_path =
  (lp <- download_from_huggingface w repo_id (entry_path file) output_dir ;;
   flux_loop w repo_id output_dir rest (Some (entry_path file)) (Some lp)).
Proof.
  intros [Hsize Hguard]%qualifies_guard. cbn [flux_loop].
  by rewrite Hsize, Hguard.
Qed.

Lemma flux_loop_app_skip (w : world) (repo_id output_dir : string)
    (pre rest : list RepoEntry) (file_path local_path : option string) :
  (∀ e s, e ∈ pre → ¬ qualifies flux_check_size e s) →
  flux_loop w repo_id output_dir (pre ++ rest) file_path local_path =
  flux_loop w repo_id output_dir rest file_path local_path.
Proof.
  induction pre as [|e pre IH]; intros Hno; [done|].
  rewrite <- app_comm_cons, flux_loop_skip.
  - apply IH. intros e' s He'. apply Hno. by right.
  - intros s. apply Hno. by left.
Qed.

Lemma flux_loop_none (w : world) (repo_id output_dir : string)
    (files : list RepoEntry) (file_path local_path : option string) :
  (∀ e s, e ∈ files → ¬ qualifies flux_check_size e s) →
  flux_loop w repo_id output_dir files file_path local_path =
  ret (file_path, local_path).
Proof.
  intros Hno. rewrite <- (app_nil_r files). by rewrite flux_loop_app_skip.
Qed.

Lemma mkdir_chain_raise (ds : list string) :
  ∀ m e, (mkdir_chain ds m).2 = Some e → from_outside e.
Proof.
  induction ds as [|d ds IH]; intros m e; simpl; [done|].
  destruct (m !! d) as [[|data]|]; simpl; eauto.
  intros [= <-]. by destruct ds.
Qed.

Lemma makedirs_raise (name : string) (st : state) (e : exn) :
  (makedirs name st).1 = Raise e → from_outside e.
Proof.
  unfold makedirs. destruct (fs st !! name) as [[|data]|]; simpl; [done| |].
  - by intros [= <-].
  - destruct (Py.truthy name); [|by intros [= <-]].
    pose proof (mkdir_chain_raise (Py.dirnames name ++ [name]) (fs st)) as H.
    destruct (mkdir_chain _ _) as [m [e'|]]; simpl in *; [|done].
    intros [= <-]. by apply H.
Qed.

Lemma download_from_huggingface_raise (w : world)
    (repo_id filename local_dir : string) (st : state) (e : exn) :
  (download_from_huggingface w repo_id filename local_dir st).1 = Raise e →
  from_outside e.
Proof.
  rewrite download_from_huggingface_unfold. cbv zeta.
  pose proof (makedirs_raise (expanduser w local_dir) st) as Hmk.
  destruct (makedirs (expanduser w local_dir) st) as [[[]|e'] st1]; simpl in *.
  - destruct (path_exists _ _); [done|].
    destruct (hub_file w repo_id filename); simpl; [|done]. by intros [= <-].
  - intros [= <-]. by apply Hmk.
Qed.

(** The single-file fetch on a destination that is already there. *)
Lemma download_from_huggingface_present (w : world)
    (repo_id filename local_dir : string) (st : state) :
  fs st !! expanduser w local_dir = Some Dir →
  path_exists (fs st) (single_file_path w repo_id local_dir) = true →
  ∃ line, download_from_huggingface w repo_id filename local_dir st =
          (Ok (single_file_path w repo_id local_dir),
           State (fs st) (net st) (stdout st ++ [line])).
Proof.
  intros Hdir Hex. rewrite download_from_huggingface_unfold. cbv zeta.
  rewrite makedirs_isdir by done. rewrite Hex. by eexists.
Qed.

(** Once the destination is there, the rest of the loop downloads nothing. *)
Lemma flux_loop_present (w : world) (repo_id output_dir : string)
    (files : list RepoEntry) :
  ∀ p st,
    Py.truthy p = true →
    fs st !! expanduser w output_dir = Some Dir →
    path_exists (fs st) (single_file_path w repo_id output_dir) = true →
    ∃ p' lines,
      Py.truthy p' = true ∧
      flux_loop w repo_id output_dir files (Some p)
        (Some (single_file_path w repo_id output_dir)) st =
      (Ok (Some p', Some (single_file_path w repo_id output_dir)),
       State (fs st) (net st) (stdout st ++ lines)).
Proof.
  induction files as [|file rest IH]; intros p st Hp Hdir Hex.
  - exists p, []. split; [done|]. simpl. unfold ret. rewrite app_nil_r.
    by destruct st.
  - destruct (entry_size file) as [size|] eqn:Hsize; cycle 1.
    { rewrite flux_loop_skip; [by apply IH|]. intros s (? & _). congruence. }
    destruct (Py.endswith (entry_path file) ".safetensors" && (flux_check_size <? size))
      eqn:Hguard; cycle 1.
    { rewrite flux_loop_skip; [by apply IH|].
      intros s [Hs Hg]%qualifies_guard. congruence. }
    assert (Hq : qualifies flux_check_size file size) by (by apply qualifies_guard).
    rewrite (flux_loop_take _ _ _ _ size) by done. unfold bind.
    destruct (download_from_huggingface_present w repo_id (entry_path file)
                output_dir st Hdir Hex) as [line ->].
    destruct (IH (entry_path file)
                 (State (fs st) (net st) (stdout st ++ [line])))
      as (p' & lines & Hp' & ->); [|done|done|].
    { destruct Hq as (_ & Hsuf & _). by apply (endswith_truthy _ ".safetensors"). }
    exists p', (line :: lines). split; [done|]. simpl.
    by rewrite <- app_assoc.
Qed.

(** What the loop leaves in its two locals. *)
Lemma flux_loop_outcome (w : world) (repo_id output_dir : string)
    (files : list RepoEntry) :
  ∀ file_path local_path st,
    match (flux_loop w repo_id output_dir files file_path local_path st).1 with
    | Ok (file_path', local_path') =>
        (file_path' = file_path ∧ local_path' = local_path ∧
         ∀ e s, e ∈ files → ¬ qualifies flux_check_size e s) ∨
        (∃ p l, file_path' = Some p ∧ Py.truthy p = true ∧ local_path' = Some l)
    | Raise e => from_outside e ∧ ∃ f s, f ∈ files ∧ qualifies flux_check_size f s
    end.
Proof.
  induction files as [|file rest IH]; intros file_path local_path st.
  - simpl. left. split; [done|]. split; [done|].
    intros e s He. by apply not_elem_of_nil in He.
  - assert (Hskip : (∀ s, ¬ qualifies flux_check_size file s) →
      match (flux_loop w repo_id output_dir (file :: rest) file_path local_path st).1 with
      | Ok (file_path', local_path') =>
          (file_path' = file_path ∧ local_path' = local_path ∧
           ∀ e s, e ∈ file :: rest → ¬ qualifies flux_check_size e s) ∨
          (∃ p l, file_path' = Some p ∧ Py.truthy p = true ∧ local_path' = Some l)
      | Raise e => from_outside e ∧
                   ∃ f s, f ∈ file :: rest ∧ qualifies flux_check_size f s
      end).
    { intros Hno. rewrite flux_loop_skip by done.
      specialize (IH file_path local_path st).
      destruct (flux_loop w repo_id output_dir rest file_path local_path st).1
        as [[fp lp]|e].
      - destruct IH as [(-> & -> & Hrest)|IH]; [left|by right].
        split; [done|]. split; [done|].
        intros e s [->|He]%elem_of_cons; [apply Hno | by apply Hrest].
      - destruct IH as (He & f & s & Hf & Hq). split; [done|].
        exists f, s. split; [by right | done]. }
    destruct (entry_size file) as [size|] eqn:Hsize; cycle 1.
    { apply Hskip. intros s (? & _). congruence. }
    destruct (Py.endswith (entry_path file) ".safetensors" && (flux_check_size <? size))
      eqn:Hguard; cycle 1.
    { apply Hskip. intros s [Hs Hg]%qualifies_guard. congruence. }
    clear Hskip.
    assert (Hq : qualifies flux_check_size file size) by (by apply qualifies_guard).
    rewrite (flux_loop_take _ _ _ _ size) by done. unfold bind.
    pose proof (download_from_huggingface_raise w repo_id (entry_path file)
                  output_dir st) as Hraise.
    destruct (download_from_huggingface w repo_id (entry_path file) output_dir st)
      as [[lp|e] st1]; simpl in *.
    + specialize (IH (Some (entry_path file)) (Some lp) st1).
      destruct (flux_loop w repo_id output_dir rest _ _ st1).1 as [[fp' lp']|e].
      * right. destruct IH as [(-> & -> & _)|IH]; [|done].
        exists (entry_path file), lp. split; [done|]. split; [|done].
        destruct Hq as (_ & Hsuf & _). by apply (endswith_truthy _ ".safetensors").
      * destruct IH as [He _]. split; [done|].
        exists file, size. split; [by left | done].
    + split; [by apply Hraise|]. exists file, size. split; [by left | done].
Qed.

Lemma download_flux_unet_unfold (w : world) (repo_id output_dir : string)
    (st : state) (files : list RepoEntry) :
  repo_tree w repo_id "model" = inr files →
  download_flux_unet w repo_id output_dir st =
  match flux_loop w repo_id output_dir files None None
          (State (fs st) (net st ++ [ListRepoTree repo_id "model"]) (stdout st)) with
  | (Ok (Some p, local_path), st') =>
      if Py.truthy p then
        match local_path with
        | Some l => (Ok l, st')
        | None => (Raise (UnboundLocalError "local_path"), st')
        end
      else (Raise (FileNotFoundError repo_id), st')
  | (Ok (None, _), st') => (Raise (FileNotFoundError repo_id), st')
  | (Raise e, st') => (Raise e, st')
  end.
Proof.
  intros Hls. unfold download_flux_unet, list_repo_tree. unfold_monad.
  cbn beta iota zeta. rewrite Hls. cbn beta iota.
  destruct (flux_loop _ _ _ _ _ _ _) as [[[[p|] [l|]]|e] st']; simpl; try done;
    by destruct (Py.truthy p).
Qed.

(** C5, as the code has it.  Given the listing, the large single-file variant
    fails with its [FileNotFoundError] exactly when no entry ends with
    [.safetensors] and exceeds the 10 GiB threshold.  Otherwise it runs the
    single-file fetch on every qualifying entry in listing order, all towards
    the one destination made from the repository id: with the destination
    absent, its directory creatable and the hub delivering, the entry
    downloaded is the first qualifying one of the listing, no other download
    is made, and the destination path is returned. *)
Theorem download_flux_unet_first_qualifying (w : world)
    (repo_id output_dir : string) (st : state) (files : list RepoEntry) :
  repo_tree w repo_id "model" = inr files →
  let final_path := single_file_path w repo_id output_dir in
  let r := download_flux_unet w repo_id output_dir st in
  (r.1 = Raise (FileNotFoundError repo_id) ↔
   ∀ e s, e ∈ files → ¬ qualifies flux_check_size e s) ∧
  (∀ pre file s post data,
     files = pre ++ file :: post →
     (∀ e s', e ∈ pre → ¬ qualifies flux_check_size e s') →
     qualifies flux_check_size file s →
     (makedirs (expanduser w output_dir) st).1 = Ok tt →
     path_exists (fs st) final_path = false →
     hub_file w repo_id (entry_path file) = inr data →
     r.1 = Ok final_path ∧
     net r.2 = net st ++ [ListRepoTree repo_id "model";
                          HfHubDownload repo_id (entry_path file)] ∧
     fs r.2 = <[final_path := File data]>
                (fs (makedirs (expanduser w output_dir) st).2)).
Proof.
  intros Hls. cbv zeta. rewrite (download_flux_unet_unfold w _ _ _ files Hls).
  set (st1 := State (fs st) (net st ++ [ListRepoTree repo_id "model"]) (stdout st)).
  split.
  - split.
    + intros Hfnf.
      pose proof (flux_loop_outcome w repo_id output_dir files None None st1) as Hout.
      destruct (flux_loop w repo_id output_dir files None None st1)
        as [[[fp lp]|e] st']; simpl in *.
      * destruct Hout as [(_ & _ & Hno)|(p & l & -> & Hp & ->)]; [done|].
        by rewrite Hp in Hfnf.
      * destruct Hout as [He _]. injection Hfnf as ->. done.
    + intros Hno. by rewrite flux_loop_none.
  - intros pre file s post data -> Hpre Hq Hmk Habs Hhub.
    rewrite flux_loop_app_skip by done.
    rewrite (flux_loop_take _ _ _ _ s) by done. unfold bind.
    rewrite download_from_huggingface_unfold. cbv zeta.
    rewrite (makedirs_fs_only _ st st1) by done.
    pose proof (makedirs_ok (expanduser w output_dir) st Hmk) as Hdir.
    pose proof (makedirs_longer (expanduser w output_dir) st
                  (single_file_path w repo_id output_dir)
                  (final_path_longer _ _)) as Hsame.
    rewrite Hmk. unfold path_exists in *. cbn [fs net stdout].
    rewrite Hsame. destruct (fs st !! single_file_path w repo_id output_dir);
      [done|].
    rewrite Hhub.
    edestruct (flux_loop_present w repo_id output_dir post (entry_path file))
      as (p' & lines & Hp' & ->).
    + destruct Hq as (_ & Hsuf & _). by apply (endswith_truthy _ ".safetensors").
    + cbn [fs]. rewrite lookup_insert_ne; [exact Hdir|].
      intros Heq. pose proof (final_path_longer (expanduser w output_dir) repo_id) as Hl.
      unfold single_file_path in Heq. rewrite Heq in Hl. lia.
    + unfold path_exists. cbn [fs]. by rewrite lookup_insert_eq.
    + rewrite Hp'. simpl. by rewrite <- app_assoc.
Qed.

Lemma download_flux_unet_first_qualifying_witness :
  let r := download_flux_unet Demo.world0 "org/flux" "/cache/models/flux" Demo.st0 in
  repo_tree Demo.world0 "org/flux" "model" = inr Demo.flux_listing ∧
  Demo.flux_listing =
    [RepoFile "ae.safetensors" (Some (1 * Demo.GiB))] ++
    RepoFile "flux1-a.safetensors" (Some (11 * Demo.GiB)) ::
    [RepoFile "flux1-b.safetensors" (Some (12 * Demo.GiB))] ∧
  qualifies flux_check_size (RepoFile "flux1-a.safetensors" (Some (11 * Demo.GiB)))
    (11 * Demo.GiB) ∧
  (makedirs "/cache/models/flux" Demo.st0).1 = Ok tt ∧
  path_exists (fs Demo.st0) "/cache/models/flux/org_flux.safetensors" = false ∧
  hub_file Demo.world0 "org/flux" "flux1-a.safetensors" = inr Demo.weights ∧
  r.1 = Ok "/cache/models/flux/org_flux.safetensors" ∧
  net r.2 = [ListRepoTree "org/flux" "model";
             HfHubDownload "org/flux" "flux1-a.safetensors"].
Proof.
  cbv zeta.
  split; [reflexivity|]. split; [reflexivity|]. split; [by vm_compute|].
  split; [by vm_compute|]. split; [by vm_compute|]. split; [reflexivity|].
  destruct (download_flux_unet_first_qualifying Demo.world0 "org/flux"
              "/cache/models/flux" Demo.st0 Demo.flux_listing) as [_ Hfirst];
    [reflexivity|].
  destruct (Hfirst [RepoFile "ae.safetensors" (Some (1 * Demo.GiB))]
              (RepoFile "flux1-a.safetensors" (Some (11 * Demo.GiB)))
              (11 * Demo.GiB)
              [RepoFile "flux1-b.safetensors" (Some (12 * Demo.GiB))]
              Demo.weights) as (Hr & Hnet & _);
    [reflexivity | | by vm_compute | by vm_compute | by vm_compute | reflexivity |].
  - intros e s' ->%list_elem_of_singleton (Hs & _ & Hlt).
    simpl in Hs. injection Hs as <-. by vm_compute in Hlt.
  - split; [exact Hr | exact Hnet].
Defined.

(** The claim of C5 fails on a listing with two qualifying entries: the
    selector, as the specification words it and as the loop of
    [is_safetensors_available] runs it with the 10 GiB threshold, chooses
    the larger [flux1-b.safetensors]; the variant downloads only
    [flux1-a.safetensors], the first one listed, and the destination holds
    its content. *)
Lemma download_flux_unet_not_the_selected_file :
  repo_tree Demo.world0 "org/flux" "model" = inr Demo.flux_listing ∧
  spec_select_largest_over_threshold Demo.flux_listing ".safetensors" flux_check_size =
    Some "flux1-b.safetensors" ∧
  entry_path <$> largest_file_loop flux_check_size Demo.flux_listing =
    Some "flux1-b.safetensors" ∧
  (download_flux_unet Demo.world0 "org/flux" "/cache/models/flux" Demo.st0).1 =
    Ok "/cache/models/flux/org_flux.safetensors" ∧
  net (download_flux_unet Demo.world0 "org/flux" "/cache/models/flux" Demo.st0).2 =
    [ListRepoTree "org/flux" "model";
     HfHubDownload "org/flux" "flux1-a.safetensors"] ∧
  hub_file Demo.world0 "org/flux" "flux1-a.safetensors" = inr Demo.weights ∧
  hub_file Demo.world0 "org/flux" "flux1-b.safetensors" = inr Demo.weights_b ∧
  fs (download_flux_unet Demo.world0 "org/flux" "/cache/models/flux" Demo.st0).2
    !! "/cache/models/flux/org_flux.safetensors" = Some (File Demo.weights).
Proof. repeat split; by vm_compute. Qed.

(** ** The orchestrator on text tasks *)

Section OnlyCalls.

Variable P : call → Prop.

Lemma only_calls_silent {A} (m : M A) :
  (∀ st, net (m st).2 = net st) → only_calls P m.
Proof. intros H st. exists []. by rewrite app_nil_r, H. Qed.

Lemma only_calls_ret {A} (a : A) : only_calls P (ret a).
Proof. by apply only_calls_silent. Qed.

Lemma only_calls_raise {A} (e : exn) : only_calls P (@raise A e).
Proof. by apply only_calls_silent. Qed.

Lemma only_calls_print (line : string) : only_calls P (print line).
Proof. by apply only_calls_silent. Qed.

Lemma only_calls_exists (p : string) : only_calls P (os_path_exists p).
Proof. by apply only_calls_silent. Qed.

Lemma only_calls_makedirs (name : string) : only_calls P (makedirs name).
Proof. apply only_calls_silent. intros st. apply makedirs_frame. Qed.

Lemma only_calls_log (c : call) : P c → only_calls P (log c).
Proof. intros Hc st. exists [c]. split; [done|]. by constructor. Qed.

Lemma only_calls_bind {A B} (m : M A) (k : A → M B) :
  only_calls P m → (∀ a, only_calls P (k a)) → only_calls P (bind m k).
Proof.
  intros Hm Hk st. unfold bind. destruct (Hm st) as (l1 & Hl1 & HP1).
  destruct (m st) as [[a|e] st1]; simpl in *.
  - destruct (Hk a st1) as (l2 & Hl2 & HP2). exists (l1 ++ l2).
    split; [by rewrite Hl2, Hl1, app_assoc | by apply Forall_app].
  - by exists l1.
Qed.

End OnlyCalls.

Lemma only_calls_download_s3_file (w : world) (file_url : string)
    (save_path : option string) (tmp_dir : string) :
  only_calls get_or_snapshot (download_s3_file w file_url save_path tmp_dir).
Proof.
  intros st. exists [HttpGet file_url]. split; [|by repeat constructor].
  rewrite download_s3_file_unfold. cbv zeta.
  destruct (http_get w file_url) as [e|[status body]]; [done|].
  destruct (status =? 200); [|done]. by destruct (open_wb_error _ _) as [e|].
Qed.

Lemma only_calls_shutil_copy (src dst : string) :
  only_calls get_or_snapshot (shutil_copy src dst).
Proof.
  apply only_calls_silent. intros st. unfold shutil_copy, open_wb_write.
  unfold_monad. destruct (fs st !! src) as [[|data]|]; [done| |done].
  case_bool_decide; [done|]. simpl. by destruct (open_wb_error _ _) as [e|].
Qed.

Lemma only_calls_snapshot_download (w : world) (repo_id repo_type local_dir : string)
    (allow_patterns : option (list string)) :
  only_calls get_or_snapshot
    (snapshot_download w repo_id repo_type local_dir allow_patterns).
Proof.
  intros st. exists [SnapshotDownload repo_id repo_type local_dir allow_patterns].
  split; [|by repeat constructor]. unfold snapshot_download. unfold_monad.
  by destruct (snapshot w repo_id repo_type allow_patterns).
Qed.

Lemma only_calls_download_text_dataset (w : world) (task_id dataset_url : string)
    (file_format : option string) (dataset_dir : string) :
  only_calls get_or_snapshot
    (download_text_dataset w task_id dataset_url file_format dataset_dir).
Proof.
  unfold download_text_dataset.
  apply only_calls_bind; [apply only_calls_makedirs|]. intros _.
  apply only_calls_bind.
  - repeat case_bool_decide.
    + apply only_calls_bind; [apply only_calls_exists|]. intros e.
      apply only_calls_bind; [|intros; apply only_calls_ret].
      destruct e; simpl; [apply only_calls_ret|].
      apply only_calls_bind; [apply only_calls_download_s3_file|]. intros lp.
      apply only_calls_bind; [apply only_calls_shutil_copy|]. intros.
      apply only_calls_ret.
    + apply only_calls_bind; [apply only_calls_exists|]. intros e.
      apply only_calls_bind; [|intros; apply only_calls_ret].
      destruct e; simpl; [apply only_calls_ret|].
      apply only_calls_snapshot_download.
    + apply only_calls_ret.
  - intros [p|]; [apply only_calls_ret | apply only_calls_raise].
Qed.

Lemma only_calls_download_axolotl_base_model (w : world) (repo_id save_dir : string) :
  only_calls get_or_snapshot (download_axolotl_base_model w repo_id save_dir).
Proof.
  unfold download_axolotl_base_model.
  apply only_calls_bind; [apply only_calls_exists|]. intros [|].
  - apply only_calls_bind; [apply only_calls_print|]. intros. apply only_calls_ret.
  - apply only_calls_bind; [apply only_calls_snapshot_download|]. intros.
    apply only_calls_ret.
Qed.

(** C1, as the code has it.  For a task type other than [ImageTask], [main]
    fetches the model with [download_axolotl_base_model]: a run of [main]
    adds to the log of outside calls only GETs and snapshot downloads, never
    a repository listing or a single-file download.  With the cache path
    present the model fetch returns it, with the file system and the log of
    outside calls as they were; with the cache path absent it is the
    snapshot of the whole repository into the cache path, with no selection
    before it.  The selective strategy is the one of [ImageTask]: there
    [main] fetches the model with [download_base_model], which on a miss
    lists the repository, runs the selection loop on the listing and goes on
    with the single-file fetch of the selected entry, or with the snapshot
    when there is none. *)
Theorem main_text_task_snapshot_only (w : world) (args : Args) :
  arg_task_type args ∈ task_type_choices →
  arg_task_type args ≠ TaskType_value IMAGETASK →
  main w args =
    (_ <- makedirs "/cache/datasets" ;;
     _ <- makedirs "/cache/models" ;;
     _ <- print "Downloading datasets to: /cache/datasets" ;;
     _ <- print "Downloading models to: /cache/models" ;;
     model_path <-
       (r <- download_text_dataset w (arg_task_id args) (arg_dataset args)
               (arg_file_format args) "/cache/datasets" ;;
        download_axolotl_base_model w (arg_model args) "/cache/models") ;;
     _ <- print ("Model path: " +:+ model_path) ;;
     print "Dataset path: /cache/datasets") ∧
  only_calls get_or_snapshot (main w args) ∧
  (∀ st,
     let model_dir := model_cache_path (arg_model args) "/cache/models" in
     let r := download_axolotl_base_model w (arg_model args) "/cache/models" st in
     path_exists (fs st) model_dir = true →
     r.1 = Ok model_dir ∧ fs r.2 = fs st ∧ net r.2 = net st) ∧
  (∀ st,
     let model_dir := model_cache_path (arg_model args) "/cache/models" in
     path_exists (fs st) model_dir = false →
     download_axolotl_base_model w (arg_model args) "/cache/models" st =
       (_ <- snapshot_download w (arg_model args) "model" model_dir None ;;
        ret model_dir) st) ∧
  (∀ image_args, arg_task_type image_args = TaskType_value IMAGETASK →
     main w image_args =
       (_ <- makedirs "/cache/datasets" ;;
        _ <- makedirs "/cache/models" ;;
        _ <- print "Downloading datasets to: /cache/datasets" ;;
        _ <- print "Downloading models to: /cache/models" ;;
        model_path <-
          (dataset_zip_path <-
             download_image_dataset w (arg_dataset image_args)
               (arg_task_id image_args) "/cache/datasets" ;;
           model_path <-
             download_base_model w (arg_model image_args) "/cache/models" ;;
           _ <- print "Downloading clip models" ;;
           _ <- CLIPTokenizer_from_pretrained w
                  "openai/clip-vit-large-patch14" "/cache/hf_cache" ;;
           _ <- CLIPTokenizer_from_pretrained w
                  "laion/CLIP-ViT-bigG-14-laion2B-39B-b160k" "/cache/hf_cache" ;;
           _ <- snapshot_download w "google/t5-v1_1-xxl" "model"
                  "/cache/hf_cache/google--t5-v1_1-xxl" (Some t5_allow_patterns) ;;
           ret model_path) ;;
        _ <- print ("Model path: " +:+ model_path) ;;
        print "Dataset path: /cache/datasets") ∧
     ∀ st files,
       let save_path := model_cache_path (arg_model image_args) "/cache/models" in
       let listed := State (fs st)
                       (net st ++ [ListRepoTree (arg_model image_args) "model"])
                       (stdout st) in
       path_exists (fs st) save_path = false →
       repo_tree w (arg_model image_args) "model" = inr files →
       download_base_model w (arg_model image_args) "/cache/models" st =
         match largest_file_loop total_check_size files with
         | Some b =>
             download_from_huggingface w (arg_model image_args) (entry_path b)
               save_path listed
         | None =>
             (_ <- snapshot_download w (arg_model image_args) "model" save_path None ;;
              ret save_path) listed
         end).
Proof.
  intros Hchoice Htext.
  assert (Hmain : main w args =
    (_ <- makedirs "/cache/datasets" ;;
     _ <- makedirs "/cache/models" ;;
     _ <- print "Downloading datasets to: /cache/datasets" ;;
     _ <- print "Downloading models to: /cache/models" ;;
     model_path <-
       (r <- download_text_dataset w (arg_task_id args) (arg_dataset args)
               (arg_file_format args) "/cache/datasets" ;;
        download_axolotl_base_model w (arg_model args) "/cache/models") ;;
     _ <- print ("Model path: " +:+ model_path) ;;
     print "Dataset path: /cache/datasets")).
  { unfold main. rewrite bool_decide_eq_true_2 by done. cbn [negb].
    by rewrite bool_decide_eq_false_2 by done. }
  split; [exact Hmain|]. split; [|split; [|split]].
  - rewrite Hmain.
    apply only_calls_bind; [apply only_calls_makedirs|]. intros _.
    apply only_calls_bind; [apply only_calls_makedirs|]. intros _.
    apply only_calls_bind; [apply only_calls_print|]. intros _.
    apply only_calls_bind; [apply only_calls_print|]. intros _.
    apply only_calls_bind.
    + apply only_calls_bind; [apply only_calls_download_text_dataset|]. intros _.
      apply only_calls_download_axolotl_base_model.
    + intros model_path.
      apply only_calls_bind; [apply only_calls_print|]. intros _.
      apply only_calls_print.
  - cbv zeta. intros st Hex.
    by destruct (download_axolotl_base_model_hit w _ _ _ Hex) as [line ->].
  - cbv zeta. intros st Habs. unfold download_axolotl_base_model, model_cache_path in *.
    unfold bind at 1. unfold os_path_exists. by rewrite Habs.
  - intros image_args Himage. split.
    + unfold main.
      rewrite bool_decide_eq_true_2 by (rewrite Himage; constructor).
      cbn [negb]. by rewrite bool_decide_eq_true_2 by done.
    + cbv zeta. intros st files Habs Hls.
      by rewrite (download_base_model_miss_unfold w _ _ _ files Habs Hls).
Qed.

Lemma main_text_task_snapshot_only_witness :
  arg_task_type Demo.text_args ∈ task_type_choices ∧
  arg_task_type Demo.text_args ≠ TaskType_value IMAGETASK ∧
  only_calls get_or_snapshot (main Demo.world0 Demo.text_args) ∧
  path_exists (fs Demo.st_cached) (model_cache_path "org/model" "/cache/models") = true ∧
  download_axolotl_base_model Demo.world0 "org/model" "/cache/models" Demo.st_cached =
    (Ok "/cache/models/org--model",
     State (fs Demo.st_cached) []
       ["Model org/model already exists at /cache/models/org--model. Skipping download."]) ∧
  path_exists (fs Demo.st0) (model_cache_path "org/model" "/cache/models") = false ∧
  download_axolotl_base_model Demo.world0 "org/model" "/cache/models" Demo.st0 =
    (_ <- snapshot_download Demo.world0 "org/model" "model"
            "/cache/models/org--model" None ;;
     ret "/cache/models/org--model") Demo.st0.
Proof.
  assert (Hchoice : arg_task_type Demo.text_args ∈ task_type_choices).
  { unfold task_type_choices. simpl. set_solver. }
  assert (Htext : arg_task_type Demo.text_args ≠ TaskType_value IMAGETASK) by done.
  destruct (main_text_task_snapshot_only Demo.world0 Demo.text_args Hchoice Htext)
    as (_ & Hcalls & _ & Hmiss & _).
  split; [exact Hchoice|]. split; [exact Htext|]. split; [exact Hcalls|].
  split; [by vm_compute|]. split; [by vm_compute|]. split; [by vm_compute|].
  apply (Hmiss Demo.st0). by vm_compute.
Defined.

(** The claim of C1 fails on an [InstructTextTask] whose model is not cached
    and whose repository lists a 12 GiB [model.safetensors], which the
    selection loop would choose: [main] makes the GET of the dataset and a
    snapshot of the whole model repository, and never lists it.  The generic
    base-model fetch, on the same state, lists and downloads the one file. *)
Lemma main_text_task_snapshots_without_selection :
  arg_task_type Demo.text_args = TaskType_value INSTRUCTTEXTTASK ∧
  path_exists (fs Demo.st0) (model_cache_path "org/model" "/cache/models") = false ∧
  repo_tree Demo.world0 "org/model" "model" = inr Demo.model_listing ∧
  entry_path <$> largest_file_loop total_check_size Demo.model_listing =
    Some "model.safetensors" ∧
  (main Demo.world0 Demo.text_args Demo.st0).1 = Ok tt ∧
  net (main Demo.world0 Demo.text_args Demo.st0).2 =
    [HttpGet "https://ex.com/data.json";
     SnapshotDownload "org/model" "model" "/cache/models/org--model" None] ∧
  net (download_base_model Demo.world0 "org/model" "/cache/models" Demo.st0).2 =
    [ListRepoTree "org/model" "model";
     HfHubDownload "org/model" "model.safetensors"].
Proof. repeat split; by vm_compute. Qed.

(** * Further properties *)

(** ** Sanitized repository ids *)

Lemma replace_app (old : ascii) (new s t : string) :
  Py.replace old new (s +:+ t) = Py.replace old new s +:+ Py.replace old new t.
Proof.
  induction s as [|c s IH]; [done|].
  rewrite str_app_cons. cbn [Py.replace]. by rewrite IH, str_app_assoc.
Qed.

Lemma has_char_app (c : ascii) (s t : string) :
  has_char c (s +:+ t) = has_char c s || has_char c t.
Proof.
  induction s as [|c' s IH]; [done|].
  rewrite str_app_cons. cbn [has_char]. by rewrite IH, orb_assoc.
Qed.

Lemma replace_absent (old : ascii) (new s : string) :
  has_char old s = false → Py.replace old new s = s.
Proof.
  induction s as [|c s IH]; [done|]. cbn [has_char Py.replace].
  intros [Hc Hs]%orb_false_iff. rewrite Hc, IH by done. apply str_app_cons.
Qed.

Lemma replace_removes (old : ascii) (new s : string) :
  has_char old new = false → has_char old (Py.replace old new s) = false.
Proof.
  intros Hnew. induction s as [|c s IH]; [done|]. cbn [Py.replace].
  rewrite has_char_app, IH, orb_false_r.
  destruct (Ascii.eqb c old) eqn:Hc; [done|]. simpl. by rewrite Hc.
Qed.

(** X1. Sanitizing a repository id leaves no slash in it, so sanitizing
    again changes nothing: both for the [--] of the cache directories and
    for the [_] of the single-file name.  A sanitized id used as a
    repository id therefore has the cache path of the original. *)
Theorem sanitize_idempotent (repo_id : string) :
  has_char "/" (Py.replace "/" "--" repo_id) = false ∧
  Py.replace "/" "--" (Py.replace "/" "--" repo_id) = Py.replace "/" "--" repo_id ∧
  Py.replace "/" "_" (Py.replace "/" "_" repo_id) = Py.replace "/" "_" repo_id ∧
  (∀ save_root,
     model_cache_path (Py.replace "/" "--" repo_id) save_root =
     model_cache_path repo_id save_root).
Proof.
  assert (H1 : has_char "/" (Py.replace "/" "--" repo_id) = false)
    by (by apply replace_removes).
  assert (H2 : has_char "/" (Py.replace "/" "_" repo_id) = false)
    by (by apply replace_removes).
  split; [done|]. split; [by apply replace_absent|].
  split; [by apply replace_absent|].
  intros save_root. unfold model_cache_path. by rewrite replace_absent.
Qed.

(** X2. Sanitizing is not injective: the repository ids [a/b] and [a--b]
    differ and have the same cache path.  Once the one is cached, the
    generic base-model fetch of the other returns that cache path and makes
    no outside call. *)
Theorem sanitize_collision (w : world) (a b save_root : string) (st : state) :
  path_exists (fs st) (model_cache_path (a +:+ "/" +:+ b) save_root) = true →
  a +:+ "/" +:+ b ≠ a +:+ "--" +:+ b ∧
  model_cache_path (a +:+ "--" +:+ b) save_root =
    model_cache_path (a +:+ "/" +:+ b) save_root ∧
  (download_base_model w (a +:+ "--" +:+ b) save_root st).1 =
    Ok (model_cache_path (a +:+ "/" +:+ b) save_root) ∧
  net (download_base_model w (a +:+ "--" +:+ b) save_root st).2 = net st ∧
  fs (download_base_model w (a +:+ "--" +:+ b) save_root st).2 = fs st.
Proof.
  intros Hex.
  assert (Hsame : model_cache_path (a +:+ "--" +:+ b) save_root =
                  model_cache_path (a +:+ "/" +:+ b) save_root).
  { unfold model_cache_path. by rewrite !replace_app. }
  split; [|split; [done|]].
  - intros Heq. apply (inj (String.append a)) in Heq. discriminate Heq.
  - rewrite <- Hsame in Hex.
    destruct (download_base_model_hit w _ _ _ Hex) as [line ->].
    by rewrite Hsame.
Qed.

Lemma sanitize_collision_witness :
  path_exists (fs Demo.st_cached) (model_cache_path ("org" +:+ "/" +:+ "model")
                                     "/cache/models") = true ∧
  (download_base_model Demo.world0 ("org" +:+ "--" +:+ "model") "/cache/models"
     Demo.st_cached).1 = Ok "/cache/models/org--model" ∧
  net (download_base_model Demo.world0 ("org" +:+ "--" +:+ "model") "/cache/models"
         Demo.st_cached).2 = [].
Proof.
  split; [by vm_compute|].
  destruct (sanitize_collision Demo.world0 "org" "model" "/cache/models"
              Demo.st_cached) as (_ & _ & Hr & Hnet & _); [by vm_compute|].
  split; [exact Hr | exact Hnet].
Defined.

(** ** The selection and the order of the listing *)

Lemma is_safetensors_available_result (w : world) (repo_id : string)
    (st : state) (files : list RepoEntry) :
  repo_tree w repo_id "model" = inr files →
  (is_safetensors_available w repo_id st).1 =
    Ok (match largest_file_loop total_check_size files with
        | Some b => (true, Some (entry_path b))
        | None => (false, None)
        end).
Proof.
  intros Hls. unfold is_safetensors_available, list_repo_tree, bind, log. simpl.
  rewrite Hls. simpl. by destruct (largest_file_loop total_check_size files).
Qed.

Lemma selected_permutation_size (T : Z) (files files' : list RepoEntry)
    (b b' : RepoEntry) :
  files ≡ₚ files' →
  selected T files (Some b) → selected T files' (Some b') →
  b ∈ files ∧ b' ∈ files ∧
  ∃ s, entry_size b = Some s ∧ entry_size b' = Some s.
Proof.
  intros Hperm (i & sb & Hi & Hb & Hmax) (i' & sb' & Hi' & Hb' & Hmax').
  assert (Hin : b ∈ files) by (apply list_elem_of_lookup; eauto).
  assert (Hin' : b' ∈ files').
  { apply list_elem_of_lookup. eauto. }
  assert (Hb'in : b' ∈ files) by (by rewrite Hperm).
  assert (Hbin' : b ∈ files') by (by rewrite <- Hperm).
  apply list_elem_of_lookup in Hb'in as [j Hj].
  apply list_elem_of_lookup in Hbin' as [j' Hj'].
  destruct (Hmax j b' sb' Hj Hb') as [Hle _].
  destruct (Hmax' j' b sb Hj' Hb) as [Hle' _].
  assert (sb' = sb) as -> by lia.
  split; [done|]. split; [apply list_elem_of_lookup; eauto|].
  exists sb. by destruct Hb as [-> _], Hb' as [-> _].
Qed.

(** X3. The selection depends on the order of the listing through ties
    only.  On two listings of a repository that hold the same entries in
    another order, [is_safetensors_available] answers [(False, None)] on
    both or [(True, path)] on both, and the two entries it selects have the
    same size. *)
Theorem is_safetensors_available_listing_order (w w' : world) (repo_id : string)
    (st st' : state) (files files' : list RepoEntry) :
  repo_tree w repo_id "model" = inr files →
  repo_tree w' repo_id "model" = inr files' →
  files ≡ₚ files' →
  ((is_safetensors_available w repo_id st).1 = Ok (false, None) ↔
   (is_safetensors_available w' repo_id st').1 = Ok (false, None)) ∧
  (∀ p, (is_safetensors_available w repo_id st).1 = Ok (true, Some p) →
     ∃ p' b b' s,
       (is_safetensors_available w' repo_id st').1 = Ok (true, Some p') ∧
       b ∈ files ∧ entry_path b = p ∧ entry_size b = Some s ∧
       b' ∈ files ∧ entry_path b' = p' ∧ entry_size b' = Some s).
Proof.
  intros Hls Hls' Hperm.
  rewrite (is_safetensors_available_result w _ st files Hls).
  rewrite (is_safetensors_available_result w' _ st' files' Hls').
  pose proof (largest_file_loop_selected total_check_size files) as Hsel.
  pose proof (largest_file_loop_selected total_check_size files') as Hsel'.
  destruct (largest_file_loop total_check_size files) as [b|] eqn:Hb;
    destruct (largest_file_loop total_check_size files') as [b'|] eqn:Hb'.
  - split; [done|]. intros p [= <-].
    destruct (selected_permutation_size _ _ _ _ _ Hperm Hsel Hsel')
      as (Hin & Hin' & s & Hs & Hs').
    by exists (entry_path b'), b, b', s.
  - destruct Hsel as (i & sb & Hi & Hq & _).
    destruct (Hsel' b sb); [|done].
    rewrite <- Hperm. apply list_elem_of_lookup. eauto.
  - destruct Hsel' as (i & sb & Hi & Hq & _).
    destruct (Hsel b' sb); [|done].
    rewrite Hperm. apply list_elem_of_lookup. eauto.
  - split; [done|]. by intros p.
Qed.

Lemma is_safetensors_available_listing_order_witness :
  repo_tree Demo.world0 "org/flux" "model" = inr Demo.flux_listing ∧
  repo_tree Scenario.world_reversed "org/flux" "model" =
    inr (reverse Demo.flux_listing) ∧
  (is_safetensors_available Demo.world0 "org/flux" Demo.st0).1 =
    Ok (true, Some "flux1-b.safetensors") ∧
  ∃ p' b b' s,
    (is_safetensors_available Scenario.world_reversed "org/flux" Demo.st0).1 =
      Ok (true, Some p') ∧
    b ∈ Demo.flux_listing ∧ entry_path b = "flux1-b.safetensors" ∧
    entry_size b = Some s ∧
    b' ∈ Demo.flux_listing ∧ entry_path b' = p' ∧ entry_size b' = Some s.
Proof.
  split; [reflexivity|]. split; [reflexivity|]. split; [by vm_compute|].
  destruct (is_safetensors_available_listing_order Demo.world0
              Scenario.world_reversed "org/flux" Demo.st0 Demo.st0
              Demo.flux_listing (reverse Demo.flux_listing))
    as [_ Hsome]; [reflexivity | reflexivity | by rewrite reverse_Permutation |].
  apply Hsome. by vm_compute.
Defined.

(** ** One destination per repository *)

Lemma download_from_huggingface_ok_state (w : world)
    (repo_id filename local_dir p : string) (st : state) :
  (download_from_huggingface w repo_id filename local_dir st).1 = Ok p →
  p = single_file_path w repo_id local_dir ∧
  fs (download_from_huggingface w repo_id filename local_dir st).2
    !! expanduser w local_dir = Some Dir ∧
  path_exists (fs (download_from_huggingface w repo_id filename local_dir st).2)
    (single_file_path w repo_id local_dir) = true.
Proof.
  rewrite download_from_huggingface_unfold. cbv zeta.
  pose proof (makedirs_ok (expanduser w local_dir) st) as Hdir.
  destruct (makedirs (expanduser w local_dir) st) as [[[]|e] st1]; [|done].
  simpl in Hdir. specialize (Hdir eq_refl).
  destruct (path_exists (fs st1) (single_file_path w repo_id local_dir)) eqn:Hex.
  - simpl. by intros [= <-].
  - destruct (hub_file w repo_id filename) as [e|data]; [done|]. simpl.
    intros [= <-]. split; [done|]. split.
    + rewrite lookup_insert_ne; [done|]. intros Heq.
      pose proof (final_path_longer (expanduser w local_dir) repo_id) as Hl.
      unfold single_file_path in Heq. rewrite Heq in Hl. lia.
    + unfold path_exists. by rewrite lookup_insert_eq.
Qed.

(** X4. The destination of the single-file fetch is made from the repository
    id and the directory, not from the file name: after a fetch of one file
    has returned, the fetch of any other file of the same repository into
    the same directory downloads nothing and returns the path of the first,
    whose content stays. *)
Theorem download_from_huggingface_other_file (w : world)
    (repo_id filename other local_dir p : string) (st : state) :
  let st1 := (download_from_huggingface w repo_id filename local_dir st).2 in
  (download_from_huggingface w repo_id filename local_dir st).1 = Ok p →
  (download_from_huggingface w repo_id other local_dir st1).1 = Ok p ∧
  net (download_from_huggingface w repo_id other local_dir st1).2 = net st1 ∧
  fs (download_from_huggingface w repo_id other local_dir st1).2 = fs st1.
Proof.
  cbv zeta. intros (-> & Hdir & Hex)%download_from_huggingface_ok_state.
  by destruct (download_from_huggingface_present w repo_id other local_dir _ Hdir Hex)
    as [line ->].
Qed.

Lemma download_from_huggingface_other_file_witness :
  let first := download_from_huggingface Demo.world0 "org/flux"
                 "flux1-a.safetensors" "/cache/models/flux" Demo.st0 in
  let second := download_from_huggingface Demo.world0 "org/flux"
                  "flux1-b.safetensors" "/cache/models/flux" first.2 in
  first.1 = Ok "/cache/models/flux/org_flux.safetensors" ∧
  second.1 = Ok "/cache/models/flux/org_flux.safetensors" ∧
  net second.2 = [HfHubDownload "org/flux" "flux1-a.safetensors"] ∧
  fs second.2 !! "/cache/models/flux/org_flux.safetensors" = Some (File Demo.weights).
Proof.
  cbv zeta. split; [by vm_compute|].
  destruct (download_from_huggingface_other_file Demo.world0 "org/flux"
              "flux1-a.safetensors" "flux1-b.safetensors" "/cache/models/flux"
              "/cache/models/flux/org_flux.safetensors" Demo.st0)
    as (Hr & Hnet & Hfs); [by vm_compute|].
  split; [exact Hr|]. split; [by rewrite Hnet | by rewrite Hfs].
Defined.

(** ** Failures of the generic base-model fetch *)

(** X5. A failed single-file download leaves the cache directory behind.
    When the directory is absent, an entry is selected and the hub download
    fails, the fetch raises the hub's error after it has created the
    directory; the next run finds the directory, takes the model for cached
    and returns the directory path without any outside call, although no
    weights file is in it. *)
Theorem download_base_model_failed_download_is_cached (w : world)
    (repo_id save_root : string) (st : state) (files : list RepoEntry)
    (b : RepoEntry) (e : ext_error) :
  let save_path := model_cache_path repo_id save_root in
  let fetch := download_base_model w repo_id save_root in
  path_exists (fs st) save_path = false →
  repo_tree w repo_id "model" = inr files →
  largest_file_loop total_check_size files = Some b →
  expanduser w save_path = save_path →
  (makedirs save_path st).1 = Ok tt →
  path_exists (fs st) (single_file_path w repo_id save_path) = false →
  hub_file w repo_id (entry_path b) = inl e →
  (fetch st).1 = Raise (External e) ∧
  path_exists (fs (fetch st).2) (single_file_path w repo_id save_path) = false ∧
  (fetch (fetch st).2).1 = Ok save_path ∧
  net (fetch (fetch st).2).2 = net (fetch st).2.
Proof.
  cbv zeta. intros Hex Hls Hb Hhome Hmk Habs Hhub.
  rewrite (download_base_model_miss_unfold w _ _ _ files Hex Hls). cbv zeta.
  rewrite Hb, download_from_huggingface_unfold. cbv zeta. rewrite Hhome.
  set (st1 := State (fs st) (net st ++ [ListRepoTree repo_id "model"]) (stdout st)).
  rewrite (makedirs_fs_only _ st st1) by done.
  pose proof (makedirs_ok _ st Hmk) as Hdir.
  pose proof (makedirs_longer (model_cache_path repo_id save_root) st
                (single_file_path w repo_id (model_cache_path repo_id save_root))) as Hsame.
  rewrite Hmk. cbn [fs net stdout].
  unfold single_file_path, path_exists in *. rewrite Hhome in *.
  rewrite <- Hsame in Habs by apply final_path_longer.
  destruct (fs (makedirs (model_cache_path repo_id save_root) st).2 !! Py.join _ _)
    as [x|] eqn:Hfile; [done|].
  rewrite Hhub. cbn [fst snd fs]. rewrite Hfile.
  split; [done|]. split; [done|].
  edestruct (download_base_model_hit w repo_id save_root) as [line ->]; [|done].
  unfold path_exists. cbn [fs]. by rewrite Hdir.
Qed.

Lemma download_base_model_failed_download_is_cached_witness :
  let w := World (urlparse_path Demo.world0) (user_home Demo.world0)
             (http_get Demo.world0) (repo_tree Demo.world0)
             (fun _ _ => inl "ConnectionError") (snapshot Demo.world0)
             (clip_files Demo.world0) in
  let fetch := download_base_model w "org/model" "/cache/models" in
  path_exists (fs Demo.st0) "/cache/models/org--model" = false ∧
  (makedirs "/cache/models/org--model" Demo.st0).1 = Ok tt ∧
  (fetch Demo.st0).1 = Raise (External "ConnectionError") ∧
  (fetch (fetch Demo.st0).2).1 = Ok "/cache/models/org--model" ∧
  net (fetch (fetch Demo.st0).2).2 = net (fetch Demo.st0).2.
Proof.
  cbv zeta. split; [by vm_compute|]. split; [by vm_compute|].
  destruct (download_base_model_failed_download_is_cached
              (World (urlparse_path Demo.world0) (user_home Demo.world0)
                 (http_get Demo.world0) (repo_tree Demo.world0)
                 (fun _ _ => inl "ConnectionError") (snapshot Demo.world0)
                 (clip_files Demo.world0))
              "org/model" "/cache/models" Demo.st0 Demo.model_listing
              (RepoFile "model.safetensors" (Some (12 * Demo.GiB)))
              "ConnectionError")
    as (Hfirst & _ & Hsecond & Hnet);
    [by vm_compute | reflexivity | by vm_compute | reflexivity | by vm_compute
    | by vm_compute | reflexivity |].
  split; [exact Hfirst|]. split; [exact Hsecond | exact Hnet].
Defined.

(** X6. No fallback after a failed listing.  With the cache directory
    absent, an error of the repository listing is the error of the fetch:
    no snapshot is tried in its place, and the file system stays as it
    was. *)
Theorem download_base_model_listing_error (w : world)
    (repo_id save_root : string) (st : state) (e : ext_error) :
  path_exists (fs st) (model_cache_path repo_id save_root) = false →
  repo_tree w repo_id "model" = inl e →
  download_base_model w repo_id save_root st =
    (Raise (External e),
     State (fs st) (net st ++ [ListRepoTree repo_id "model"]) (stdout st)).
Proof.
  intros Hex Hls. unfold download_base_model, model_cache_path in *.
  unfold is_safetensors_available, list_repo_tree. unfold_monad.
  cbn beta iota zeta. by rewrite Hex, Hls.
Qed.

Lemma download_base_model_listing_error_witness :
  path_exists (fs Demo.st0) (model_cache_path "org/unknown" "/cache/models") = false ∧
  repo_tree Demo.world0 "org/unknown" "model" = inl "RepositoryNotFoundError" ∧
  download_base_model Demo.world0 "org/unknown" "/cache/models" Demo.st0 =
    (Raise (External "RepositoryNotFoundError"),
     State (fs Demo.st0) (net Demo.st0 ++ [ListRepoTree "org/unknown" "model"])
           (stdout Demo.st0)).
Proof.
  split; [by vm_compute|]. split; [reflexivity|].
  apply (download_base_model_listing_error Demo.world0 "org/unknown"
           "/cache/models" Demo.st0 "RepositoryNotFoundError");
    [by vm_compute | reflexivity].
Defined.

(** ** The dataset of an image task *)

Lemma truthy_zip_path (dataset_dir task_id : string) :
  Py.truthy (dataset_dir +:+ "/" +:+ task_id +:+ ".zip") = true.
Proof. apply truthy_length. rewrite !str_length_app. simpl. lia. Qed.

Lemma download_image_dataset_unfold (w : world)
    (dataset_zip_url task_id dataset_dir : string) (st : state) :
  fs st !! dataset_dir = Some Dir →
  download_image_dataset w dataset_zip_url task_id dataset_dir st =
  let local_zip_path := dataset_dir +:+ "/" +:+ task_id +:+ ".zip" in
  let line := "Downloading dataset from: " +:+ dataset_zip_url in
  match download_s3_file w dataset_zip_url (Some local_zip_path) "/tmp"
          (State (fs st) (net st) (stdout st ++ [line])) with
  | (Ok local_path, st1) =>
      (Ok local_path,
       State (fs st1) (net st1)
             (stdout st1 ++ ["Downloaded dataset to: " +:+ local_path]))
  | (Raise e, st1) => (Raise e, st1)
  end.
Proof.
  intros Hdir. unfold download_image_dataset. unfold bind at 1.
  rewrite (makedirs_isdir _ _ Hdir). unfold_monad. cbv zeta.
  by destruct (download_s3_file _ _ _ _ _) as [[lp|e] st1].
Qed.

(** X7. The dataset fetch of an image task has no cache check.  In an
    existing dataset directory it makes the GET on every run, whether or not
    the archive is already there; on status 200, where [open] accepts
    [<dataset_dir>/<task_id>.zip] (it is no directory and its directory is
    there, which rules out a task id that leads out of the dataset
    directory), it writes the body over that path and returns it, and on any
    other status it raises the error that carries the status and writes
    nothing. *)
Theorem download_image_dataset_always_downloads (w : world)
    (dataset_zip_url task_id dataset_dir : string) (st : state)
    (status : Z) (body : bytes) :
  let local_zip_path := dataset_dir +:+ "/" +:+ task_id +:+ ".zip" in
  let r := download_image_dataset w dataset_zip_url task_id dataset_dir st in
  fs st !! dataset_dir = Some Dir →
  http_get w dataset_zip_url = inr (status, body) →
  net r.2 = net st ++ [HttpGet dataset_zip_url] ∧
  (status = 200 → open_wb_error (fs st) local_zip_path = None →
   r.1 = Ok local_zip_path ∧ fs r.2 = <[local_zip_path := File body]> (fs st)) ∧
  (status ≠ 200 → r.1 = Raise (FailedToDownload status) ∧ fs r.2 = fs st).
Proof.
  cbv zeta. intros Hdir Hget.
  rewrite download_image_dataset_unfold by done. cbv zeta.
  rewrite download_s3_file_unfold. cbv zeta. rewrite Hget.
  unfold s3_local_file_path. rewrite truthy_zip_path. cbn [fs net stdout].
  destruct (Z.eqb_spec status 200) as [->|Hne].
  - split; [by destruct (open_wb_error _ _) as [e|]|]. split; [|done].
    intros _ Hw. pose proof (open_wb_ok _ _ Hw) as (Ht & Hend & Hnd & _).
    rewrite (path_isdir_lookup _ _ Ht Hend).
    destruct (fs st !! (dataset_dir +:+ "/" +:+ task_id +:+ ".zip")) as [[|d]|];
      [done|..]; by rewrite Hw.
  - simpl. split; [done|]. split; [by intros ->|done].
Qed.

Lemma download_image_dataset_always_downloads_witness :
  let r := download_image_dataset Scenario.world1 Scenario.zip_url "t1"
             "/cache/datasets" Scenario.st_zip in
  fs Scenario.st_zip !! "/cache/datasets" = Some Dir ∧
  fs Scenario.st_zip !! "/cache/datasets/t1.zip" = Some (File Scenario.old_zip) ∧
  http_get Scenario.world1 Scenario.zip_url = inr (200, Scenario.new_zip) ∧
  open_wb_error (fs Scenario.st_zip) "/cache/datasets/t1.zip" = None ∧
  net r.2 = [HttpGet Scenario.zip_url] ∧
  r.1 = Ok "/cache/datasets/t1.zip" ∧
  fs r.2 !! "/cache/datasets/t1.zip" = Some (File Scenario.new_zip).
Proof.
  cbv zeta. split; [by vm_compute|]. split; [by vm_compute|].
  split; [reflexivity|]. split; [by vm_compute|].
  destruct (download_image_dataset_always_downloads Scenario.world1
              Scenario.zip_url "t1" "/cache/datasets" Scenario.st_zip 200
              Scenario.new_zip) as (Hnet & Hok & _);
    [by vm_compute | reflexivity |].
  destruct Hok as [Hr Hfs]; [reflexivity | by vm_compute |].
  split; [exact Hnet|]. split; [exact Hr|]. rewrite Hfs. by vm_compute.
Defined.

(** ** Nothing is deleted *)

Lemma path_exists_insert (m : gmap string node) (p q : string) (x : node) :
  path_exists m p = true → path_exists (<[q := x]> m) p = true.
Proof.
  unfold path_exists. destruct (decide (q = p)) as [->|Hne].
  - by rewrite lookup_insert_eq.
  - by rewrite lookup_insert_ne.
Qed.

Lemma path_exists_place_files (local_dir : string) (files : list (string * bytes))
    (m : gmap string node) (p : string) :
  path_exists m p = true ∨ p = local_dir →
  path_exists (place_files local_dir files m) p = true.
Proof.
  intros Hp. unfold place_files. induction files as [|f files IH]; simpl.
  - destruct Hp as [Hp| ->]; [by apply path_exists_insert|].
    unfold path_exists. by rewrite lookup_insert_eq.
  - by apply path_exists_insert.
Qed.

Section KeepsPaths.

Lemma keeps_paths_same_fs {A} (m : M A) :
  (∀ st, fs (m st).2 = fs st) → keeps_paths m.
Proof. intros H st p. by rewrite H. Qed.

Lemma keeps_paths_ret {A} (a : A) : keeps_paths (ret a).
Proof. by apply keeps_paths_same_fs. Qed.

Lemma keeps_paths_raise {A} (e : exn) : keeps_paths (@raise A e).
Proof. by apply keeps_paths_same_fs. Qed.

Lemma keeps_paths_print (line : string) : keeps_paths (print line).
Proof. by apply keeps_paths_same_fs. Qed.

Lemma keeps_paths_log (c : call) : keeps_paths (log c).
Proof. by apply keeps_paths_same_fs. Qed.

Lemma keeps_paths_exists (p : string) : keeps_paths (os_path_exists p).
Proof. by apply keeps_paths_same_fs. Qed.

Lemma keeps_paths_isdir (p : string) : keeps_paths (os_path_isdir p).
Proof. by apply keeps_paths_same_fs. Qed.

Lemma keeps_paths_bind {A B} (m : M A) (k : A → M B) :
  keeps_paths m → (∀ a, keeps_paths (k a)) → keeps_paths (bind m k).
Proof.
  intros Hm Hk st p Hp. unfold bind. specialize (Hm st p Hp).
  destruct (m st) as [[a|e] st1]; simpl in *; [by apply Hk | done].
Qed.

Lemma keeps_paths_makedirs (name : string) : keeps_paths (makedirs name).
Proof.
  intros st p [x Hx]%path_exists_true. apply path_exists_true.
  exists x. by apply makedirs_keeps.
Qed.

Lemma keeps_paths_open_wb_write (p : string) (data : bytes) :
  keeps_paths (open_wb_write p data).
Proof.
  intros st q Hq. unfold open_wb_write.
  destruct (open_wb_error (fs st) p) as [e|]; simpl;
    [done|by apply path_exists_insert].
Qed.

Lemma keeps_paths_shutil_copy (src dst : string) : keeps_paths (shutil_copy src dst).
Proof.
  intros st q Hq. unfold shutil_copy.
  destruct (fs st !! src) as [[|data]|]; [done| |done].
  case_bool_decide; [done|].
  by apply (keeps_paths_bind _ _ (keeps_paths_open_wb_write _ _)
              (λ _, keeps_paths_ret _)).
Qed.

Lemma keeps_paths_shutil_move_tmp (data : bytes) (final_path : string) :
  keeps_paths (shutil_move_tmp data final_path).
Proof. intros st q Hq. by apply path_exists_insert. Qed.

Variable w : world.

Lemma keeps_paths_session_get (url : string) : keeps_paths (session_get w url).
Proof.
  apply keeps_paths_bind; [apply keeps_paths_log|]. intros _.
  destruct (http_get w url); [apply keeps_paths_raise | apply keeps_paths_ret].
Qed.

Lemma keeps_paths_list_repo_tree (repo_id repo_type : string) :
  keeps_paths (list_repo_tree w repo_id repo_type).
Proof.
  apply keeps_paths_bind; [apply keeps_paths_log|]. intros _.
  destruct (repo_tree w repo_id repo_type);
    [apply keeps_paths_raise | apply keeps_paths_ret].
Qed.

Lemma keeps_paths_hf_hub_download_tmp (repo_id filename : string) :
  keeps_paths (hf_hub_download_tmp w repo_id filename).
Proof.
  apply keeps_paths_bind; [apply keeps_paths_log|]. intros _.
  destruct (hub_file w repo_id filename);
    [apply keeps_paths_raise | apply keeps_paths_ret].
Qed.

Lemma keeps_paths_snapshot_download (repo_id repo_type local_dir : string)
    (allow_patterns : option (list string)) :
  keeps_paths (snapshot_download w repo_id repo_type local_dir allow_patterns).
Proof.
  apply keeps_paths_bind; [apply keeps_paths_log|]. intros _.
  destruct (snapshot w repo_id repo_type allow_patterns);
    [apply keeps_paths_raise|].
  intros st q Hq. apply path_exists_place_files. by left.
Qed.

Lemma keeps_paths_CLIPTokenizer (name cache_dir : string) :
  keeps_paths (CLIPTokenizer_from_pretrained w name cache_dir).
Proof.
  apply keeps_paths_bind; [apply keeps_paths_log|]. intros _.
  destruct (clip_files w name); [apply keeps_paths_raise|].
  intros st q Hq. apply path_exists_place_files. by left.
Qed.

Lemma keeps_paths_download_s3_file (file_url : string) (save_path : option string)
    (tmp_dir : string) :
  keeps_paths (download_s3_file w file_url save_path tmp_dir).
Proof.
  unfold download_s3_file. apply keeps_paths_bind.
  - destruct save_path as [sp|]; [|apply keeps_paths_ret].
    destruct (Py.truthy sp); [|apply keeps_paths_ret].
    apply keeps_paths_bind; [apply keeps_paths_isdir|]. intros. apply keeps_paths_ret.
  - intros lp. apply keeps_paths_bind; [apply keeps_paths_session_get|].
    intros response. apply keeps_paths_bind; [|intros; apply keeps_paths_ret].
    destruct (response.1 =? 200);
      [apply keeps_paths_open_wb_write | apply keeps_paths_raise].
Qed.

Lemma keeps_paths_download_text_dataset (task_id dataset_url : string)
    (file_format : option string) (dataset_dir : string) :
  keeps_paths (download_text_dataset w task_id dataset_url file_format dataset_dir).
Proof.
  unfold download_text_dataset.
  apply keeps_paths_bind; [apply keeps_paths_makedirs|]. intros _.
  apply keeps_paths_bind.
  - repeat case_bool_decide.
    + apply keeps_paths_bind; [apply keeps_paths_exists|]. intros e.
      apply keeps_paths_bind; [|intros; apply keeps_paths_ret].
      destruct e; simpl; [apply keeps_paths_ret|].
      apply keeps_paths_bind; [apply keeps_paths_download_s3_file|]. intros lp.
      apply keeps_paths_bind; [apply keeps_paths_shutil_copy|]. intros.
      apply keeps_paths_ret.
    + apply keeps_paths_bind; [apply keeps_paths_exists|]. intros e.
      apply keeps_paths_bind; [|intros; apply keeps_paths_ret].
      destruct e; simpl; [apply keeps_paths_ret|].
      apply keeps_paths_snapshot_download.
    + apply keeps_paths_ret.
  - intros [p|]; [apply keeps_paths_ret | apply keeps_paths_raise].
Qed.

Lemma keeps_paths_download_image_dataset (dataset_zip_url task_id dataset_dir : string) :
  keeps_paths (download_image_dataset w dataset_zip_url task_id dataset_dir).
Proof.
  unfold download_image_dataset.
  apply keeps_paths_bind; [apply keeps_paths_makedirs|]. intros _.
  apply keeps_paths_bind; [apply keeps_paths_print|]. intros _.
  apply keeps_paths_bind; [apply keeps_paths_download_s3_file|]. intros lp.
  apply keeps_paths_bind; [apply keeps_paths_print|]. intros _.
  apply keeps_paths_ret.
Qed.

Lemma keeps_paths_download_from_huggingface (repo_id filename local_dir : string) :
  keeps_paths (download_from_huggingface w repo_id filename local_dir).
Proof.
  unfold download_from_huggingface. cbv zeta.
  apply keeps_paths_bind; [apply keeps_paths_makedirs|]. intros _.
  apply keeps_paths_bind; [apply keeps_paths_exists|]. intros e.
  apply keeps_paths_bind; [|intros; apply keeps_paths_ret].
  destruct e; [apply keeps_paths_print|].
  apply keeps_paths_bind; [apply keeps_paths_hf_hub_download_tmp|]. intros data.
  apply keeps_paths_bind; [apply keeps_paths_shutil_move_tmp|]. intros _.
  apply keeps_paths_print.
Qed.

Lemma keeps_paths_flux_loop (repo_id output_dir : string) (files : list RepoEntry) :
  ∀ file_path local_path,
    keeps_paths (flux_loop w repo_id output_dir files file_path local_path).
Proof.
  induction files as [|file rest IH]; intros file_path local_path; simpl.
  - apply keeps_paths_ret.
  - destruct (entry_size file) as [size|]; [|apply IH].
    destruct (_ && _); [|apply IH].
    apply keeps_paths_bind; [apply keeps_paths_download_from_huggingface|].
    intros lp. apply IH.
Qed.

Lemma keeps_paths_download_flux_unet (repo_id output_dir : string) :
  keeps_paths (download_flux_unet w repo_id output_dir).
Proof.
  unfold download_flux_unet.
  apply keeps_paths_bind; [apply keeps_paths_list_repo_tree|]. intros files.
  apply keeps_paths_bind; [apply keeps_paths_flux_loop|]. intros [[p|] [l|]]; simpl;
    try apply keeps_paths_raise;
    destruct (Py.truthy p); first [apply keeps_paths_ret | apply keeps_paths_raise].
Qed.

Lemma keeps_paths_download_base_model (repo_id save_root : string) :
  keeps_paths (download_base_model w repo_id save_root).
Proof.
  assert (Hsnap : ∀ p, keeps_paths
            (_ <- snapshot_download w repo_id "model" p None ;; ret p)).
  { intros p. apply keeps_paths_bind; [apply keeps_paths_snapshot_download|].
    intros. apply keeps_paths_ret. }
  unfold download_base_model. cbv zeta.
  apply keeps_paths_bind; [apply keeps_paths_exists|]. intros [|].
  - apply keeps_paths_bind; [apply keeps_paths_print|]. intros. apply keeps_paths_ret.
  - apply keeps_paths_bind.
    + unfold is_safetensors_available.
      apply keeps_paths_bind; [apply keeps_paths_list_repo_tree|]. intros files.
      destruct (largest_file_loop _ _); apply keeps_paths_ret.
    + intros [[|] [p|]]; try apply Hsnap.
      destruct (Py.truthy p); [|apply Hsnap].
      apply keeps_paths_download_from_huggingface.
Qed.

Lemma keeps_paths_download_axolotl_base_model (repo_id save_dir : string) :
  keeps_paths (download_axolotl_base_model w repo_id save_dir).
Proof.
  unfold download_axolotl_base_model. cbv zeta.
  apply keeps_paths_bind; [apply keeps_paths_exists|]. intros [|].
  - apply keeps_paths_bind; [apply keeps_paths_print|]. intros. apply keeps_paths_ret.
  - apply keeps_paths_bind; [apply keeps_paths_snapshot_download|]. intros.
    apply keeps_paths_ret.
Qed.

Lemma keeps_paths_main (args : Args) : keeps_paths (main w args).
Proof.
  unfold main. destruct (negb _); [apply keeps_paths_raise|]. cbv zeta.
  apply keeps_paths_bind; [apply keeps_paths_makedirs|]. intros _.
  apply keeps_paths_bind; [apply keeps_paths_makedirs|]. intros _.
  apply keeps_paths_bind; [apply keeps_paths_print|]. intros _.
  apply keeps_paths_bind; [apply keeps_paths_print|]. intros _.
  apply keeps_paths_bind.
  - case_bool_decide.
    + apply keeps_paths_bind; [apply keeps_paths_download_image_dataset|]. intros _.
      apply keeps_paths_bind; [apply keeps_paths_download_base_model|]. intros mp.
      apply keeps_paths_bind; [apply keeps_paths_print|]. intros _.
      apply keeps_paths_bind; [apply keeps_paths_CLIPTokenizer|]. intros _.
      apply keeps_paths_bind; [apply keeps_paths_CLIPTokenizer|]. intros _.
      apply keeps_paths_bind; [apply keeps_paths_snapshot_download|]. intros _.
      apply keeps_paths_ret.
    + apply keeps_paths_bind; [apply keeps_paths_download_text_dataset|]. intros _.
      apply keeps_paths_download_axolotl_base_model.
  - intros mp. apply keeps_paths_bind; [apply keeps_paths_print|]. intros _.
    apply keeps_paths_print.
Qed.

End KeepsPaths.

(** X8. No function of the program removes a path: whatever the world
    answers and however a run ends, by a return or by an exception, every
    path that existed before a run of [main], of a dataset fetch or of a
    model fetch exists after it.  (The temporary directory of the single-file
    fetch is not part of this file system.) *)
Theorem nothing_is_deleted (w : world) :
  (∀ args, keeps_paths (main w args)) ∧
  (∀ task_id dataset_url file_format dataset_dir,
     keeps_paths (download_text_dataset w task_id dataset_url file_format dataset_dir)) ∧
  (∀ dataset_zip_url task_id dataset_dir,
     keeps_paths (download_image_dataset w dataset_zip_url task_id dataset_dir)) ∧
  (∀ repo_id save_root, keeps_paths (download_base_model w repo_id save_root)) ∧
  (∀ repo_id save_dir, keeps_paths (download_axolotl_base_model w repo_id save_dir)) ∧
  (∀ repo_id output_dir, keeps_paths (download_flux_unet w repo_id output_dir)).
Proof.
  repeat split; intros.
  - apply keeps_paths_main.
  - apply keeps_paths_download_text_dataset.
  - apply keeps_paths_download_image_dataset.
  - apply keeps_paths_download_base_model.
  - apply keeps_paths_download_axolotl_base_model.
  - apply keeps_paths_download_flux_unet.
Qed.

Lemma nothing_is_deleted_witness :
  path_exists (fs Scenario.st_zip) "/cache/datasets/t1.zip" = true ∧
  path_exists (fs (main Scenario.world1 Scenario.image_args Scenario.st_zip).2)
    "/cache/datasets/t1.zip" = true.
Proof.
  split; [by vm_compute|].
  destruct (nothing_is_deleted Scenario.world1) as [Hmain _].
  apply (Hmain Scenario.image_args Scenario.st_zip). by vm_compute.
Defined.

(** ** Datasets: misses, failures and reruns *)

(** On a cache hit the dataset fetch makes no outside call, whatever the
    state of the dataset directory. *)
Lemma download_text_dataset_hit_silent (w : world) (task_id dataset_url : string)
    (f : FileFormat) (dataset_dir p : string) (st : state) :
  dataset_cache_path task_id dataset_url f dataset_dir = Some p →
  path_exists (fs st) p = true →
  net (download_text_dataset w task_id dataset_url (Some (FileFormat_value f))
         dataset_dir st).2 = net st.
Proof.
  intros Hp Hex. unfold download_text_dataset. unfold bind at 1.
  pose proof (keeps_paths_makedirs dataset_dir st p Hex) as Hex1.
  pose proof (makedirs_frame dataset_dir st) as [Hnet _].
  destruct (makedirs dataset_dir st) as [[[]|e] st1]; [|done]. simpl in *.
  destruct f; simplify_eq/=; repeat case_bool_decide; simplify_eq;
    unfold_monad; by rewrite Hex1.
Qed.

(** X9. A Hugging Face dataset request without a cache entry: the one
    outside call is the snapshot of the repository, as a dataset and with no
    [allow_patterns], into [<dataset_dir>/<repo id with "/" as "--">]; when
    the snapshot succeeds that path is returned with the format tag, and a
    run on the state it left makes no outside call. *)
Theorem download_text_dataset_hf (w : world)
    (task_id dataset_url dataset_dir : string) (st : state)
    (content : list (string * bytes)) :
  let input_data_path := Py.join dataset_dir (Py.replace "/" "--" dataset_url) in
  let fetch := download_text_dataset w task_id dataset_url
                 (Some (FileFormat_value HF)) dataset_dir in
  fs st !! dataset_dir = Some Dir →
  path_exists (fs st) input_data_path = false →
  snapshot w dataset_url "dataset" None = inr content →
  (fetch st).1 = Ok (input_data_path, Some (FileFormat_value HF)) ∧
  net (fetch st).2 =
    net st ++ [SnapshotDownload dataset_url "dataset" input_data_path None] ∧
  fs (fetch st).2 = place_files input_data_path content (fs st) ∧
  net (fetch (fetch st).2).2 = net (fetch st).2.
Proof.
  cbv zeta. intros Hdir Habs Hsnap.
  set (p := Py.join dataset_dir (Py.replace "/" "--" dataset_url)) in *.
  assert (Hrun : download_text_dataset w task_id dataset_url
                   (Some (FileFormat_value HF)) dataset_dir st =
                 (Ok (p, Some (FileFormat_value HF)),
                  State (place_files p content (fs st))
                        (net st ++ [SnapshotDownload dataset_url "dataset" p None])
                        (stdout st))).
  { unfold download_text_dataset. unfold bind at 1.
    rewrite (makedirs_isdir _ _ Hdir).
    rewrite bool_decide_eq_false_2 by done.
    rewrite bool_decide_eq_true_2 by done.
    unfold snapshot_download. unfold_monad. fold p. rewrite Habs. simpl.
    by rewrite Hsnap. }
  rewrite Hrun. cbn [fst snd fs net]. split; [done|]. split; [done|]. split; [done|].
  apply (download_text_dataset_hit_silent w task_id dataset_url HF dataset_dir p);
    [done|]. cbn [fs]. apply path_exists_place_files. by right.
Qed.

Lemma download_text_dataset_hf_witness :
  let fetch := download_text_dataset Demo.world0 "t1" "org/data" (Some "hf")
                 "/cache/datasets" in
  fs Demo.st0 !! "/cache/datasets" = Some Dir ∧
  path_exists (fs Demo.st0) "/cache/datasets/org--data" = false ∧
  snapshot Demo.world0 "org/data" "dataset" None =
    inr [("config.json", Demo.data_json)] ∧
  (fetch Demo.st0).1 = Ok ("/cache/datasets/org--data", Some "hf") ∧
  net (fetch Demo.st0).2 =
    [SnapshotDownload "org/data" "dataset" "/cache/datasets/org--data" None] ∧
  net (fetch (fetch Demo.st0).2).2 = net (fetch Demo.st0).2.
Proof.
  cbv zeta. split; [by vm_compute|]. split; [by vm_compute|]. split; [reflexivity|].
  destruct (download_text_dataset_hf Demo.world0 "t1" "org/data" "/cache/datasets"
              Demo.st0 [("config.json", Demo.data_json)])
    as (Hr & Hnet & _ & Hagain); [by vm_compute | by vm_compute | reflexivity |].
  split; [exact Hr|]. split; [exact Hnet | exact Hagain].
Defined.

(** X10. A failed S3 download leaves no cache entry.  When the response
    status is not 200 the dataset fetch raises the error that carries the
    status after its one GET and changes nothing on disk: the cache path is
    still absent, so a later run downloads again. *)
Theorem download_text_dataset_s3_failure (w : world)
    (task_id dataset_url dataset_dir : string) (st : state)
    (status : Z) (body : bytes) :
  let input_data_path := Py.join dataset_dir (task_id +:+ "_train_data.json") in
  let fetch := download_text_dataset w task_id dataset_url
                 (Some (FileFormat_value S3)) dataset_dir in
  fs st !! dataset_dir = Some Dir →
  path_exists (fs st) input_data_path = false →
  http_get w dataset_url = inr (status, body) →
  status ≠ 200 →
  fetch st = (Raise (FailedToDownload status),
              State (fs st) (net st ++ [HttpGet dataset_url]) (stdout st)) ∧
  path_exists (fs (fetch st).2) input_data_path = false ∧
  net (fetch (fetch st).2).2 = net st ++ [HttpGet dataset_url; HttpGet dataset_url].
Proof.
  cbv zeta. intros Hdir Habs Hget Hne.
  assert (Hrun : ∀ st', fs st' = fs st →
            download_text_dataset w task_id dataset_url
              (Some (FileFormat_value S3)) dataset_dir st' =
            (Raise (FailedToDownload status),
             State (fs st') (net st' ++ [HttpGet dataset_url]) (stdout st'))).
  { intros st' Hfs. unfold download_text_dataset. unfold bind at 1.
    rewrite makedirs_isdir by (by rewrite Hfs).
    rewrite bool_decide_eq_true_2 by done.
    unfold bind at 1. unfold bind at 1. unfold os_path_exists.
    rewrite Hfs, Habs. cbn [negb].
    unfold bind at 1. unfold bind at 1.
    rewrite download_s3_file_unfold. cbv zeta. rewrite Hget.
    apply Z.eqb_neq in Hne. rewrite Hne. simpl. by rewrite Hfs. }
  rewrite (Hrun st) by done. split; [done|]. split; [done|].
  cbn [snd]. rewrite Hrun by done. cbn [snd net]. by rewrite <- app_assoc.
Qed.

Lemma download_text_dataset_s3_failure_witness :
  let fetch := download_text_dataset Demo.world0 "t1" "https://ex.com/gone.json"
                 (Some "s3") "/cache/datasets" in
  fs Demo.st0 !! "/cache/datasets" = Some Dir ∧
  path_exists (fs Demo.st0) "/cache/datasets/t1_train_data.json" = false ∧
  http_get Demo.world0 "https://ex.com/gone.json" = inr (404, []) ∧
  404 ≠ 200 ∧
  fetch Demo.st0 =
    (Raise (FailedToDownload 404),
     State (fs Demo.st0) [HttpGet "https://ex.com/gone.json"] []).
Proof.
  cbv zeta. split; [by vm_compute|]. split; [by vm_compute|]. split; [reflexivity|].
  split; [done|].
  destruct (download_text_dataset_s3_failure Demo.world0 "t1"
              "https://ex.com/gone.json" "/cache/datasets" Demo.st0 404 [])
    as (Hr & _); [by vm_compute | by vm_compute | reflexivity | done |].
  exact Hr.
Defined.

(** ** The large single-file variant on a warm cache *)

Lemma flux_loop_present_first (w : world) (repo_id output_dir : string)
    (files : list RepoEntry) :
  ∀ st,
    (∃ e s, e ∈ files ∧ qualifies flux_check_size e s) →
    fs st !! expanduser w output_dir = Some Dir →
    path_exists (fs st) (single_file_path w repo_id output_dir) = true →
    ∃ p lines,
      Py.truthy p = true ∧
      flux_loop w repo_id output_dir files None None st =
      (Ok (Some p, Some (single_file_path w repo_id output_dir)),
       State (fs st) (net st) (stdout st ++ lines)).
Proof.
  induction files as [|file rest IH]; intros st (e & s & He & Hq) Hdir Hex.
  { by apply not_elem_of_nil in He. }
  assert (Hskip : (∀ s', ¬ qualifies flux_check_size file s') →
            ∃ p lines, Py.truthy p = true ∧
              flux_loop w repo_id output_dir (file :: rest) None None st =
              (Ok (Some p, Some (single_file_path w repo_id output_dir)),
               State (fs st) (net st) (stdout st ++ lines))).
  { intros Hno. rewrite flux_loop_skip by done. apply IH; [|done..].
    apply elem_of_cons in He as [->|He]; [by destruct (Hno s)|]. eauto. }
  destruct (entry_size file) as [size|] eqn:Hsize; cycle 1.
  { apply Hskip. intros s' (? & _). congruence. }
  destruct (Py.endswith (entry_path file) ".safetensors" && (flux_check_size <? size))
    eqn:Hguard; cycle 1.
  { apply Hskip. intros s' [Hs Hg]%qualifies_guard. congruence. }
  clear Hskip.
  assert (Hqf : qualifies flux_check_size file size) by (by apply qualifies_guard).
  rewrite (flux_loop_take _ _ _ _ size) by done. unfold bind.
  destruct (download_from_huggingface_present w repo_id (entry_path file)
              output_dir st Hdir Hex) as [line ->].
  destruct (flux_loop_present w repo_id output_dir rest (entry_path file)
              (State (fs st) (net st) (stdout st ++ [line])))
    as (p' & lines & Hp' & ->); [|done|done|].
  { destruct Hqf as (_ & Hsuf & _). by apply (endswith_truthy _ ".safetensors"). }
  exists p', (line :: lines). split; [done|]. simpl. by rewrite <- app_assoc.
Qed.

(** X11. The large single-file variant has no cache check of its own: it
    lists the repository on every run.  When the destination file is there
    and an entry of the listing qualifies, the listing is its only outside
    call: it downloads nothing, changes nothing on disk and returns the
    destination path. *)
Theorem download_flux_unet_cached (w : world) (repo_id output_dir : string)
    (st : state) (files : list RepoEntry) :
  let final_path := single_file_path w repo_id output_dir in
  let r := download_flux_unet w repo_id output_dir st in
  repo_tree w repo_id "model" = inr files →
  (∃ e s, e ∈ files ∧ qualifies flux_check_size e s) →
  fs st !! expanduser w output_dir = Some Dir →
  path_exists (fs st) final_path = true →
  r.1 = Ok final_path ∧
  net r.2 = net st ++ [ListRepoTree repo_id "model"] ∧
  fs r.2 = fs st.
Proof.
  cbv zeta. intros Hls Hsome Hdir Hex.
  rewrite (download_flux_unet_unfold w _ _ _ files Hls).
  edestruct (flux_loop_present_first w repo_id output_dir files
               (State (fs st) (net st ++ [ListRepoTree repo_id "model"]) (stdout st)))
    as (p & lines & Hp & ->); [done..|].
  by rewrite Hp.
Qed.

Lemma download_flux_unet_cached_witness :
  let first := download_flux_unet Demo.world0 "org/flux" "/cache/models/flux" Demo.st0 in
  let r := download_flux_unet Demo.world0 "org/flux" "/cache/models/flux" first.2 in
  repo_tree Demo.world0 "org/flux" "model" = inr Demo.flux_listing ∧
  fs first.2 !! "/cache/models/flux" = Some Dir ∧
  path_exists (fs first.2) "/cache/models/flux/org_flux.safetensors" = true ∧
  r.1 = Ok "/cache/models/flux/org_flux.safetensors" ∧
  net r.2 = net first.2 ++ [ListRepoTree "org/flux" "model"] ∧
  fs r.2 = fs first.2.
Proof.
  cbv zeta. split; [reflexivity|]. split; [by vm_compute|]. split; [by vm_compute|].
  apply (download_flux_unet_cached Demo.world0 "org/flux" "/cache/models/flux"
           (download_flux_unet Demo.world0 "org/flux" "/cache/models/flux" Demo.st0).2
           Demo.flux_listing); [reflexivity | | by vm_compute | by vm_compute].
  exists (RepoFile "flux1-a.safetensors" (Some (11 * Demo.GiB))), (11 * Demo.GiB).
  split; [|by vm_compute]. unfold Demo.flux_listing. set_solver.
Defined.

(** ** The orchestrator: what a run does and in which order *)

Lemma main_text_unfold (w : world) (args : Args) :
  arg_task_type args ∈ task_type_choices →
  arg_task_type args ≠ TaskType_value IMAGETASK →
  main w args =
    (_ <- makedirs "/cache/datasets" ;;
     _ <- makedirs "/cache/models" ;;
     _ <- print "Downloading datasets to: /cache/datasets" ;;
     _ <- print "Downloading models to: /cache/models" ;;
     model_path <-
       (r <- download_text_dataset w (arg_task_id args) (arg_dataset args)
               (arg_file_format args) "/cache/datasets" ;;
        download_axolotl_base_model w (arg_model args) "/cache/models") ;;
     _ <- print ("Model path: " +:+ model_path) ;;
     print "Dataset path: /cache/datasets").
Proof.
  intros Hchoice Htext. unfold main.
  rewrite bool_decide_eq_true_2 by done. cbn [negb].
  by rewrite bool_decide_eq_false_2 by done.
Qed.

Lemma main_image_unfold (w : world) (args : Args) :
  arg_task_type args = TaskType_value IMAGETASK →
  main w args =
    (_ <- makedirs "/cache/datasets" ;;
     _ <- makedirs "/cache/models" ;;
     _ <- print "Downloading datasets to: /cache/datasets" ;;
     _ <- print "Downloading models to: /cache/models" ;;
     model_path <-
       (dataset_zip_path <-
          download_image_dataset w (arg_dataset args) (arg_task_id args)
            "/cache/datasets" ;;
        model_path <- download_base_model w (arg_model args) "/cache/models" ;;
        _ <- print "Downloading clip models" ;;
        _ <- CLIPTokenizer_from_pretrained w
               "openai/clip-vit-large-patch14" "/cache/hf_cache" ;;
        _ <- CLIPTokenizer_from_pretrained w
               "laion/CLIP-ViT-bigG-14-laion2B-39B-b160k" "/cache/hf_cache" ;;
        _ <- snapshot_download w "google/t5-v1_1-xxl" "model"
               "/cache/hf_cache/google--t5-v1_1-xxl" (Some t5_allow_patterns) ;;
        ret model_path) ;;
     _ <- print ("Model path: " +:+ model_path) ;;
     print "Dataset path: /cache/datasets").
Proof.
  intros Himage. unfold main.
  rewrite bool_decide_eq_true_2 by (rewrite Himage; unfold task_type_choices; set_solver).
  cbn [negb]. by rewrite bool_decide_eq_true_2 by done.
Qed.

(** With the two cache roots in place, the start of [main] only prints. *)
Lemma main_prologue {B} (k : M B) (a b : string) (st : state) :
  fs st !! "/cache/datasets" = Some Dir →
  fs st !! "/cache/models" = Some Dir →
  (_ <- makedirs "/cache/datasets" ;;
   _ <- makedirs "/cache/models" ;;
   _ <- print a ;;
   _ <- print b ;;
   k) st =
  k (State (fs st) (net st) ((stdout st ++ [a]) ++ [b])).
Proof.
  intros Hd Hm. unfold bind at 1. rewrite (makedirs_isdir _ _ Hd).
  unfold bind at 1. rewrite (makedirs_isdir _ _ Hm). by unfold_monad.
Qed.

Lemma download_text_dataset_other_format (w : world) (task_id dataset_url : string)
    (file_format : option string) (dataset_dir : string) (st : state) :
  file_format ≠ Some (FileFormat_value S3) →
  file_format ≠ Some (FileFormat_value HF) →
  download_text_dataset w task_id dataset_url file_format dataset_dir st =
  (_ <- makedirs dataset_dir ;; raise (UnboundLocalError "input_data_path")) st.
Proof.
  intros Hs3 Hhf. unfold download_text_dataset, bind.
  destruct (makedirs dataset_dir st) as [[[]|e] st1]; [|done].
  by rewrite !bool_decide_eq_false_2 by done.
Qed.

(** X12. [--file-format] is optional for the parser and needed by every
    text task: when it is left out, or is anything but [s3] and [hf], a run
    of [main] on a text task stops with [UnboundLocalError] in the dataset
    fetch, before any outside call and before the model fetch; with the
    cache roots in place nothing on disk has changed. *)
Theorem main_text_task_needs_file_format (w : world) (args : Args) (st : state) :
  arg_task_type args ∈ task_type_choices →
  arg_task_type args ≠ TaskType_value IMAGETASK →
  arg_file_format args ≠ Some (FileFormat_value S3) →
  arg_file_format args ≠ Some (FileFormat_value HF) →
  fs st !! "/cache/datasets" = Some Dir →
  fs st !! "/cache/models" = Some Dir →
  (main w args st).1 = Raise (UnboundLocalError "input_data_path") ∧
  net (main w args st).2 = net st ∧
  fs (main w args st).2 = fs st.
Proof.
  intros Hchoice Htext Hs3 Hhf Hd Hm.
  assert (Hrun : main w args st =
                 (Raise (UnboundLocalError "input_data_path"),
                  State (fs st) (net st)
                        ((stdout st ++ ["Downloading datasets to: /cache/datasets"])
                         ++ ["Downloading models to: /cache/models"]))).
  { rewrite main_text_unfold by done. rewrite main_prologue by done.
    unfold bind at 1. unfold bind at 1.
    rewrite download_text_dataset_other_format by done.
    unfold bind at 1. by rewrite makedirs_isdir by done. }
  by rewrite Hrun.
Qed.

Lemma main_text_task_needs_file_format_witness :
  arg_task_type Scenario.text_args_no_format ∈ task_type_choices ∧
  arg_file_format Scenario.text_args_no_format = None ∧
  fs Demo.st0 !! "/cache/datasets" = Some Dir ∧
  fs Demo.st0 !! "/cache/models" = Some Dir ∧
  (main Demo.world0 Scenario.text_args_no_format Demo.st0).1 =
    Raise (UnboundLocalError "input_data_path") ∧
  net (main Demo.world0 Scenario.text_args_no_format Demo.st0).2 = [].
Proof.
  assert (Hchoice : arg_task_type Scenario.text_args_no_format ∈ task_type_choices).
  { unfold task_type_choices. simpl. set_solver. }
  split; [exact Hchoice|]. split; [reflexivity|].
  split; [by vm_compute|]. split; [by vm_compute|].
  destruct (main_text_task_needs_file_format Demo.world0
              Scenario.text_args_no_format Demo.st0)
    as (Hr & Hnet & _); [exact Hchoice | done | done | done
                        | by vm_compute | by vm_compute |].
  split; [exact Hr | exact Hnet].
Defined.

(** X13. A failed dataset download ends an image task at once.  With the
    cache roots in place and a response whose status is not 200, [main]
    raises the error that carries the status; the GET is its only outside
    call: the model is not fetched, no tokenizer asset is fetched, and
    nothing on disk has changed. *)
Theorem main_image_task_dataset_failure (w : world) (args : Args) (st : state)
    (status : Z) (body : bytes) :
  arg_task_type args = TaskType_value IMAGETASK →
  fs st !! "/cache/datasets" = Some Dir →
  fs st !! "/cache/models" = Some Dir →
  http_get w (arg_dataset args) = inr (status, body) →
  status ≠ 200 →
  (main w args st).1 = Raise (FailedToDownload status) ∧
  net (main w args st).2 = net st ++ [HttpGet (arg_dataset args)] ∧
  fs (main w args st).2 = fs st.
Proof.
  intros Himage Hd Hm Hget Hne.
  assert (Hrun : ∃ out, main w args st =
                 (Raise (FailedToDownload status),
                  State (fs st) (net st ++ [HttpGet (arg_dataset args)]) out)).
  { rewrite main_image_unfold by done. rewrite main_prologue by done.
    unfold bind at 1. unfold bind at 1.
    rewrite download_image_dataset_unfold by done. cbv zeta.
    rewrite download_s3_file_unfold. cbv zeta. rewrite Hget.
    apply Z.eqb_neq in Hne. rewrite Hne. by eexists. }
  destruct Hrun as [out ->]. done.
Qed.

Lemma main_image_task_dataset_failure_witness :
  let args := Build_Args "t1" "org/model" "ImageTask"
                "https://ex.com/gone.zip" None in
  fs Demo.st0 !! "/cache/datasets" = Some Dir ∧
  fs Demo.st0 !! "/cache/models" = Some Dir ∧
  http_get Demo.world0 "https://ex.com/gone.zip" = inr (404, []) ∧
  (main Demo.world0 args Demo.st0).1 = Raise (FailedToDownload 404) ∧
  net (main Demo.world0 args Demo.st0).2 = [HttpGet "https://ex.com/gone.zip"].
Proof.
  cbv zeta. split; [by vm_compute|]. split; [by vm_compute|]. split; [reflexivity|].
  destruct (main_image_task_dataset_failure Demo.world0
              (Build_Args "t1" "org/model" "ImageTask" "https://ex.com/gone.zip" None)
              Demo.st0 404 [])
    as (Hr & Hnet & _); [reflexivity | by vm_compute | by vm_compute
                        | reflexivity | done |].
  split; [exact Hr | exact Hnet].
Defined.

Lemma download_s3_file_net (w : world) (file_url : string)
    (save_path : option string) (tmp_dir : string) (st : state) :
  net (download_s3_file w file_url save_path tmp_dir st).2 =
  net st ++ [HttpGet file_url].
Proof.
  rewrite download_s3_file_unfold. cbv zeta.
  destruct (http_get w file_url) as [e|[status body]]; [done|].
  destruct (status =? 200); [|done]. by destruct (open_wb_error _ _) as [e|].
Qed.

Lemma CLIPTokenizer_from_pretrained_net (w : world) (name cache_dir : string)
    (st : state) :
  net (CLIPTokenizer_from_pretrained w name cache_dir st).2 =
  net st ++ [ClipFromPretrained name cache_dir].
Proof.
  unfold CLIPTokenizer_from_pretrained. unfold_monad.
  by destruct (clip_files w name).
Qed.

Lemma snapshot_download_net (w : world) (repo_id repo_type local_dir : string)
    (allow_patterns : option (list string)) (st : state) :
  net (snapshot_download w repo_id repo_type local_dir allow_patterns st).2 =
  net st ++ [SnapshotDownload repo_id repo_type local_dir allow_patterns].
Proof.
  unfold snapshot_download. unfold_monad.
  by destruct (snapshot w repo_id repo_type allow_patterns).
Qed.

Lemma bind_ok {A B} (m : M A) (k : A → M B) (st : state) (b : B) :
  (bind m k st).1 = Ok b →
  ∃ a, (m st).1 = Ok a ∧ bind m k st = k a (m st).2.
Proof.
  unfold bind. destruct (m st) as [[a|e] st1]; simpl; [|done]. by exists a.
Qed.

Lemma download_image_dataset_net (w : world)
    (dataset_zip_url task_id dataset_dir lp : string) (st : state) :
  (download_image_dataset w dataset_zip_url task_id dataset_dir st).1 = Ok lp →
  net (download_image_dataset w dataset_zip_url task_id dataset_dir st).2 =
  net st ++ [HttpGet dataset_zip_url].
Proof.
  unfold download_image_dataset. unfold_monad. cbv zeta.
  pose proof (makedirs_frame dataset_dir st) as [Hnet _].
  destruct (makedirs dataset_dir st) as [[[]|e] st1]; [|done]. simpl in Hnet.
  pose proof (download_s3_file_net w dataset_zip_url
                (Some (dataset_dir +:+ "/" +:+ task_id +:+ ".zip")) "/tmp"
                (State (fs st1) (net st1)
                   (stdout st1 ++ ["Downloading dataset from: " +:+ dataset_zip_url])))
    as Hs3.
  destruct (download_s3_file _ _ _ _ _) as [[lp'|e] st2]; [|done]. simpl in *.
  intros _. by rewrite Hs3, Hnet.
Qed.

(** The calls of a generic base-model fetch that returns. *)
Lemma download_base_model_calls (w : world) (repo_id save_root p : string)
    (st : state) :
  (download_base_model w repo_id save_root st).1 = Ok p →
  ∃ l, net (download_base_model w repo_id save_root st).2 = net st ++ l ∧
       if path_exists (fs st) (model_cache_path repo_id save_root) then l = []
       else base_model_calls w repo_id (model_cache_path repo_id save_root) l.
Proof.
  destruct (path_exists (fs st) (model_cache_path repo_id save_root)) eqn:Hex.
  - destruct (download_base_model_hit w _ _ _ Hex) as [line ->]. intros _.
    exists []. by rewrite app_nil_r.
  - destruct (repo_tree w repo_id "model") as [e|files] eqn:Hls.
    + unfold download_base_model, model_cache_path in *.
      unfold is_safetensors_available, list_repo_tree. unfold_monad.
      cbn beta iota zeta. by rewrite Hex, Hls.
    + rewrite (download_base_model_miss_unfold w _ _ _ files Hex Hls). cbv zeta.
      unfold base_model_calls.
      destruct (largest_file_loop total_check_size files) as [b|] eqn:Hb.
      * rewrite download_from_huggingface_unfold. cbv zeta.
        set (st1 := State (fs st) (net st ++ [ListRepoTree repo_id "model"])
                      (stdout st)).
        pose proof (makedirs_frame
                      (expanduser w (model_cache_path repo_id save_root)) st1)
          as [Hnet _].
        destruct (makedirs _ st1) as [[[]|e] st2]; [|done]. simpl in Hnet.
        destruct (path_exists (fs st2) _).
        -- intros _. exists [ListRepoTree repo_id "model"]. simpl.
           split; [done|]. exists files. rewrite Hb. split; [done | by left].
        -- destruct (hub_file w repo_id (entry_path b)) as [e|data]; [done|].
           intros _. exists [ListRepoTree repo_id "model";
                             HfHubDownload repo_id (entry_path b)].
           simpl. rewrite Hnet. simpl. rewrite <- app_assoc.
           split; [done|]. exists files. rewrite Hb. split; [done | by right].
      * unfold bind.
        pose proof (snapshot_download_net w repo_id "model"
                      (model_cache_path repo_id save_root) None
                      (State (fs st) (net st ++ [ListRepoTree repo_id "model"])
                         (stdout st))) as Hnet.
        destruct (snapshot_download _ _ _ _ _ _) as [[[]|e] st2]; [|done].
        simpl in *. intros _.
        exists [ListRepoTree repo_id "model";
                SnapshotDownload repo_id "model"
                  (model_cache_path repo_id save_root) None].
        rewrite Hnet, <- app_assoc. split; [done|]. exists files.
        by rewrite Hb.
Qed.

(** X14. The order of a successful image task.  When [main] returns on an
    image task, the calls it has added to the log are, in this order: the
    GET of the dataset archive, then the calls of the generic base-model
    fetch for the model, then the two tokenizer fetches and the snapshot of
    the text encoder restricted to its four allow-listed files.  The calls
    of the model fetch are none, or the listing of the repository followed
    by at most one call: the download of the entry the selection loop
    chose, or, when it chose none, the snapshot of the whole repository
    into the cache path.  They are none when the cache path of the model
    was there at the start. *)
Theorem main_image_task_order (w : world) (args : Args) (st : state) :
  let save_path := model_cache_path (arg_model args) "/cache/models" in
  arg_task_type args = TaskType_value IMAGETASK →
  (main w args st).1 = Ok tt →
  ∃ model_calls,
    net (main w args st).2 =
      net st ++ [HttpGet (arg_dataset args)] ++ model_calls ++ auxiliary_calls ∧
    (model_calls = [] ∨ base_model_calls w (arg_model args) save_path model_calls) ∧
    (path_exists (fs st) save_path = true → model_calls = []).
Proof.
  cbv zeta. intros Himage. rewrite main_image_unfold by done. intros Hok.
  pose proof (keeps_paths_makedirs "/cache/datasets" st) as K1.
  pose proof (makedirs_frame "/cache/datasets" st) as [N1 _].
  destruct (bind_ok _ _ _ _ Hok) as ([] & _ & Heq).
  rewrite Heq in Hok |- *. clear Heq.
  set (s1 := (makedirs "/cache/datasets" st).2) in *.
  pose proof (keeps_paths_makedirs "/cache/models" s1) as K2.
  pose proof (makedirs_frame "/cache/models" s1) as [N2 _].
  destruct (bind_ok _ _ _ _ Hok) as ([] & _ & Heq).
  rewrite Heq in Hok |- *. clear Heq.
  set (s2 := (makedirs "/cache/models" s1).2) in *.
  destruct (bind_ok _ _ _ _ Hok) as ([] & _ & Heq).
  rewrite Heq in Hok |- *. clear Heq.
  destruct (bind_ok _ _ _ _ Hok) as ([] & _ & Heq).
  rewrite Heq in Hok |- *. clear Heq.
  set (s3 := (print "Downloading models to: /cache/models"
                (print "Downloading datasets to: /cache/datasets" s2).2).2) in *.
  assert (N3 : net s3 = net st) by (simpl; by rewrite N2, N1).
  assert (K3 : ∀ q, path_exists (fs st) q = true → path_exists (fs s3) q = true).
  { intros q Hq. by apply K2, K1. }
  destruct (bind_ok _ _ _ _ Hok) as (mp & Hfetch & Heq).
  rewrite Heq. clear Heq Hok.
  assert (Hgoal : ∃ model_calls,
    net (bind (download_image_dataset w (arg_dataset args) (arg_task_id args)
                 "/cache/datasets")
           (λ _, model_path <- download_base_model w (arg_model args) "/cache/models" ;;
                 _ <- print "Downloading clip models" ;;
                 _ <- CLIPTokenizer_from_pretrained w
                        "openai/clip-vit-large-patch14" "/cache/hf_cache" ;;
                 _ <- CLIPTokenizer_from_pretrained w
                        "laion/CLIP-ViT-bigG-14-laion2B-39B-b160k" "/cache/hf_cache" ;;
                 _ <- snapshot_download w "google/t5-v1_1-xxl" "model"
                        "/cache/hf_cache/google--t5-v1_1-xxl" (Some t5_allow_patterns) ;;
                 ret model_path) s3).2 =
      net st ++ [HttpGet (arg_dataset args)] ++ model_calls ++ auxiliary_calls ∧
    (model_calls = [] ∨
     base_model_calls w (arg_model args)
       (model_cache_path (arg_model args) "/cache/models") model_calls) ∧
    (path_exists (fs st) (model_cache_path (arg_model args) "/cache/models") = true →
     model_calls = [])).
  { destruct (bind_ok _ _ _ _ Hfetch) as (zip & Hds & Heq).
    rewrite Heq in Hfetch |- *. clear Heq.
    pose proof (download_image_dataset_net w _ _ _ _ _ Hds) as N4.
    pose proof (keeps_paths_download_image_dataset w (arg_dataset args)
                  (arg_task_id args) "/cache/datasets" s3) as K4.
    set (s4 := (download_image_dataset w (arg_dataset args) (arg_task_id args)
                  "/cache/datasets" s3).2) in *.
    destruct (bind_ok _ _ _ _ Hfetch) as (mp' & Hbm & Heq).
    rewrite Heq in Hfetch |- *. clear Heq.
    destruct (download_base_model_calls w _ _ _ _ Hbm) as (l & N5 & Hl).
    set (s5 := (download_base_model w (arg_model args) "/cache/models" s4).2) in *.
    destruct (bind_ok _ _ _ _ Hfetch) as ([] & _ & Heq).
    rewrite Heq in Hfetch |- *. clear Heq.
    set (s6 := (print "Downloading clip models" s5).2) in *.
    pose proof (CLIPTokenizer_from_pretrained_net w
                  "openai/clip-vit-large-patch14" "/cache/hf_cache" s6) as N7.
    destruct (bind_ok _ _ _ _ Hfetch) as ([] & _ & Heq).
    rewrite Heq in Hfetch |- *. clear Heq.
    set (s7 := (CLIPTokenizer_from_pretrained w
                  "openai/clip-vit-large-patch14" "/cache/hf_cache" s6).2) in *.
    pose proof (CLIPTokenizer_from_pretrained_net w
                  "laion/CLIP-ViT-bigG-14-laion2B-39B-b160k" "/cache/hf_cache" s7)
      as N8.
    destruct (bind_ok _ _ _ _ Hfetch) as ([] & _ & Heq).
    rewrite Heq in Hfetch |- *. clear Heq.
    set (s8 := (CLIPTokenizer_from_pretrained w
                  "laion/CLIP-ViT-bigG-14-laion2B-39B-b160k" "/cache/hf_cache" s7).2)
      in *.
    pose proof (snapshot_download_net w "google/t5-v1_1-xxl" "model"
                  "/cache/hf_cache/google--t5-v1_1-xxl" (Some t5_allow_patterns) s8)
      as N9.
    destruct (bind_ok _ _ _ _ Hfetch) as ([] & _ & Heq).
    rewrite Heq. clear Heq Hfetch.
    exists l. split; [|split].
    - cbn [ret snd]. rewrite N9, N8, N7. change (net s6) with (net s5).
      rewrite N5, N4, N3. unfold auxiliary_calls, t5_allow_patterns.
      by rewrite <- !app_assoc.
    - destruct (path_exists (fs s4) _); [by left | by right].
    - intros Hex. apply K3, K4 in Hex. by rewrite Hex in Hl. }
  destruct Hgoal as (l & Hnet & Hshape & Hhit). exists l.
  split; [|done]. by unfold_monad.
Qed.

Lemma main_image_task_order_witness :
  arg_task_type Scenario.image_args = TaskType_value IMAGETASK ∧
  (main Scenario.world1 Scenario.image_args Demo.st0).1 = Ok tt ∧
  net (main Scenario.world1 Scenario.image_args Demo.st0).2 =
    [HttpGet Scenario.zip_url] ++
    [ListRepoTree "org/model" "model";
     HfHubDownload "org/model" "model.safetensors"] ++
    auxiliary_calls ∧
  net (main Scenario.world1 Scenario.image_args Demo.st_cached).2 =
    [HttpGet Scenario.zip_url] ++ auxiliary_calls.
Proof.
  split; [reflexivity|]. split; [by vm_compute|].
  destruct (main_image_task_order Scenario.world1 Scenario.image_args Demo.st0)
    as (m & Hnet & _); [reflexivity | by vm_compute |].
  by vm_compute.
Defined.

(** ** A text task run twice *)

Lemma bind_silent {A B} (m : M A) (k : A → M B) (st : state) :
  net (m st).2 = net st →
  (∀ a, (m st).1 = Ok a → net (k a (m st).2).2 = net (m st).2) →
  net (bind m k st).2 = net st.
Proof.
  unfold bind. destruct (m st) as [[a|e] st1]; simpl; [|done].
  intros Hm Hk. rewrite <- Hm. by apply Hk.
Qed.

Lemma download_s3_file_no_new_dir (w : world) (file_url : string)
    (save_path : option string) (tmp_dir : string) (st : state) (q : string) :
  path_isdir (fs st) q = false →
  path_isdir (fs (download_s3_file w file_url save_path tmp_dir st).2) q = false.
Proof.
  intros Hq. rewrite download_s3_file_unfold. cbv zeta.
  destruct (http_get w file_url) as [e|[status body]]; [done|].
  destruct (status =? 200); [|done].
  set (lp := s3_local_file_path w (fs st) file_url save_path tmp_dir).
  destruct (open_wb_error (fs st) lp) as [e|] eqn:Hw; [done|].
  apply open_wb_ok in Hw as (_ & _ & Hnd & _). simpl.
  by rewrite path_isdir_insert_file.
Qed.

Lemma endswith_slash_app (s t : string) :
  Py.truthy t = true → Py.endswith (s +:+ t) "/" = Py.endswith t "/".
Proof.
  intros Ht. destruct t as [|a t]; [done|]. clear Ht.
  induction s as [|c s IH]; [done|].
  rewrite str_app_cons. cbn [Py.endswith]. rewrite IH.
  replace (String c (s +:+ String a t) =? "/")%string with false; [done|].
  symmetry. apply String.eqb_neq. intros [= _ H]. by destruct s.
Qed.

(** The cache path of an S3 dataset is written as a name: [isdir] looks it
    up as it is. *)
Lemma train_data_path_name (dataset_dir task_id : string) :
  let q := Py.join dataset_dir (task_id +:+ "_train_data.json") in
  Py.truthy q = true ∧ Py.endswith q "/" = false.
Proof.
  cbv zeta. destruct (join_suffix dataset_dir (task_id +:+ "_train_data.json"))
    as [pre ->].
  assert (Ht : Py.truthy (task_id +:+ "_train_data.json") = true).
  { apply truthy_length. rewrite str_length_app. simpl. lia. }
  split.
  - apply truthy_length. rewrite !str_length_app. simpl. lia.
  - rewrite endswith_slash_app by done. by rewrite endswith_slash_app.
Qed.

Lemma shutil_copy_ok (src dst d : string) (st : state) :
  path_isdir (fs st) dst = false →
  (shutil_copy src dst st).1 = Ok d →
  path_exists (fs (shutil_copy src dst st).2) dst = true.
Proof.
  intros Hnd. unfold shutil_copy, open_wb_write. rewrite Hnd. unfold_monad.
  destruct (fs st !! src) as [[|data]|]; [done| |done].
  case_bool_decide; [done|]. simpl.
  destruct (open_wb_error (fs st) dst) as [e|]; [done|]. simpl. intros _.
  unfold path_exists. by rewrite lookup_insert_eq.
Qed.

(** When the dataset fetch returns, what it returns is the cache path of the
    request, and that path exists. *)
Lemma download_text_dataset_ok_cached (w : world) (task_id dataset_url : string)
    (file_format : option string) (dataset_dir p : string) (ff : option string)
    (st : state) :
  (download_text_dataset w task_id dataset_url file_format dataset_dir st).1 =
    Ok (p, ff) →
  ∃ f, file_format = Some (FileFormat_value f) ∧
       dataset_cache_path task_id dataset_url f dataset_dir = Some p ∧
       path_exists
         (fs (download_text_dataset w task_id dataset_url file_format dataset_dir st).2)
         p = true.
Proof.
  remember (download_text_dataset w task_id dataset_url file_format dataset_dir st)
    as r eqn:Hr.
  revert Hr. unfold download_text_dataset. unfold_monad.
  destruct (makedirs dataset_dir st) as [[[]|e] st1]; [|by intros ->].
  case_bool_decide as Hs3; [|case_bool_decide as Hhf].
  - set (q := Py.join dataset_dir (task_id +:+ "_train_data.json")).
    destruct (path_exists (fs st1) q) eqn:Hex; cbn [negb].
    + intros -> [= <- <-]. exists S3. split; [done|]. split; [done|]. exact Hex.
    + pose proof (download_s3_file_no_new_dir w dataset_url None "/tmp" st1 q) as Hnd.
      destruct (download_s3_file w dataset_url None "/tmp" st1) as [[lp|e] st2];
        [|by intros ->]. simpl in Hnd.
      pose proof (shutil_copy_ok lp q) as Hcopy.
      specialize (Hcopy) with (st := st2).
      destruct (shutil_copy lp q st2) as [[d|e] st3]; [|by intros ->].
      intros -> [= <- <-]. exists S3.
      split; [done|]. split; [done|]. eapply Hcopy; [|done].
      apply Hnd. destruct (train_data_path_name dataset_dir task_id) as [Ht Hend].
      fold q in Ht, Hend. rewrite (path_isdir_lookup _ _ Ht Hend).
      unfold path_exists in Hex. by destruct (fs st1 !! q).
  - set (q := Py.join dataset_dir (Py.replace "/" "--" dataset_url)).
    destruct (path_exists (fs st1) q) eqn:Hex; cbn [negb].
    + intros -> [= <- <-]. exists HF. split; [done|]. split; [done|]. exact Hex.
    + pose proof (keeps_paths_snapshot_download w dataset_url "dataset" q None) as _.
      unfold snapshot_download. unfold_monad.
      destruct (snapshot w dataset_url "dataset" None) as [e|content];
        [by intros ->|].
      intros -> [= <- <-]. exists HF. split; [done|]. split; [done|].
      apply path_exists_place_files. by right.
  - by intros ->.
Qed.

Lemma download_axolotl_base_model_ok_cached (w : world) (repo_id save_dir p : string)
    (st : state) :
  (download_axolotl_base_model w repo_id save_dir st).1 = Ok p →
  path_exists (fs (download_axolotl_base_model w repo_id save_dir st).2)
    (model_cache_path repo_id save_dir) = true.
Proof.
  remember (download_axolotl_base_model w repo_id save_dir st) as r eqn:Hr.
  revert Hr.
  unfold download_axolotl_base_model, model_cache_path, snapshot_download.
  unfold_monad. cbv zeta.
  destruct (path_exists (fs st) _) eqn:Hex; [by intros ->|]. simpl.
  destruct (snapshot w repo_id "model" None) as [e|content]; [by intros ->|].
  intros -> _. apply path_exists_place_files. by right.
Qed.

(** With the dataset and the model cached, [main] on a text task makes no
    outside call. *)
Lemma main_text_warm_silent (w : world) (args : Args) (f : FileFormat)
    (p : string) (st : state) :
  arg_task_type args ∈ task_type_choices →
  arg_task_type args ≠ TaskType_value IMAGETASK →
  arg_file_format args = Some (FileFormat_value f) →
  dataset_cache_path (arg_task_id args) (arg_dataset args) f "/cache/datasets" = Some p →
  path_exists (fs st) p = true →
  path_exists (fs st) (model_cache_path (arg_model args) "/cache/models") = true →
  net (main w args st).2 = net st.
Proof.
  intros Hchoice Htext Hff Hp Hex Hexm. rewrite main_text_unfold by done.
  pose proof (keeps_paths_makedirs "/cache/datasets" st) as K1.
  pose proof (makedirs_frame "/cache/datasets" st) as [N1 _].
  apply bind_silent; [done|]. intros _ _.
  set (s1 := (makedirs "/cache/datasets" st).2) in *.
  pose proof (keeps_paths_makedirs "/cache/models" s1) as K2.
  pose proof (makedirs_frame "/cache/models" s1) as [N2 _].
  apply bind_silent; [done|]. intros _ _.
  set (s2 := (makedirs "/cache/models" s1).2) in *.
  apply bind_silent; [done|]. intros _ _.
  apply bind_silent; [done|]. intros _ _.
  set (s3 := (print "Downloading models to: /cache/models"
                (print "Downloading datasets to: /cache/datasets" s2).2).2).
  assert (Hex3 : path_exists (fs s3) p = true) by (by apply K2, K1).
  assert (Hexm3 : path_exists (fs s3)
                    (model_cache_path (arg_model args) "/cache/models") = true)
    by (by apply K2, K1).
  apply bind_silent.
  - apply bind_silent.
    + rewrite Hff. by eapply download_text_dataset_hit_silent.
    + intros r _.
      pose proof (keeps_paths_download_text_dataset w (arg_task_id args)
                    (arg_dataset args) (arg_file_format args) "/cache/datasets"
                    s3 _ Hexm3) as Hexm4.
      by destruct (download_axolotl_base_model_hit w _ _ _ Hexm4) as [line ->].
  - intros mp _. apply bind_silent; [done|]. by intros.
Qed.

(** X15. A text task run twice.  When [main] has returned on a text task,
    the dataset and the model are at their cache paths, and a second run on
    the state the first one left makes no outside call. *)
Theorem main_text_task_rerun_offline (w : world) (args : Args) (st : state) :
  arg_task_type args ∈ task_type_choices →
  arg_task_type args ≠ TaskType_value IMAGETASK →
  (main w args st).1 = Ok tt →
  (∃ f p,
     arg_file_format args = Some (FileFormat_value f) ∧
     dataset_cache_path (arg_task_id args) (arg_dataset args) f "/cache/datasets"
       = Some p ∧
     path_exists (fs (main w args st).2) p = true) ∧
  path_exists (fs (main w args st).2)
    (model_cache_path (arg_model args) "/cache/models") = true ∧
  net (main w args (main w args st).2).2 = net (main w args st).2.
Proof.
  intros Hchoice Htext Hok.
  assert (Hcached : ∃ f p,
    arg_file_format args = Some (FileFormat_value f) ∧
    dataset_cache_path (arg_task_id args) (arg_dataset args) f "/cache/datasets"
      = Some p ∧
    path_exists (fs (main w args st).2) p = true ∧
    path_exists (fs (main w args st).2)
      (model_cache_path (arg_model args) "/cache/models") = true).
  { revert Hok. rewrite main_text_unfold by done. intros Hok.
    destruct (bind_ok _ _ _ _ Hok) as ([] & _ & Heq).
    rewrite Heq in Hok |- *. clear Heq.
    set (s1 := (makedirs "/cache/datasets" st).2) in *.
    destruct (bind_ok _ _ _ _ Hok) as ([] & _ & Heq).
    rewrite Heq in Hok |- *. clear Heq.
    set (s2 := (makedirs "/cache/models" s1).2) in *.
    destruct (bind_ok _ _ _ _ Hok) as ([] & _ & Heq).
    rewrite Heq in Hok |- *. clear Heq.
    destruct (bind_ok _ _ _ _ Hok) as ([] & _ & Heq).
    rewrite Heq in Hok |- *. clear Heq.
    set (s3 := (print "Downloading models to: /cache/models"
                  (print "Downloading datasets to: /cache/datasets" s2).2).2) in *.
    destruct (bind_ok _ _ _ _ Hok) as (mp & Hfetch & Heq).
    rewrite Heq. clear Heq Hok.
    destruct (bind_ok _ _ _ _ Hfetch) as ([p ff] & Hds & Heq).
    rewrite Heq in Hfetch |- *. clear Heq.
    destruct (download_text_dataset_ok_cached w _ _ _ _ _ _ _ Hds)
      as (f & Hff & Hp & Hex).
    set (s4 := (download_text_dataset w (arg_task_id args) (arg_dataset args)
                  (arg_file_format args) "/cache/datasets" s3).2) in *.
    pose proof (download_axolotl_base_model_ok_cached w _ _ _ _ Hfetch) as Hexm.
    pose proof (keeps_paths_download_axolotl_base_model w (arg_model args)
                  "/cache/models" s4 p Hex) as Hex'.
    exists f, p. split; [done|]. split; [done|]. by unfold_monad. }
  destruct Hcached as (f & p & Hff & Hp & Hex & Hexm).
  split; [by exists f, p|]. split; [done|].
  by eapply main_text_warm_silent.
Qed.

Lemma main_text_task_rerun_offline_witness :
  arg_task_type Scenario.hf_args ∈ task_type_choices ∧
  (main Demo.world0 Scenario.hf_args Demo.st0).1 = Ok tt ∧
  net (main Demo.world0 Scenario.hf_args Demo.st0).2 =
    [SnapshotDownload "org/data" "dataset" "/cache/datasets/org--data" None;
     SnapshotDownload "org/model" "model" "/cache/models/org--model" None] ∧
  net (main Demo.world0 Scenario.hf_args
         (main Demo.world0 Scenario.hf_args Demo.st0).2).2 =
    net (main Demo.world0 Scenario.hf_args Demo.st0).2.
Proof.
  assert (Hchoice : arg_task_type Scenario.hf_args ∈ task_type_choices).
  { unfold task_type_choices. simpl. set_solver. }
  split; [exact Hchoice|]. split; [by vm_compute|]. split; [by vm_compute|].
  destruct (main_text_task_rerun_offline Demo.world0 Scenario.hf_args Demo.st0)
    as (_ & _ & Hnet); [exact Hchoice | done | by vm_compute |].
  exact Hnet.
Defined.
